(** * Gemini-Multi-Tool: the client-side raster pipeline and the scan history

    A shallow embedding of the three React components that touch a canvas
    ([BillScanner.tsx], [ImageEditor.tsx], [ImageGenerator.tsx]) and of the
    scan-history bookkeeping of [BillScanner.tsx].

    Conventions.
    - A JavaScript number that only ever holds an integer (image sizes, the
      rotation in degrees, timestamps) is a [Z]; slider values and channel
      values are rationals ([Q]); the geometry of [handleSaveChanges], which
      goes through [Math.cos], [Math.sin] and [Math.PI], is written over the
      reals ([R]), the usual idealisation of IEEE doubles.
    - A React state is a record, a handler is a function from the state before
      to a [Completion] of the state after.
    - What the browser does behind a canvas call is part of the [Canvas]
      module; the pieces no standard fixes (how lossy the JPEG encoder is, how
      glyphs are rasterised) are fields of a [Browser] record. *)

From Stdlib Require Import ZArith QArith Reals Lra Lia.
From stdpp Require Import base strings list gmap.

(** ** Numbers *)

Module Numeric.

(** [Math.min(255, Math.max(0, v))] on a channel value. *)
Definition clamp255 (v : Q) : Q :=
  if Qle_bool v 0 then 0%Q
  else if Qle_bool 255 v then 255%Q
  else v.

(** Truncation towards zero, the first step of every WebIDL integer
    conversion. *)
Definition truncate (x : R) : Z :=
  if Rle_dec 0 x then Int_part x else (- Int_part (- x))%Z.

(** WebIDL conversion of a number to [unsigned long]. *)
Definition ToUint32 (x : R) : Z := (truncate x mod 2 ^ 32)%Z.

(** The mathematical ceiling. *)
Definition Rceil (x : R) : Z := (- Int_part (- x))%Z.

(** JavaScript's [%] keeps the sign of the dividend. *)
Definition js_rem (a b : Z) : Z := Z.rem a b.

End Numeric.

(** ** Completions

    A handler either returns or throws. *)

Record JsError := { err_name : string; err_message : string }.

Inductive Completion (A : Type) : Type :=
| Normal (a : A)
| Throw (e : JsError).
Arguments Normal {A} a.
Arguments Throw {A} e.

Definition InvalidInputError (msg : string) : JsError :=
  {| err_name := "InvalidInputError"; err_message := msg |}.

(** ** JavaScript strings: sequences of UTF-16 code units *)

Module JsString.

Definition t := list N.

(** [WhiteSpace] and [LineTerminator] code points of ECMAScript, the ones
    [String.prototype.trim] removes. *)
Definition isWhiteSpace (c : N) : bool :=
  (  (c =? 0x09) || (c =? 0x0A) || (c =? 0x0B) || (c =? 0x0C) || (c =? 0x0D)
  || (c =? 0x20) || (c =? 0xA0) || (c =? 0x1680)
  || ((0x2000 <=? c) && (c <=? 0x200A))
  || (c =? 0x2028) || (c =? 0x2029) || (c =? 0x202F) || (c =? 0x205F)
  || (c =? 0x3000) || (c =? 0xFEFF))%N.

Fixpoint trimStart (s : t) : t :=
  match s with
  | [] => []
  | c :: rest => if isWhiteSpace c then trimStart rest else s
  end.

Definition trimEnd (s : t) : t := rev (trimStart (rev s)).

Definition trim (s : t) : t := trimEnd (trimStart s).

(** Empty, or white space only. *)
Definition blank (s : t) : bool := forallb isWhiteSpace s.

(** Truthiness of a string: every string but the empty one. *)
Definition truthy (s : t) : bool :=
  match s with [] => false | _ :: _ => true end.

Definition of_string (s : string) : t :=
  map (fun a => Ascii.N_of_ascii a) (String.list_ascii_of_string s).

End JsString.

(** ** The canvas *)

Module Canvas.

Import Numeric.

(** An RGBA pixel, channels on the 8-bit scale [0, 255]. *)
Record Pixel := { red : Q; green : Q; blue : Q; alpha : Q }.

Definition transparent : Pixel :=
  {| red := 0; green := 0; blue := 0; alpha := 0 |}.

(** A decoded raster: [pixel x y] is meaningful for [0 <= x < width] and
    [0 <= y < height]. *)
Record Image := { width : Z; height : Z; pixel : Z -> Z -> Pixel }.

Definition inside (w h x y : Z) : bool :=
  ((0 <=? x) && (x <? w) && (0 <=? y) && (y <? h))%Z.

(** *** Filters

    [ctx.filter] holds a list of filter functions, applied in the order in
    which they are written. *)

Inductive FilterFn :=
| brightness (amount : Q)
| contrast (amount : Q)
| saturate (amount : Q).

(** Modelled from the spec: the weights of the per-pixel luminance, which the
    source leaves to the browser and the spec does not give; they are the
    ones of the [saturate()] filter that the source asks for. *)
Definition luminance (p : Pixel) : Q :=
  (213 # 1000) * red p + (715 # 1000) * green p + (72 # 1000) * blue p.

(** Modelled from the spec: the brightness filter, which the source leaves to
    the browser: every RGB channel scaled by the factor and clamped, alpha
    unaffected. *)
Definition brightnessPixel (b : Q) (p : Pixel) : Pixel :=
  {| red := clamp255 (red p * b);
     green := clamp255 (green p * b);
     blue := clamp255 (blue p * b);
     alpha := alpha p |}.

(** Modelled from the spec: the contrast step, which the source leaves to the
    browser: [out = (in - 128) * contrastFactor + 128], clamped, per RGB
    channel. *)
Definition contrastChannel (c v : Q) : Q := clamp255 ((v - 128) * c + 128).

Definition contrastPixel (c : Q) (p : Pixel) : Pixel :=
  {| red := contrastChannel c (red p);
     green := contrastChannel c (green p);
     blue := contrastChannel c (blue p);
     alpha := alpha p |}.

(** Modelled from the spec: the saturation step, which the source leaves to
    the browser: [out = gray + (color - gray) * saturationFactor], clamped,
    with [gray] the luminance of the pixel it is applied to. *)
Definition saturateChannel (s gray v : Q) : Q :=
  clamp255 (gray + (v - gray) * s).

Definition saturatePixel (s : Q) (p : Pixel) : Pixel :=
  let gray := luminance p in
  {| red := saturateChannel s gray (red p);
     green := saturateChannel s gray (green p);
     blue := saturateChannel s gray (blue p);
     alpha := alpha p |}.

Definition applyFilterFn (f : FilterFn) (p : Pixel) : Pixel :=
  match f with
  | brightness b => brightnessPixel b p
  | contrast c => contrastPixel c p
  | saturate s => saturatePixel s p
  end.

Definition applyFilter (fs : list FilterFn) (p : Pixel) : Pixel :=
  fold_left (fun q f => applyFilterFn f q) fs p.

(** *** The current transformation matrix

    [x' = a x + c y + e], [y' = b x + d y + f]. *)

Record Matrix := { ma : R; mb : R; mc : R; md : R; me : R; mf : R }.

Definition identity : Matrix :=
  {| ma := 1; mb := 0; mc := 0; md := 1; me := 0; mf := 0 |}.

Definition translateMatrix (m : Matrix) (tx ty : R) : Matrix :=
  {| ma := ma m; mb := mb m; mc := mc m; md := md m;
     me := ma m * tx + mc m * ty + me m;
     mf := mb m * tx + md m * ty + mf m |}%R.

Definition rotateMatrix (m : Matrix) (angle : R) : Matrix :=
  {| ma := ma m * cos angle + mc m * sin angle;
     mb := mb m * cos angle + md m * sin angle;
     mc := - ma m * sin angle + mc m * cos angle;
     md := - mb m * sin angle + md m * cos angle;
     me := me m; mf := mf m |}%R.

(** The point of user space that the matrix sends to [(x', y')]. *)
Definition unapply (m : Matrix) (x' y' : R) : R * R :=
  let det := (ma m * md m - mb m * mc m)%R in
  ((md m * (x' - me m) - mc m * (y' - mf m)) / det,
   (ma m * (y' - mf m) - mb m * (x' - me m)) / det)%R.

(** *** Text state *)

Inductive TextAlign := align_start | align_end | align_left | align_right | align_center.
Inductive TextBaseline :=
| baseline_top | baseline_hanging | baseline_middle
| baseline_alphabetic | baseline_ideographic | baseline_bottom.

(** [ctx.font = `${size}px ${family}`]. *)
Record Font := { font_size : Q; font_family : string }.

Inductive TextKind := stroke | fill.

(** One [strokeText] or [fillText] call, with the state it was issued in. *)
Record TextOp := {
  op_kind : TextKind;
  op_text : JsString.t;
  op_x : Q;
  op_y : Q;
  op_font : Font;
  op_style : string;
  op_lineWidth : Q;
  op_align : TextAlign;
  op_baseline : TextBaseline
}.

(** *** The browser

    What no standard fixes: whether a 2D context can be had, what the lossy
    JPEG encoder makes of the colour channels, which image types besides
    PNG and JPEG the canvas can be serialised to (and what such an encoder
    makes of the pixels: Chromium writes lossy [image/webp], Firefox and
    Safari do not write it at all), how glyphs become pixels. *)
Record Browser := {
  getContext2d : bool;
  jpegColour : (Z -> Z -> Pixel) -> Z -> Z -> Pixel;
  otherEncoder : string -> option ((Z -> Z -> Pixel) -> Z -> Z -> Pixel);
  paintText : TextOp -> (Z -> Z -> Pixel) -> Z -> Z -> Pixel
}.

(** *** Canvas state *)

Record t := {
  cv_width : Z;
  cv_height : Z;
  cv_bitmap : Z -> Z -> Pixel;
  cv_filter : list FilterFn;
  cv_ctm : Matrix;
  cv_font : Font;
  cv_fillStyle : string;
  cv_strokeStyle : string;
  cv_lineWidth : Q;
  cv_textAlign : TextAlign;
  cv_textBaseline : TextBaseline;
  cv_text : list TextOp      (* the text calls issued so far, oldest first *)
}.

(** A canvas of the given size in its reset state: transparent black bitmap,
    default drawing state. *)
Definition blank (w h : Z) : t :=
  {| cv_width := w; cv_height := h;
     cv_bitmap := fun _ _ => transparent;
     cv_filter := [];
     cv_ctm := identity;
     cv_font := {| font_size := 10; font_family := "sans-serif" |};
     cv_fillStyle := "#000000";
     cv_strokeStyle := "#000000";
     cv_lineWidth := 1;
     cv_textAlign := align_start;
     cv_textBaseline := baseline_alphabetic;
     cv_text := [] |}.

(** [document.createElement('canvas')]. *)
Definition createCanvas : t := blank 300 150.

(** The [width] and [height] attributes are [unsigned long], limited to
    non-negative numbers with defaults 300 and 150. *)
Definition dimension (default : Z) (v : R) : Z :=
  let n := ToUint32 v in
  if (n <=? 2147483647)%Z then n else default.

(** [canvas.width = v] and [canvas.height = v]: the number is converted to an
    integer and the canvas is reset. *)
Definition setWidth (cv : t) (v : R) : t := blank (dimension 300 v) (cv_height cv).
Definition setHeight (cv : t) (v : R) : t := blank (cv_width cv) (dimension 150 v).

Definition setFilter (cv : t) (fs : list FilterFn) : t :=
  {| cv_width := cv_width cv; cv_height := cv_height cv; cv_bitmap := cv_bitmap cv;
     cv_filter := fs;
     cv_ctm := cv_ctm cv; cv_font := cv_font cv; cv_fillStyle := cv_fillStyle cv;
     cv_strokeStyle := cv_strokeStyle cv; cv_lineWidth := cv_lineWidth cv;
     cv_textAlign := cv_textAlign cv; cv_textBaseline := cv_textBaseline cv;
     cv_text := cv_text cv |}.

Definition setCtm (cv : t) (m : Matrix) : t :=
  {| cv_width := cv_width cv; cv_height := cv_height cv; cv_bitmap := cv_bitmap cv;
     cv_filter := cv_filter cv;
     cv_ctm := m;
     cv_font := cv_font cv; cv_fillStyle := cv_fillStyle cv;
     cv_strokeStyle := cv_strokeStyle cv; cv_lineWidth := cv_lineWidth cv;
     cv_textAlign := cv_textAlign cv; cv_textBaseline := cv_textBaseline cv;
     cv_text := cv_text cv |}.

(** [ctx.translate(tx, ty)] and [ctx.rotate(angle)]. *)
Definition translate (cv : t) (tx ty : R) : t := setCtm cv (translateMatrix (cv_ctm cv) tx ty).
Definition rotate (cv : t) (angle : R) : t := setCtm cv (rotateMatrix (cv_ctm cv) angle).

Definition setBitmap (cv : t) (bm : Z -> Z -> Pixel) : t :=
  {| cv_width := cv_width cv; cv_height := cv_height cv;
     cv_bitmap := bm;
     cv_filter := cv_filter cv; cv_ctm := cv_ctm cv; cv_font := cv_font cv;
     cv_fillStyle := cv_fillStyle cv; cv_strokeStyle := cv_strokeStyle cv;
     cv_lineWidth := cv_lineWidth cv; cv_textAlign := cv_textAlign cv;
     cv_textBaseline := cv_textBaseline cv; cv_text := cv_text cv |}.

(** [ctx.drawImage(img, dx, dy)] on a canvas that holds nothing under the
    image yet: the canvas pixel whose centre falls, through the current
    matrix, on a pixel of the image takes that pixel, filtered. *)
Definition drawImage (cv : t) (img : Image) (dx dy : R) : t :=
  setBitmap cv (fun X Y =>
    let '(ux, uy) := unapply (cv_ctm cv) (IZR X + 1 / 2) (IZR Y + 1 / 2) in
    let sx := Int_part (ux - dx) in
    let sy := Int_part (uy - dy) in
    if inside (cv_width cv) (cv_height cv) X Y && inside (width img) (height img) sx sy
    then applyFilter (cv_filter cv) (pixel img sx sy)
    else cv_bitmap cv X Y).

(** The setters of the text state. *)
Definition setText (cv : t) (font : Font) (fillStyle strokeStyle : string)
    (lineWidth : Q) (align : TextAlign) (baseline : TextBaseline) : t :=
  {| cv_width := cv_width cv; cv_height := cv_height cv; cv_bitmap := cv_bitmap cv;
     cv_filter := cv_filter cv; cv_ctm := cv_ctm cv;
     cv_font := font; cv_fillStyle := fillStyle; cv_strokeStyle := strokeStyle;
     cv_lineWidth := lineWidth; cv_textAlign := align; cv_textBaseline := baseline;
     cv_text := cv_text cv |}.

Definition setFont cv font :=
  setText cv font (cv_fillStyle cv) (cv_strokeStyle cv) (cv_lineWidth cv)
    (cv_textAlign cv) (cv_textBaseline cv).
Definition setFillStyle cv style :=
  setText cv (cv_font cv) style (cv_strokeStyle cv) (cv_lineWidth cv)
    (cv_textAlign cv) (cv_textBaseline cv).
Definition setStrokeStyle cv style :=
  setText cv (cv_font cv) (cv_fillStyle cv) style (cv_lineWidth cv)
    (cv_textAlign cv) (cv_textBaseline cv).
Definition setLineWidth cv lw :=
  setText cv (cv_font cv) (cv_fillStyle cv) (cv_strokeStyle cv) lw
    (cv_textAlign cv) (cv_textBaseline cv).
Definition setTextAlign cv align :=
  setText cv (cv_font cv) (cv_fillStyle cv) (cv_strokeStyle cv) (cv_lineWidth cv)
    align (cv_textBaseline cv).
Definition setTextBaseline cv baseline :=
  setText cv (cv_font cv) (cv_fillStyle cv) (cv_strokeStyle cv) (cv_lineWidth cv)
    (cv_textAlign cv) baseline.

Definition textOp (cv : t) (kind : TextKind) (text : JsString.t) (x y : Q) : TextOp :=
  {| op_kind := kind; op_text := text; op_x := x; op_y := y;
     op_font := cv_font cv;
     op_style := match kind with stroke => cv_strokeStyle cv | fill => cv_fillStyle cv end;
     op_lineWidth := cv_lineWidth cv;
     op_align := cv_textAlign cv;
     op_baseline := cv_textBaseline cv |}.

Definition drawText (br : Browser) (cv : t) (kind : TextKind)
    (text : JsString.t) (x y : Q) : t :=
  let op := textOp cv kind text x y in
  {| cv_width := cv_width cv; cv_height := cv_height cv;
     cv_bitmap := paintText br op (cv_bitmap cv);
     cv_filter := cv_filter cv; cv_ctm := cv_ctm cv; cv_font := cv_font cv;
     cv_fillStyle := cv_fillStyle cv; cv_strokeStyle := cv_strokeStyle cv;
     cv_lineWidth := cv_lineWidth cv; cv_textAlign := cv_textAlign cv;
     cv_textBaseline := cv_textBaseline cv;
     cv_text := cv_text cv ++ [op] |}.

(** [ctx.strokeText(text, x, y)] and [ctx.fillText(text, x, y)]. *)
Definition strokeText br cv text x y := drawText br cv stroke text x y.
Definition fillText br cv text x y := drawText br cv fill text x y.

(** *** Data URLs

    A data URL is kept as what it decodes to. *)

Inductive DataUrl :=
| Encoded (mime : string) (raster : Image)
| Undecodable (mime : string).

(** [img.src = url]: [onload] fires with the decoded image, or never. *)
Definition decode (url : DataUrl) : option Image :=
  match url with
  | Encoded _ raster => Some raster
  | Undecodable _ => None
  end.

(** A source that gives the canvas nothing to draw: absent, or never
    decoded. *)
Definition unusable (src : option DataUrl) : bool :=
  match src with
  | None => true
  | Some url => match decode url with None => true | Some _ => false end
  end.

(** JPEG has no alpha channel: the bitmap is composited onto opaque black
    before it is encoded, and every decoded pixel is opaque. *)
Definition ontoBlack (p : Pixel) : Pixel :=
  {| red := red p * alpha p / 255;
     green := green p * alpha p / 255;
     blue := blue p * alpha p / 255;
     alpha := 255 |}.

Definition opaque (p : Pixel) : Pixel :=
  {| red := red p; green := green p; blue := blue p; alpha := 255 |}.

Definition jpegPixels (br : Browser) (bm : Z -> Z -> Pixel) : Z -> Z -> Pixel :=
  fun x y => opaque (jpegColour br (fun x' y' => ontoBlack (bm x' y')) x y).

(** [canvas.toDataURL(type)]: JPEG when asked for; for a type that is
    neither JPEG nor PNG, that type if the browser has an encoder for it;
    PNG (lossless) for PNG and for every type the browser cannot write. *)
Definition toDataURL (br : Browser) (cv : t) (type : string) : DataUrl :=
  if String.eqb type "image/jpeg"
  then Encoded "image/jpeg"
         {| width := cv_width cv; height := cv_height cv;
            pixel := jpegPixels br (cv_bitmap cv) |}
  else if String.eqb type "image/png"
  then Encoded "image/png"
         {| width := cv_width cv; height := cv_height cv;
            pixel := cv_bitmap cv |}
  else match otherEncoder br type with
       | Some encoder =>
           Encoded type
             {| width := cv_width cv; height := cv_height cv;
                pixel := encoder (cv_bitmap cv) |}
       | None =>
           Encoded "image/png"
             {| width := cv_width cv; height := cv_height cv;
                pixel := cv_bitmap cv |}
       end.

(** *** Comparing rasters

    Channels are rationals, so pixels are compared channel by channel up to
    the equality of rationals. *)

Definition channelOk (v : Q) : Prop := (0 <= v)%Q /\ (v <= 255)%Q.

Definition pixelOk (p : Pixel) : Prop :=
  channelOk (red p) /\ channelOk (green p) /\ channelOk (blue p) /\ channelOk (alpha p).

Definition pixelEq (p q : Pixel) : Prop :=
  (red p == red q)%Q /\ (green p == green q)%Q /\ (blue p == blue q)%Q
  /\ (alpha p == alpha q)%Q.

(** A decoded image: positive sizes that fit the [unsigned long] attributes
    of a canvas, 8-bit channels. *)
Definition validImage (img : Image) : Prop :=
  (0 < width img < 2 ^ 31)%Z /\ (0 < height img < 2 ^ 31)%Z
  /\ forall x y, inside (width img) (height img) x y = true -> pixelOk (pixel img x y).

(** Same size, same pixel at every position. *)
Definition samePixels (a b : Image) : Prop :=
  width a = width b /\ height a = height b
  /\ forall x y, inside (width a) (height a) x y = true -> pixelEq (pixel a x y) (pixel b x y).

(** The raster a canvas holds. *)
Definition raster (cv : t) : Image :=
  {| width := cv_width cv; height := cv_height cv; pixel := cv_bitmap cv |}.

End Canvas.

(** ** [types.ts] *)

Module Types.

Import Canvas.

(** [number | string]. *)
Inductive NumOrStr := Num (n : Q) | Str (s : string).

Record BillItem := {
  name : string;
  quantity : NumOrStr;
  price : NumOrStr;
  nameBold : option bool; nameItalic : option bool; nameUnderline : option bool;
  quantityBold : option bool; quantityItalic : option bool; quantityUnderline : option bool;
  priceBold : option bool; priceItalic : option bool; priceUnderline : option bool
}.

Record BillData := {
  items : list BillItem;
  total : NumOrStr;
  totalBold : option bool; totalItalic : option bool; totalUnderline : option bool
}.

Record ScanHistoryItem := {
  id : string;
  imageDataUrl : DataUrl;
  billData : BillData;
  timestamp : Z
}.

(** A [File] as far as the components look at it. *)
Record File := { file_name : string; file_type : string }.

End Types.

(** ** [components/BillScanner.tsx] *)

Module BillScanner.

Import Numeric Canvas Types.

Inductive ScanMode := bill | ocr.

Record ActiveField := { af_type : string; af_index : Z; af_field : string }.

(** What sits under a [localStorage] key: the JSON text of a history (kept
    as the history it parses to), or text that [JSON.parse] rejects. *)
Inductive Stored :=
| Json (entries : list ScanHistoryItem)
| Garbage (text : string).

Definition historyKey : string := "billScannerHistory".

(** The [useState] cells of the component, and the [localStorage] of the
    page. *)
Record State := {
  image : option DataUrl;
  originalImage : option DataUrl;
  imageFile : option File;
  billData : option BillData;
  ocrText : option string;
  isLoading : bool;
  error : option string;
  history : list ScanHistoryItem;
  scanMode : ScanMode;
  isEditing : bool;
  isHistoryView : bool;
  rotation : Z;
  brightness : Q;
  tempRotation : Z;
  tempBrightness : Q;
  activeField : option ActiveField;
  selectedHistoryId : option string;
  isClearing : bool;
  localStorage : gmap string Stored
}.

Definition initialState (storage : gmap string Stored) : State :=
  {| image := None; originalImage := None; imageFile := None; billData := None;
     ocrText := None; isLoading := false; error := None; history := [];
     scanMode := bill; isEditing := false; isHistoryView := false;
     rotation := 0; brightness := 1; tempRotation := 0; tempBrightness := 1;
     activeField := None; selectedHistoryId := None; isClearing := false;
     localStorage := storage |}.

(** The mount effect: load the history from [localStorage]; an entry that
    does not parse is removed. *)
Definition mountEffect (st : State) : State :=
  match localStorage st !! historyKey with
  | Some (Json entries) =>
      {| image := image st; originalImage := originalImage st; imageFile := imageFile st;
         billData := billData st; ocrText := ocrText st; isLoading := isLoading st;
         error := error st;
         history := entries;
         scanMode := scanMode st; isEditing := isEditing st;
         isHistoryView := isHistoryView st; rotation := rotation st;
         brightness := brightness st; tempRotation := tempRotation st;
         tempBrightness := tempBrightness st; activeField := activeField st;
         selectedHistoryId := selectedHistoryId st; isClearing := isClearing st;
         localStorage := localStorage st |}
  | Some (Garbage text) =>
      if String.eqb text "" then st
      else
      {| image := image st; originalImage := originalImage st; imageFile := imageFile st;
         billData := billData st; ocrText := ocrText st; isLoading := isLoading st;
         error := error st; history := history st;
         scanMode := scanMode st; isEditing := isEditing st;
         isHistoryView := isHistoryView st; rotation := rotation st;
         brightness := brightness st; tempRotation := tempRotation st;
         tempBrightness := tempBrightness st; activeField := activeField st;
         selectedHistoryId := selectedHistoryId st; isClearing := isClearing st;
         localStorage := delete historyKey (localStorage st) |}
  | None => st
  end.

(** [handleImageChange], once the [FileReader] has delivered [result]
    ([resetStateForNewImage] included). *)
Definition handleImageChange (file : File) (result : DataUrl) (st : State) : State :=
  {| image := Some result; originalImage := Some result; imageFile := Some file;
     billData := None; ocrText := None; isLoading := isLoading st;
     error := None; history := history st;
     scanMode := scanMode st; isEditing := false; isHistoryView := false;
     rotation := 0; brightness := 1; tempRotation := 0; tempBrightness := 1;
     activeField := activeField st; selectedHistoryId := None;
     isClearing := isClearing st; localStorage := localStorage st |}.

(** The model service, the clock and the storage quota, as [handleScan]
    meets them.  [setItemError storage key value] is the exception
    [localStorage.setItem(key, value)] raises on [storage] (the quota is
    exceeded, or storage is disabled), if it raises one. *)
Record ScanEnv := {
  analyzeBill : DataUrl -> string -> Completion BillData;
  extractTextFromImage : DataUrl -> string -> Completion string;
  isoNow : string;       (* new Date().toISOString() *)
  dateNow : Z;           (* Date.now() *)
  setItemError : gmap string Stored -> string -> Stored -> option JsError
}.

(** [localStorage.setItem(key, value)]: the entry is replaced, or the call
    throws and the storage is left as it was. *)
Definition setItem (env : ScanEnv) (storage : gmap string Stored)
    (key : string) (value : Stored) : Completion (gmap string Stored) :=
  match setItemError env storage key value with
  | None => Normal (<[key := value]> storage)
  | Some err => Throw err
  end.

Definition scanFailure : string := "Failed to analyze the document. Please try again.".

(** [err.message || 'Failed to analyze ...']. *)
Definition scanErrorMessage (e : JsError) : string :=
  if String.eqb (err_message e) "" then scanFailure else err_message e.

(** The state [handleScan] leaves behind, given what its [try], [catch] and
    [finally] blocks decided about [billData], [ocrText], [error], [history]
    and the storage. *)
Definition scanned (st : State) (bd : option BillData) (txt : option string)
    (err : option string) (hist : list ScanHistoryItem)
    (storage : gmap string Stored) : State :=
  {| image := image st; originalImage := originalImage st; imageFile := imageFile st;
     billData := bd; ocrText := txt; isLoading := false; error := err;
     history := hist;
     scanMode := scanMode st; isEditing := isEditing st;
     isHistoryView := isHistoryView st; rotation := rotation st;
     brightness := brightness st; tempRotation := tempRotation st;
     tempBrightness := tempBrightness st; activeField := activeField st;
     selectedHistoryId := None; isClearing := isClearing st;
     localStorage := storage |}.

Definition setError (st : State) (msg : string) : State :=
  {| image := image st; originalImage := originalImage st; imageFile := imageFile st;
     billData := billData st; ocrText := ocrText st; isLoading := isLoading st;
     error := Some msg; history := history st;
     scanMode := scanMode st; isEditing := isEditing st;
     isHistoryView := isHistoryView st; rotation := rotation st;
     brightness := brightness st; tempRotation := tempRotation st;
     tempBrightness := tempBrightness st; activeField := activeField st;
     selectedHistoryId := selectedHistoryId st; isClearing := isClearing st;
     localStorage := localStorage st |}.

Definition handleScan (env : ScanEnv) (st : State) : Completion State :=
  match image st, imageFile st with
  | Some img, Some file =>
      match scanMode st with
      | bill =>
          match analyzeBill env img (file_type file) with
          | Normal result =>
              let newHistoryItem :=
                {| id := isoNow env; imageDataUrl := img;
                   Types.billData := result; timestamp := dateNow env |} in
              let updatedHistory := take 10 (newHistoryItem :: history st) in
              (* setBillData(result) and setHistory(updatedHistory) come
                 before the write: they stand when it throws *)
              match setItem env (localStorage st) historyKey (Json updatedHistory) with
              | Normal storage =>
                  Normal (scanned st (Some result) None None updatedHistory storage)
              | Throw err =>
                  Normal (scanned st (Some result) None (Some (scanErrorMessage err))
                            updatedHistory (localStorage st))
              end
          | Throw err =>
              Normal (scanned st None None (Some (scanErrorMessage err))
                        (history st) (localStorage st))
          end
      | ocr =>
          match extractTextFromImage env img (file_type file) with
          | Normal result =>
              Normal (scanned st None (Some result) None (history st) (localStorage st))
          | Throw err =>
              Normal (scanned st None None (Some (scanErrorMessage err))
                        (history st) (localStorage st))
          end
      end
  | _, _ => Normal (setError st "Please upload an image first.")
  end.

Definition handleHistoryClick (item : ScanHistoryItem) (st : State) : State :=
  {| image := Some (imageDataUrl item); originalImage := Some (imageDataUrl item);
     imageFile := None; billData := Some (Types.billData item);
     ocrText := ocrText st; isLoading := isLoading st; error := None;
     history := history st; scanMode := scanMode st; isEditing := false;
     isHistoryView := true; rotation := rotation st; brightness := brightness st;
     tempRotation := tempRotation st; tempBrightness := tempBrightness st;
     activeField := activeField st; selectedHistoryId := Some (id item);
     isClearing := isClearing st; localStorage := localStorage st |}.

Definition setClearing (st : State) (b : bool) (hist : list ScanHistoryItem)
    (storage : gmap string Stored) : State :=
  {| image := image st; originalImage := originalImage st; imageFile := imageFile st;
     billData := billData st; ocrText := ocrText st; isLoading := isLoading st;
     error := error st; history := hist;
     scanMode := scanMode st; isEditing := isEditing st;
     isHistoryView := isHistoryView st; rotation := rotation st;
     brightness := brightness st; tempRotation := tempRotation st;
     tempBrightness := tempBrightness st; activeField := activeField st;
     selectedHistoryId := selectedHistoryId st; isClearing := b;
     localStorage := storage |}.

(** [handleClearHistory] starts the animation; the timer then empties the
    history and removes the entry. *)
Definition handleClearHistory (st : State) : State :=
  match history st with
  | [] => st
  | _ :: _ => setClearing st true (history st) (localStorage st)
  end.

Definition clearHistoryTimeout (st : State) : State :=
  setClearing st false [] (delete historyKey (localStorage st)).

Definition setScanMode (m : ScanMode) (st : State) : State :=
  {| image := image st; originalImage := originalImage st; imageFile := imageFile st;
     billData := billData st; ocrText := ocrText st; isLoading := isLoading st;
     error := error st; history := history st;
     scanMode := m; isEditing := isEditing st;
     isHistoryView := isHistoryView st; rotation := rotation st;
     brightness := brightness st; tempRotation := tempRotation st;
     tempBrightness := tempBrightness st; activeField := activeField st;
     selectedHistoryId := selectedHistoryId st; isClearing := isClearing st;
     localStorage := localStorage st |}.

(** [handleDataChange] and [handleFormatChange] compute a new bill from the
    previous one and store it with [setBillData]; focusing a field stores it
    with [setActiveField]. Neither touches anything else. *)
Definition setBillData (bd : option BillData) (st : State) : State :=
  {| image := image st; originalImage := originalImage st; imageFile := imageFile st;
     billData := bd; ocrText := ocrText st; isLoading := isLoading st;
     error := error st; history := history st;
     scanMode := scanMode st; isEditing := isEditing st;
     isHistoryView := isHistoryView st; rotation := rotation st;
     brightness := brightness st; tempRotation := tempRotation st;
     tempBrightness := tempBrightness st; activeField := activeField st;
     selectedHistoryId := selectedHistoryId st; isClearing := isClearing st;
     localStorage := localStorage st |}.

Definition setActiveField (af : option ActiveField) (st : State) : State :=
  {| image := image st; originalImage := originalImage st; imageFile := imageFile st;
     billData := billData st; ocrText := ocrText st; isLoading := isLoading st;
     error := error st; history := history st;
     scanMode := scanMode st; isEditing := isEditing st;
     isHistoryView := isHistoryView st; rotation := rotation st;
     brightness := brightness st; tempRotation := tempRotation st;
     tempBrightness := tempBrightness st; activeField := af;
     selectedHistoryId := selectedHistoryId st; isClearing := isClearing st;
     localStorage := localStorage st |}.

(** The editor: [edit] sets the four cells it owns and [isEditing]. *)
Definition edit (st : State) (img : option DataUrl) (rot : Z) (bri : Q)
    (tempRot : Z) (tempBri : Q) (editing : bool) : State :=
  {| image := img; originalImage := originalImage st; imageFile := imageFile st;
     billData := billData st; ocrText := ocrText st; isLoading := isLoading st;
     error := error st; history := history st;
     scanMode := scanMode st; isEditing := editing;
     isHistoryView := isHistoryView st; rotation := rot; brightness := bri;
     tempRotation := tempRot; tempBrightness := tempBri;
     activeField := activeField st;
     selectedHistoryId := selectedHistoryId st; isClearing := isClearing st;
     localStorage := localStorage st |}.

Definition handleEditToggle (st : State) : State :=
  if isEditing st
  then edit st (image st) (rotation st) (brightness st)
         (tempRotation st) (tempBrightness st) false
  else edit st (image st) (rotation st) (brightness st)
         (rotation st) (brightness st) true.

(** The two rotation buttons: [r => (r - 90) % 360] and
    [r => (r + 90) % 360]. *)
Definition rotateLeft (st : State) : State :=
  edit st (image st) (rotation st) (brightness st)
    (js_rem (tempRotation st - 90) 360) (tempBrightness st) (isEditing st).

Definition rotateRight (st : State) : State :=
  edit st (image st) (rotation st) (brightness st)
    (js_rem (tempRotation st + 90) 360) (tempBrightness st) (isEditing st).

Definition setTempBrightness (b : Q) (st : State) : State :=
  edit st (image st) (rotation st) (brightness st)
    (tempRotation st) b (isEditing st).

(** The canvas that the [onload] callback of [handleSaveChanges] builds for
    the decoded image [img]. *)
Definition rad (degrees : Z) : R := (IZR degrees * PI / 180)%R.

Definition newWidth (img : Image) (degrees : Z) : R :=
  (Rabs (IZR (width img) * cos (rad degrees))
   + Rabs (IZR (height img) * sin (rad degrees)))%R.

Definition newHeight (img : Image) (degrees : Z) : R :=
  (Rabs (IZR (height img) * cos (rad degrees))
   + Rabs (IZR (width img) * sin (rad degrees)))%R.

Definition renderCanvas (img : Image) (degrees : Z) (bri : Q) : Canvas.t :=
  let w := IZR (width img) in
  let h := IZR (height img) in
  let canvas := createCanvas in
  let canvas := setWidth canvas (newWidth img degrees) in
  let canvas := setHeight canvas (newHeight img degrees) in
  let canvas := setFilter canvas [Canvas.brightness bri] in
  let canvas := translate canvas (IZR (cv_width canvas) / 2) (IZR (cv_height canvas) / 2) in
  let canvas := rotate canvas (rad degrees) in
  drawImage canvas img (- w / 2) (- h / 2).

Definition handleSaveChanges (br : Browser) (st : State) : Completion State :=
  match originalImage st with
  | None => Normal st
  | Some url =>
      match decode url with
      | None => Normal st                       (* [onload] never fires *)
      | Some img =>
          if negb (getContext2d br) then Normal st
          else
            let canvas := renderCanvas img (tempRotation st) (tempBrightness st) in
            let dataUrl := toDataURL br canvas "image/jpeg" in
            Normal (edit st (Some dataUrl) (tempRotation st) (tempBrightness st)
                      (tempRotation st) (tempBrightness st) false)
      end
  end.

(** One step of the component. *)
Inductive step : State -> State -> Prop :=
| step_mount st : step st (mountEffect st)
| step_imageChange file result st : step st (handleImageChange file result st)
| step_scan env st st' : handleScan env st = Normal st' -> step st st'
| step_historyClick item st : step st (handleHistoryClick item st)
| step_clear st : step st (handleClearHistory st)
| step_clearTimeout st : step st (clearHistoryTimeout st)
| step_scanMode m st : step st (setScanMode m st)
| step_billData bd st : step st (setBillData bd st)
| step_activeField af st : step st (setActiveField af st)
| step_editToggle st : step st (handleEditToggle st)
| step_rotateLeft st : step st (rotateLeft st)
| step_rotateRight st : step st (rotateRight st)
| step_tempBrightness b st : step st (setTempBrightness b st)
| step_save br st st' : handleSaveChanges br st = Normal st' -> step st st'.

Inductive reachable (storage : gmap string Stored) : State -> Prop :=
| reach_init : reachable storage (initialState storage)
| reach_step st st' : reachable storage st -> step st st' -> reachable storage st'.

(** The persisted history, if the entry holds one. *)
Definition persisted (st : State) : option (list ScanHistoryItem) :=
  match localStorage st !! historyKey with
  | Some (Json entries) => Some entries
  | _ => None
  end.

(** At most ten entries in the component, and at most ten under the key. *)
Definition capped (st : State) : Prop :=
  (length (history st) <= 10)%nat
  /\ forall entries, persisted st = Some entries -> (length entries <= 10)%nat.

End BillScanner.

(** ** [components/ImageEditor.tsx] *)

Module ImageEditor.

Import Numeric Canvas Types.

Record State := {
  image : option DataUrl;
  originalImage : option DataUrl;
  imageFile : option File;
  editedImage : option DataUrl;
  prompt : string;
  isLoading : bool;
  error : option string;
  isEditing : bool;
  contrast : Q;
  saturation : Q;
  tempContrast : Q;
  tempSaturation : Q
}.

Definition initialState : State :=
  {| image := None; originalImage := None; imageFile := None; editedImage := None;
     prompt := ""; isLoading := false; error := None; isEditing := false;
     contrast := 1; saturation := 1; tempContrast := 1; tempSaturation := 1 |}.

Definition handleImageChange (file : File) (result : DataUrl) (st : State) : State :=
  {| image := Some result; originalImage := Some result; imageFile := Some file;
     editedImage := None; prompt := ""; isLoading := isLoading st; error := None;
     isEditing := false; contrast := 1; saturation := 1;
     tempContrast := 1; tempSaturation := 1 |}.

(** [edit] sets the cells the client-side editor owns. *)
Definition edit (st : State) (img : option DataUrl) (con sat tempCon tempSat : Q)
    (editing : bool) : State :=
  {| image := img; originalImage := originalImage st; imageFile := imageFile st;
     editedImage := editedImage st; prompt := prompt st; isLoading := isLoading st;
     error := error st; isEditing := editing; contrast := con; saturation := sat;
     tempContrast := tempCon; tempSaturation := tempSat |}.

Definition handleEditToggle (st : State) : State :=
  if isEditing st
  then edit st (image st) (contrast st) (saturation st)
         (tempContrast st) (tempSaturation st) false
  else edit st (image st) (contrast st) (saturation st)
         (contrast st) (saturation st) true.

Definition setTempContrast (c : Q) (st : State) : State :=
  edit st (image st) (contrast st) (saturation st) c (tempSaturation st) (isEditing st).

Definition setTempSaturation (s : Q) (st : State) : State :=
  edit st (image st) (contrast st) (saturation st) (tempContrast st) s (isEditing st).

(** [ctx.filter = `contrast(${tempContrast}) saturate(${tempSaturation})`]. *)
Definition filterOf (con sat : Q) : list FilterFn :=
  [Canvas.contrast con; Canvas.saturate sat].

(** The canvas that the [onload] callback of [handleSaveChanges] builds for
    the decoded image [img]. *)
Definition renderCanvas (img : Image) (con sat : Q) : Canvas.t :=
  let canvas := createCanvas in
  let canvas := setWidth canvas (IZR (width img)) in
  let canvas := setHeight canvas (IZR (height img)) in
  let canvas := setFilter canvas (filterOf con sat) in
  drawImage canvas img 0 0.

(** [imageFile?.type || 'image/jpeg']. *)
Definition outputType (file : option File) : string :=
  match file with
  | Some f => if String.eqb (file_type f) "" then "image/jpeg" else file_type f
  | None => "image/jpeg"
  end.

Definition handleSaveChanges (br : Browser) (st : State) : Completion State :=
  match originalImage st with
  | None => Normal st
  | Some url =>
      match decode url with
      | None => Normal st                       (* [onload] never fires *)
      | Some img =>
          if negb (getContext2d br) then Normal st
          else
            let canvas := renderCanvas img (tempContrast st) (tempSaturation st) in
            let dataUrl := toDataURL br canvas (outputType (imageFile st)) in
            Normal (edit st (Some dataUrl) (tempContrast st) (tempSaturation st)
                      (tempContrast st) (tempSaturation st) false)
      end
  end.

(** The two steps the other way round, for comparison only: the source never
    builds this filter. *)
Definition swappedCanvas (img : Image) (con sat : Q) : Canvas.t :=
  let canvas := createCanvas in
  let canvas := setWidth canvas (IZR (width img)) in
  let canvas := setHeight canvas (IZR (height img)) in
  let canvas := setFilter canvas [Canvas.saturate sat; Canvas.contrast con] in
  drawImage canvas img 0 0.

End ImageEditor.

(** ** [components/ImageGenerator.tsx] *)

Module ImageGenerator.

Import Numeric Canvas Types.

Inductive AspectRatio := ratio_1_1 | ratio_16_9 | ratio_9_16 | ratio_4_3 | ratio_3_4.

Inductive TextPosition := top | middle | bottom.

Record State := {
  prompt : string;
  aspectRatio : AspectRatio;
  generatedImage : option DataUrl;
  isLoading : bool;
  error : option string;
  imageWithText : option DataUrl;
  overlayText : JsString.t;
  fontFamily : string;
  fontSize : Q;
  fontColor : string;
  strokeColor : string;
  textPosition : TextPosition
}.

Definition initialState : State :=
  {| prompt := ""; aspectRatio := ratio_1_1; generatedImage := None;
     isLoading := false; error := None; imageWithText := None;
     overlayText := []; fontFamily := "Impact"; fontSize := 64;
     fontColor := "#FFFFFF"; strokeColor := "#000000"; textPosition := middle |}.

Definition setImageWithText (st : State) (v : option DataUrl) : State :=
  {| prompt := prompt st; aspectRatio := aspectRatio st;
     generatedImage := generatedImage st; isLoading := isLoading st;
     error := error st; imageWithText := v; overlayText := overlayText st;
     fontFamily := fontFamily st; fontSize := fontSize st;
     fontColor := fontColor st; strokeColor := strokeColor st;
     textPosition := textPosition st |}.

Definition setOverlayText (text : JsString.t) (st : State) : State :=
  {| prompt := prompt st; aspectRatio := aspectRatio st;
     generatedImage := generatedImage st; isLoading := isLoading st;
     error := error st; imageWithText := imageWithText st; overlayText := text;
     fontFamily := fontFamily st; fontSize := fontSize st;
     fontColor := fontColor st; strokeColor := strokeColor st;
     textPosition := textPosition st |}.

(** The text part of the effect, on the canvas that already holds the
    image. *)
Definition drawOverlay (br : Browser) (canvas : Canvas.t) (st : State) : Canvas.t :=
  let canvas := setFont canvas {| font_size := fontSize st; font_family := fontFamily st |} in
  let canvas := setFillStyle canvas (fontColor st) in
  let canvas := setStrokeStyle canvas (strokeColor st) in
  let canvas := setLineWidth canvas (fontSize st / 20) in
  let canvas := setTextAlign canvas align_center in
  let x := (inject_Z (cv_width canvas) / 2)%Q in
  let margin := fontSize st in
  let '(canvas, y) :=
    match textPosition st with
    | top => (setTextBaseline canvas baseline_top, margin)
    | bottom => (setTextBaseline canvas baseline_bottom,
                 (inject_Z (cv_height canvas) - margin)%Q)
    | middle => (setTextBaseline canvas baseline_middle,
                 (inject_Z (cv_height canvas) / 2)%Q)
    end in
  let canvas := strokeText br canvas (overlayText st) x y in
  fillText br canvas (overlayText st) x y.

(** The canvas that the [onload] callback of the effect builds for the
    decoded image [img]. *)
Definition overlayCanvas (br : Browser) (img : Image) (st : State) : Canvas.t :=
  let canvas := createCanvas in
  let canvas := setWidth canvas (IZR (width img)) in
  let canvas := setHeight canvas (IZR (height img)) in
  let canvas := drawImage canvas img 0 0 in
  if JsString.truthy (JsString.trim (overlayText st))
  then drawOverlay br canvas st
  else canvas.

(** The text-overlay effect, run whenever the image or an overlay parameter
    changes. *)
Definition overlayEffect (br : Browser) (st : State) : Completion State :=
  match generatedImage st with
  | None => Normal (setImageWithText st None)
  | Some url =>
      match decode url with
      | None => Normal (setImageWithText st (Some url))        (* [onerror] *)
      | Some img =>
          if negb (getContext2d br) then Normal st
          else
            Normal (setImageWithText st
                      (Some (toDataURL br (overlayCanvas br img st) "image/png")))
      end
  end.

End ImageGenerator.

(** ** JavaScript strings and arrays, continued *)

Module JsText.

(** [s.startsWith(p)]. *)
Fixpoint startsWith (p s : JsString.t) : bool :=
  match p, s with
  | [], _ => true
  | _ :: _, [] => false
  | a :: p', b :: s' => N.eqb a b && startsWith p' s'
  end.

(** [s.substring(a, b)]: both ends are clamped to [0, length] and swapped
    when they come in the wrong order. *)
Definition substring (s : JsString.t) (a b : Z) : JsString.t :=
  let len := Z.of_nat (length s) in
  let a' := Z.min (Z.max a 0) len in
  let b' := Z.min (Z.max b 0) len in
  let lo := Z.min a' b' in
  let hi := Z.max a' b' in
  take (Z.to_nat (hi - lo)) (drop (Z.to_nat lo) s).

(** [a.slice(start, end)] on an array: a negative end counts from the end,
    both are clamped, and nothing is returned when they cross. *)
Definition slice {A : Type} (l : list A) (a b : Z) : list A :=
  let len := Z.of_nat (length l) in
  let norm := fun i => if (i <? 0)%Z then Z.max (len + i) 0 else Z.min i len in
  let lo := norm a in
  let hi := norm b in
  take (Z.to_nat (hi - lo)) (drop (Z.to_nat lo) l).

(** [s.includes(needle)] on message strings. *)
Fixpoint includes (needle hay : string) : bool :=
  String.prefix needle hay
  || match hay with
     | EmptyString => false
     | String _ rest => includes needle rest
     end.

(** [s.split(sep)] for a separator of one character: the pieces between the
    separators, one piece for a string without any. *)
Fixpoint split (sep : Ascii.ascii) (s : string) : list string :=
  match s with
  | EmptyString => [EmptyString]
  | String c rest =>
      if Ascii.eqb c sep then EmptyString :: split sep rest
      else match split sep rest with
           | piece :: pieces => String c piece :: pieces
           | [] => [String c EmptyString]
           end
  end.

(** Whether a character occurs in a string. *)
Fixpoint occurs (c : Ascii.ascii) (s : string) : bool :=
  match s with
  | EmptyString => false
  | String d rest => Ascii.eqb d c || occurs c rest
  end.

End JsText.

(** ** Data URLs as text

    [handleGenerate] and [handleEdit] build them with a template string,
    [handleScan] and [handleEdit] take them apart with [split]. *)

Module DataUrlText.

Import Stdlib.Strings.Ascii JsText.

(** [`data:${mime};base64,${payload}`]. *)
Definition build (mime payload : string) : string :=
  String.append "data:" (String.append mime (String.append ";base64," payload)).

(** [url.split(',')[1]]. *)
Definition base64Data (url : string) : option string :=
  split ","%char url !! 1%nat.

(** [url.split(',')[0].split(';')[0].split(':')[1]]. *)
Definition mimeType (url : string) : option string :=
  match split ","%char url !! 0%nat with
  | None => None
  | Some head =>
      match split ";"%char head !! 0%nat with
      | None => None
      | Some scheme => split ":"%char scheme !! 1%nat
      end
  end.

End DataUrlText.

(** ** [services/geminiService.ts] *)

Module GeminiService.

Import Canvas Types JsText.

Inductive Role := user | model.

(** [ChatMessage] of [types.ts]. *)
Record ChatMessage := { role : Role; text : JsString.t }.

Inductive ChatMode := fast | pro.

(** The bytes of an image as the service returns them: they decode to a
    raster, or to nothing. *)
Inductive ImageBytes :=
| bytes_of (raster : Image)
| bytes_junk.

(** [`data:${mime};base64,${bytes}`], kept as what it decodes to. *)
Definition dataUrlOf (mime : string) (bytes : ImageBytes) : DataUrl :=
  match bytes with
  | bytes_of raster => Encoded mime raster
  | bytes_junk => Undecodable mime
  end.

(** [new Error(msg)], and the errors the runtime raises by itself. *)
Definition mkError (msg : string) : JsError :=
  {| err_name := "Error"; err_message := msg |}.

Definition syntaxError : JsError :=
  {| err_name := "SyntaxError"; err_message := "Unexpected token in JSON" |}.

Definition typeError : JsError :=
  {| err_name := "TypeError"; err_message := "Cannot read properties of undefined" |}.

(** [error instanceof SyntaxError]. *)
Definition isSyntaxError (e : JsError) : bool := String.eqb (err_name e) "SyntaxError".

(** One part of a candidate: [inlineData] may be missing. *)
Record Part := { inlineData : option ImageBytes }.

(** The requests the module sends and the answers it reads. *)
Record ContentRequest := {
  req_model : string;
  req_data : DataUrl;
  req_mimeType : string;
  req_text : string;
  req_json : bool;          (* responseMimeType: "application/json", with the schema *)
  req_image : bool          (* responseModalities: [Modality.IMAGE] *)
}.

Record ContentResponse := {
  resp_text : JsString.t;                 (* a string, as the module's signatures have it *)
  resp_candidates : list (list Part)      (* the parts of each candidate's content *)
}.

Record ImagesRequest := {
  img_model : string;
  img_prompt : string;
  img_numberOfImages : Z;
  img_outputMimeType : string;
  img_aspectRatio : string
}.

(** [response.generatedImages] may be missing; an entry may lack its image. *)
Record ImagesResponse := { generatedImages : option (list (option ImageBytes)) }.

Record ChatRequest := {
  chat_model : string;
  chat_thinkingBudget : option Z;
  chat_history : list ChatMessage;
  chat_message : JsString.t
}.

(** The SDK, and [JSON.parse] read at the type [BillData] ([None] when it
    throws [SyntaxError]). *)
Record Sdk := {
  generateContent : ContentRequest -> Completion ContentResponse;
  generateImages : ImagesRequest -> Completion ImagesResponse;
  sendMessage : ChatRequest -> Completion JsString.t;
  parseBill : JsString.t -> option BillData
}.

Definition billPrompt : string :=
  "Analyze the provided image of a bill. Extract all line items, including their name/description, quantity, and price. Also, identify the final total amount. Return this information in a structured JSON format.".

Definition ocrPrompt : string :=
  "Extract all text from the provided image. Present the text exactly as it appears, maintaining original line breaks and formatting as much as possible.".

Definition unreadable : string :=
  "Failed to parse the AI's response. The bill might be too blurry, unreadable, or in an unsupported format.".
Definition blockedBill : string :=
  "The image was blocked for safety reasons. Please use a clear image of a standard bill.".
Definition failedBill : string :=
  "The AI failed to process the image. This could be due to a temporary service issue or an unsupported image. Please try again.".
Definition blockedOcr : string :=
  "The image was blocked for safety reasons. Please use a different image.".
Definition failedOcr : string := "The AI failed to process the image. Please try again.".
Definition callFailed : string := "Gemini API call failed.".

(** The opening fence of a Markdown code block, [```json]. *)
Definition fence : JsString.t := JsString.of_string "```json".

(** The text handed to [JSON.parse]: the trimmed answer, or, when it starts
    with the fence, what is left of it without its first 7 and last 3
    characters, trimmed. *)
Definition jsonPayload (answer : JsString.t) : JsString.t :=
  let jsonText := JsString.trim answer in
  if startsWith fence jsonText
  then JsString.trim (substring jsonText 7 (Z.of_nat (length jsonText) - 3))
  else jsonText.

Definition analyzeBill (sdk : Sdk) (base64Data : DataUrl) (mimeType : string)
    : Completion BillData :=
  let attempt :=
    match generateContent sdk
            {| req_model := "gemini-2.5-flash"; req_data := base64Data;
               req_mimeType := mimeType; req_text := billPrompt;
               req_json := true; req_image := false |} with
    | Throw e => Throw e
    | Normal response =>
        match parseBill sdk (jsonPayload (resp_text response)) with
        | Some bill => Normal bill
        | None => Throw syntaxError
        end
    end in
  match attempt with
  | Normal bill => Normal bill
  | Throw error =>
      if isSyntaxError error then Throw (mkError unreadable)
      else if includes "SAFETY" (err_message error) then Throw (mkError blockedBill)
      else Throw (mkError failedBill)
  end.

Definition extractTextFromImage (sdk : Sdk) (base64Data : DataUrl) (mimeType : string)
    : Completion JsString.t :=
  match generateContent sdk
          {| req_model := "gemini-2.5-flash"; req_data := base64Data;
             req_mimeType := mimeType; req_text := ocrPrompt;
             req_json := false; req_image := false |} with
  | Normal response => Normal (resp_text response)
  | Throw error =>
      if includes "SAFETY" (err_message error) then Throw (mkError blockedOcr)
      else Throw (mkError failedOcr)
  end.

Definition generateImage (sdk : Sdk) (prompt aspectRatio : string)
    : Completion ImageBytes :=
  let attempt :=
    match generateImages sdk
            {| img_model := "imagen-4.0-generate-001"; img_prompt := prompt;
               img_numberOfImages := 1; img_outputMimeType := "image/jpeg";
               img_aspectRatio := aspectRatio |} with
    | Throw e => Throw e
    | Normal response =>
        match generatedImages response with
        | Some (Some bytes :: _) => Normal bytes
        | Some (None :: _) => Throw typeError
        | Some [] | None => Throw (mkError "No image was generated.")
        end
    end in
  match attempt with
  | Normal bytes => Normal bytes
  | Throw _ => Throw (mkError callFailed)
  end.

(** The first part that carries [inlineData]. *)
Fixpoint firstInline (parts : list Part) : option ImageBytes :=
  match parts with
  | [] => None
  | part :: rest =>
      match inlineData part with
      | Some data => Some data
      | None => firstInline rest
      end
  end.

Definition editImage (sdk : Sdk) (base64Data : DataUrl) (mimeType prompt : string)
    : Completion ImageBytes :=
  let attempt :=
    match generateContent sdk
            {| req_model := "gemini-2.5-flash-image"; req_data := base64Data;
               req_mimeType := mimeType; req_text := prompt;
               req_json := false; req_image := true |} with
    | Throw e => Throw e
    | Normal response =>
        match resp_candidates response with
        | [] => Throw typeError
        | parts :: _ =>
            match firstInline parts with
            | Some data => Normal data
            | None => Throw (mkError "No edited image was returned.")
            end
        end
    end in
  match attempt with
  | Normal data => Normal data
  | Throw _ => Throw (mkError callFailed)
  end.

Definition continueChat (sdk : Sdk) (history : list ChatMessage) (mode : ChatMode)
    : Completion JsString.t :=
  let modelName :=
    match mode with fast => "gemini-flash-lite-latest" | pro => "gemini-2.5-pro" end in
  let budget := match mode with pro => Some 32768%Z | fast => None end in
  let prior := slice history 0 (-1) in
  let attempt :=
    match last history with
    | None => Throw typeError                    (* [lastMessage] is undefined *)
    | Some lastMessage =>
        sendMessage sdk
          {| chat_model := modelName; chat_thinkingBudget := budget;
             chat_history := prior; chat_message := text lastMessage |}
    end in
  match attempt with
  | Normal answer => Normal answer
  | Throw _ => Throw (mkError callFailed)
  end.

(** The request of [continueChat] for a conversation of [prior] followed by
    a message of text [message], written out. *)
Definition requestFor (prior : list ChatMessage) (message : JsString.t)
    (m : ChatMode) : ChatRequest :=
  {| chat_model := match m with fast => "gemini-flash-lite-latest" | pro => "gemini-2.5-pro" end;
     chat_thinkingBudget := match m with pro => Some 32768%Z | fast => None end;
     chat_history := prior; chat_message := message |}.

End GeminiService.

(** ** [components/Chatbot.tsx] *)

Module Chatbot.

Import GeminiService JsText.

Record State := {
  messages : list ChatMessage;
  input : JsString.t;
  isLoading : bool;
  error : option string;
  mode : ChatMode
}.

Definition initialState : State :=
  {| messages := []; input := []; isLoading := false; error := None; mode := fast |}.

Definition setInput (v : JsString.t) (st : State) : State :=
  {| messages := messages st; input := v; isLoading := isLoading st;
     error := error st; mode := mode st |}.

Definition setMode (m : ChatMode) (st : State) : State :=
  {| messages := messages st; input := input st; isLoading := isLoading st;
     error := error st; mode := m |}.

Definition handleSend (sdk : Sdk) (st : State) : Completion State :=
  if negb (JsString.truthy (JsString.trim (input st))) then Normal st
  else
    let userMessage := {| role := user; text := input st |} in
    let sent := messages st ++ [userMessage] in          (* prev => [...prev, userMessage] *)
    match continueChat sdk (messages st ++ [userMessage]) (mode st) with
    | Normal modelResponse =>
        let modelMessage := {| role := model; text := modelResponse |} in
        Normal {| messages := sent ++ [modelMessage]; input := []; isLoading := false;
                  error := None; mode := mode st |}
    | Throw _ =>
        Normal {| messages := slice sent 0 (-1); input := []; isLoading := false;
                  error := Some "Failed to get response. Please try again.";
                  mode := mode st |}
    end.

(** [handleSend] runs in two halves with a render in between.  Up to its
    [await]: the question joins the transcript, the input is cleared, the
    request is pending. *)
Definition sendStart (st : State) : State :=
  {| messages := messages st ++ [{| role := user; text := input st |}];
     input := []; isLoading := true; error := None; mode := mode st |}.

(** After the [await], on the state as it is by then ([prev => ...]):
    [outcome] is what [continueChat] came back with. *)
Definition sendEnd (outcome : Completion JsString.t) (st : State) : State :=
  match outcome with
  | Normal modelResponse =>
      {| messages := messages st ++ [{| role := model; text := modelResponse |}];
         input := input st; isLoading := false; error := error st; mode := mode st |}
  | Throw _ =>
      {| messages := slice (messages st) 0 (-1);
         input := input st; isLoading := false;
         error := Some "Failed to get response. Please try again.";
         mode := mode st |}
  end.

(** What the page lets happen, render by render.  The text area and the
    send button are disabled while a request is pending
    ([disabled={isLoading}]), the mode buttons are not; the button is
    disabled on a blank input too, and Enter on one returns at once.  The
    request that comes back was made for the transcript with the question
    in it and for the mode [m] chosen when it was sent. *)
Inductive step : State -> State -> Prop :=
| step_input v st : isLoading st = false -> step st (setInput v st)
| step_mode m st : step st (setMode m st)
| step_send st :
    isLoading st = false -> JsString.truthy (JsString.trim (input st)) = true ->
    step st (sendStart st)
| step_answer sdk m st :
    isLoading st = true ->
    step st (sendEnd (continueChat sdk (messages st) m) st).

Inductive reachable : State -> Prop :=
| reach_init : reachable initialState
| reach_step st st' : reachable st -> step st st' -> reachable st'.

(** A transcript of whole exchanges: a user message, then the model's
    answer, and so on. *)
Fixpoint exchanges (l : list ChatMessage) : bool :=
  match l with
  | [] => true
  | question :: rest =>
      match rest with
      | [] => false
      | answer :: rest' =>
          match role question, role answer with
          | user, model => exchanges rest'
          | _, _ => false
          end
      end
  end.

End Chatbot.

(** ** The service calls of the image generator and the image editor *)

Module ImageGeneratorService.

Import Canvas GeminiService ImageGenerator.

Definition ratioText (r : AspectRatio) : string :=
  match r with
  | ratio_1_1 => "1:1" | ratio_16_9 => "16:9" | ratio_9_16 => "9:16"
  | ratio_4_3 => "4:3" | ratio_3_4 => "3:4"
  end.

(** The cells [handleGenerate] sets. *)
Definition generated (st : State) (img : option DataUrl) (err : option string)
    (text : JsString.t) : State :=
  {| prompt := prompt st; aspectRatio := aspectRatio st;
     generatedImage := img; isLoading := false; error := err;
     imageWithText := imageWithText st; overlayText := text;
     fontFamily := fontFamily st; fontSize := fontSize st;
     fontColor := fontColor st; strokeColor := strokeColor st;
     textPosition := textPosition st |}.

Definition handleGenerate (sdk : Sdk) (st : State) : Completion State :=
  if String.eqb (prompt st) ""
  then Normal {| prompt := prompt st; aspectRatio := aspectRatio st;
                 generatedImage := generatedImage st; isLoading := isLoading st;
                 error := Some "Please enter a prompt.";
                 imageWithText := imageWithText st; overlayText := overlayText st;
                 fontFamily := fontFamily st; fontSize := fontSize st;
                 fontColor := fontColor st; strokeColor := strokeColor st;
                 textPosition := textPosition st |}
  else
    match generateImage sdk (prompt st) (ratioText (aspectRatio st)) with
    | Normal base64Image =>
        Normal (generated st (Some (dataUrlOf "image/jpeg" base64Image)) None [])
    | Throw _ =>
        Normal (generated st None (Some "Failed to generate image. Please try again.") [])
    end.

End ImageGeneratorService.

Module ImageEditorService.

Import Canvas GeminiService ImageEditor.





End ImageEditorService.

(** ** A browser to run examples on: a 2D context is available, the JPEG
    encoder loses nothing on the colour channels, PNG and JPEG are the only
    types written, text leaves no mark. *)
Definition idealBrowser : Canvas.Browser :=
  {| Canvas.getContext2d := true;
     Canvas.jpegColour := fun bm => bm;
     Canvas.otherEncoder := fun _ => None;
     Canvas.paintText := fun _ bm => bm |}.


(** ** Inputs to run examples on *)

Module Examples.

Import Canvas Types.

Definition white : Pixel := {| red := 255; green := 255; blue := 255; alpha := 255 |}.
Definition midGray : Pixel := {| red := 128; green := 128; blue := 128; alpha := 255 |}.
Definition pureRed : Pixel := {| red := 255; green := 0; blue := 0; alpha := 255 |}.

(** A [w] by [h] image of one colour. *)
Definition solid (w h : Z) (p : Pixel) : Image :=
  {| width := w; height := h; pixel := fun _ _ => p |}.

Definition pngFile : File := {| file_name := "upload.png"; file_type := "image/png" |}.

Definition upload (img : Image) : DataUrl := Encoded "image/png" img.

(** The bill scanner after the upload of [img]. *)
Definition scannerWith (img : Image) : BillScanner.State :=
  BillScanner.handleImageChange pngFile (upload img) (BillScanner.initialState ∅).

(** The image editor after the upload of [img], with the two sliders set. *)
Definition editorWith (img : Image) (con sat : Q) : ImageEditor.State :=
  ImageEditor.setTempSaturation sat
    (ImageEditor.setTempContrast con
       (ImageEditor.handleImageChange pngFile (upload img) ImageEditor.initialState)).

(** The image generator holding [img], with the overlay controls set. *)
Definition generatorWith (img : Image) (text : JsString.t) (size : Q)
    (position : ImageGenerator.TextPosition) : ImageGenerator.State :=
  {| ImageGenerator.prompt := "a cat";
     ImageGenerator.aspectRatio := ImageGenerator.ratio_1_1;
     ImageGenerator.generatedImage := Some (Encoded "image/jpeg" img);
     ImageGenerator.isLoading := false;
     ImageGenerator.error := None;
     ImageGenerator.imageWithText := None;
     ImageGenerator.overlayText := text;
     ImageGenerator.fontFamily := "Impact";
     ImageGenerator.fontSize := size;
     ImageGenerator.fontColor := "#FFFFFF";
     ImageGenerator.strokeColor := "#000000";
     ImageGenerator.textPosition := position |}.

Definition coffee : BillItem :=
  {| name := "Coffee"; quantity := Num 2; price := Num (7 # 2);
     nameBold := None; nameItalic := None; nameUnderline := None;
     quantityBold := None; quantityItalic := None; quantityUnderline := None;
     priceBold := None; priceItalic := None; priceUnderline := None |}.

Definition sampleBill : BillData :=
  {| items := [coffee]; total := Num 7;
     totalBold := None; totalItalic := None; totalUnderline := None |}.

(** A model service that answers every request, and a storage with room
    for every write. *)
Definition answering : BillScanner.ScanEnv :=
  {| BillScanner.analyzeBill := fun _ _ => Normal sampleBill;
     BillScanner.extractTextFromImage := fun _ _ => Normal "TOTAL 7.00";
     BillScanner.isoNow := "2024-05-01T10:00:00.000Z";
     BillScanner.dateNow := 1714557600000;
     BillScanner.setItemError := fun _ _ _ => None |}.

(** The same service, and a storage that has no room left. *)
Definition storageFull : BillScanner.ScanEnv :=
  {| BillScanner.analyzeBill := BillScanner.analyzeBill answering;
     BillScanner.extractTextFromImage := BillScanner.extractTextFromImage answering;
     BillScanner.isoNow := "2024-05-01T10:05:00.000Z";
     BillScanner.dateNow := 1714557900000;
     BillScanner.setItemError := fun _ _ _ =>
       Some {| err_name := "QuotaExceededError";
               err_message := "The quota has been exceeded." |} |}.

(** [n] scans in a row. *)
Fixpoint scans (n : nat) (st : BillScanner.State) : BillScanner.State :=
  match n with
  | O => st
  | S m =>
      match BillScanner.handleScan answering (scans m st) with
      | Normal st' => st'
      | Throw _ => scans m st
      end
  end.

End Examples.

(** ** The controls of the bill scanner's editor panel *)

Module EditorPanel.

Import BillScanner.

(** One use of a control of the panel: a rotation button or the brightness
    slider. *)
Inductive Tweak :=
| turnLeft
| turnRight
| slideTo (b : Q).

Definition tweak (t : Tweak) (st : State) : State :=
  match t with
  | turnLeft => rotateLeft st
  | turnRight => rotateRight st
  | slideTo b => setTempBrightness b st
  end.

Definition tweaks (ts : list Tweak) (st : State) : State :=
  fold_left (fun s t => tweak t s) ts st.

End EditorPanel.

(** ** Services to run examples on *)

Module ServiceExamples.

Import Canvas Types GeminiService.

Definition hello : JsString.t := JsString.of_string "Hello".
Definition hi : JsString.t := JsString.of_string "Hi there".

(** A service that answers every call: a fenced bill, one white image, a
    greeting. *)
Definition up : Sdk :=
  {| generateContent := fun _ =>
       Normal {| resp_text := JsString.of_string "```json {} ```";
                 resp_candidates :=
                   [[ {| inlineData := None |};
                      {| inlineData := Some (bytes_of (Examples.solid 2 2 Examples.white)) |} ]] |};
     generateImages := fun _ =>
       Normal {| generatedImages :=
                   Some [Some (bytes_of (Examples.solid 4 4 Examples.white))] |};
     sendMessage := fun _ => Normal hi;
     parseBill := fun _ => Some Examples.sampleBill |}.

(** A service that refuses every call for safety reasons. *)
Definition blocked : Sdk :=
  {| generateContent := fun _ => Throw (mkError "Request blocked: SAFETY");
     generateImages := fun _ => Throw (mkError "Request blocked: SAFETY");
     sendMessage := fun _ => Throw (mkError "Request blocked: SAFETY");
     parseBill := fun _ => None |}.


(** A chat with [hello] typed in, after one exchange. *)
Definition chatting : Chatbot.State :=
  {| Chatbot.messages := [ {| role := user; text := hello |}; {| role := model; text := hi |} ];
     Chatbot.input := hello; Chatbot.isLoading := false; Chatbot.error := None;
     Chatbot.mode := pro |}.

End ServiceExamples.

(** * Facts *)

(** ** Numbers *)

Section NumericFacts.

Import Numeric.

Lemma Int_part_IZR (n : Z) : Int_part (IZR n) = n.
Proof. symmetry. apply Int_part_spec. lra. Qed.

Lemma Int_part_centre (n : Z) : Int_part (IZR n + 1 / 2) = n.
Proof. symmetry. apply Int_part_spec. lra. Qed.

Lemma truncate_IZR (n : Z) : truncate (IZR n) = n.
Proof.
  unfold truncate. destruct (Rle_dec 0 (IZR n)).
  - apply Int_part_IZR.
  - rewrite <- opp_IZR, Int_part_IZR. lia.
Qed.

Lemma Rceil_IZR (n : Z) : Rceil (IZR n) = n.
Proof. unfold Rceil. rewrite <- opp_IZR, Int_part_IZR. lia. Qed.

Lemma dimension_IZR (default n : Z) :
  (0 <= n < 2 ^ 31)%Z -> Canvas.dimension default (IZR n) = n.
Proof.
  intros Hn. unfold Canvas.dimension, ToUint32.
  rewrite truncate_IZR, Z.mod_small by lia.
  destruct (Z.leb_spec n 2147483647); [reflexivity | lia].
Qed.

(** The conversion truncates: an excess below one pixel, such as the one a
    cosine that is not exactly 0 leaves on a double, does not change the
    size, where a ceiling would add a pixel. *)
Lemma dimension_excess (default n : Z) (excess : R) :
  (0 <= n < 2 ^ 31)%Z -> (0 <= excess < 1)%R ->
  Canvas.dimension default (IZR n + excess) = n.
Proof.
  intros Hn He. unfold Canvas.dimension, ToUint32, truncate.
  assert (0 <= IZR n)%R as H0 by (apply IZR_le; lia).
  destruct (Rle_dec 0 (IZR n + excess)) as [_ | N]; [|lra].
  rewrite <- (Int_part_spec (IZR n + excess) n) by lra.
  rewrite Z.mod_small by lia.
  destruct (Z.leb_spec n 2147483647); [reflexivity | lia].
Qed.

(** A quarter turn swaps cosine and sine, up to sign. *)
Lemma quarter_step (x : R) :
  (cos (x + PI / 2) = - sin x /\ sin (x + PI / 2) = cos x)%R.
Proof. rewrite cos_plus, sin_plus, cos_PI2, sin_PI2. split; lra. Qed.

Lemma quarter_nat (n : nat) :
  if Nat.even n
  then Rabs (cos (INR n * (PI / 2))) = 1%R /\ sin (INR n * (PI / 2)) = 0%R
  else cos (INR n * (PI / 2)) = 0%R /\ Rabs (sin (INR n * (PI / 2))) = 1%R.
Proof.
  induction n as [|n IH].
  - simpl. rewrite Rmult_0_l, cos_0, sin_0, Rabs_R1. auto.
  - rewrite Nat.even_succ, <- Nat.negb_even, S_INR.
    replace ((INR n + 1) * (PI / 2))%R with (INR n * (PI / 2) + PI / 2)%R by lra.
    destruct (quarter_step (INR n * (PI / 2))) as [-> ->].
    destruct (Nat.even n); simpl; destruct IH as [H1 H2].
    + rewrite H2, Ropp_0. auto.
    + rewrite Rabs_Ropp. auto.
Qed.

Lemma even_of_nat (n : nat) : Z.even (Z.of_nat n) = Nat.even n.
Proof.
  induction n as [|n IH]; [reflexivity|].
  rewrite Nat2Z.inj_succ, Z.even_succ, Nat.even_succ, <- Z.negb_even, <- Nat.negb_even.
  now rewrite IH.
Qed.

Lemma rad_quarters (k : Z) : BillScanner.rad (90 * k) = (IZR k * (PI / 2))%R.
Proof. unfold BillScanner.rad. rewrite mult_IZR. field. Qed.

(** At a multiple of 90 degrees one of cosine and sine is 0 and the other
    is 1 or -1. *)
Lemma quarter_turn (k : Z) :
  let a := BillScanner.rad (90 * k) in
  if Z.even k
  then Rabs (cos a) = 1%R /\ Rabs (sin a) = 0%R
  else Rabs (cos a) = 0%R /\ Rabs (sin a) = 1%R.
Proof.
  cbv zeta. rewrite rad_quarters.
  destruct (Z_le_gt_dec 0 k) as [Hk | Hk].
  - rewrite <- (Z2Nat.id k) by lia. rewrite even_of_nat, <- INR_IZR_INZ.
    pose proof (quarter_nat (Z.to_nat k)) as H.
    destruct (Nat.even (Z.to_nat k)); destruct H as [H1 H2]; rewrite ?H1, ?H2, ?Rabs_R0; auto.
  - replace k with (- Z.of_nat (Z.to_nat (- k)))%Z by lia.
    rewrite Z.even_opp, even_of_nat, opp_IZR, <- INR_IZR_INZ.
    rewrite Ropp_mult_distr_l_reverse, cos_neg, sin_neg, Rabs_Ropp.
    pose proof (quarter_nat (Z.to_nat (- k))) as H.
    destruct (Nat.even (Z.to_nat (- k))); destruct H as [H1 H2]; rewrite ?H1, ?H2, ?Rabs_R0; auto.
Qed.

End NumericFacts.

(** ** The geometry of [BillScanner.handleSaveChanges] *)

Section BillScannerGeometry.

Import Numeric Canvas.

Variable img : Image.
Hypothesis Hw : (0 < width img < 2 ^ 31)%Z.
Hypothesis Hh : (0 < height img < 2 ^ 31)%Z.

(** The bounding box of the rotated rectangle is the rectangle itself after
    an even number of quarter turns and the transposed one after an odd
    number. *)
Lemma newWidth_quarters (k : Z) :
  BillScanner.newWidth img (90 * k)
  = IZR (if Z.even k then width img else height img).
Proof using Hw Hh.
  unfold BillScanner.newWidth. rewrite !Rabs_mult.
  pose proof (quarter_turn k) as H. cbv zeta in H.
  rewrite !(Rabs_pos_eq (IZR _)) by (apply IZR_le; lia).
  destruct (Z.even k); destruct H as [-> ->]; lra.
Qed.

Lemma newHeight_quarters (k : Z) :
  BillScanner.newHeight img (90 * k)
  = IZR (if Z.even k then height img else width img).
Proof using Hw Hh.
  unfold BillScanner.newHeight. rewrite !Rabs_mult.
  pose proof (quarter_turn k) as H. cbv zeta in H.
  rewrite !(Rabs_pos_eq (IZR _)) by (apply IZR_le; lia).
  destruct (Z.even k); destruct H as [-> ->]; lra.
Qed.

Lemma renderCanvas_width (degrees : Z) (bri : Q) :
  cv_width (BillScanner.renderCanvas img degrees bri)
  = dimension 300 (BillScanner.newWidth img degrees).
Proof. reflexivity. Qed.

Lemma renderCanvas_height (degrees : Z) (bri : Q) :
  cv_height (BillScanner.renderCanvas img degrees bri)
  = dimension 150 (BillScanner.newHeight img degrees).
Proof. reflexivity. Qed.

Lemma renderCanvas_size_quarters (k : Z) (bri : Q) :
  cv_width (BillScanner.renderCanvas img (90 * k) bri)
  = (if Z.even k then width img else height img)
  /\ cv_height (BillScanner.renderCanvas img (90 * k) bri)
  = (if Z.even k then height img else width img).
Proof using Hw Hh.
  rewrite renderCanvas_width, renderCanvas_height.
  rewrite newWidth_quarters, newHeight_quarters.
  split; apply dimension_IZR; destruct (Z.even k); lia.
Qed.

End BillScannerGeometry.

(** ** Channels *)

Section ChannelFacts.

Import Numeric Canvas.

Lemma clamp255_cases (v : Q) :
  ((v <= 0 /\ clamp255 v = 0) \/ (255 <= v /\ ~ v <= 0 /\ clamp255 v = 255)
   \/ (~ v <= 0 /\ ~ 255 <= v /\ clamp255 v = v))%Q.
Proof.
  unfold clamp255.
  destruct (Qle_bool v 0) eqn:E0.
  - left. split; [now apply Qle_bool_iff | reflexivity].
  - assert (~ (v <= 0)%Q) as N0 by (rewrite <- Qle_bool_iff, E0; discriminate).
    destruct (Qle_bool 255 v) eqn:E1.
    + right; left. repeat split; [now apply Qle_bool_iff | assumption].
    + right; right. repeat split; [assumption|].
      rewrite <- Qle_bool_iff, E1; discriminate.
Qed.

Lemma clamp255_range (v : Q) : channelOk (clamp255 v).
Proof.
  unfold channelOk.
  destruct (clamp255_cases v) as [[H ->] | [[H [N ->]] | [N [M ->]]]].
  - split; [apply Qle_refl | discriminate].
  - split; [discriminate | apply Qle_refl].
  - split; apply Qlt_le_weak, Qnot_le_lt; assumption.
Qed.

Lemma clamp255_id (v : Q) : channelOk v -> (clamp255 v == v)%Q.
Proof.
  intros [Hlo Hhi].
  destruct (clamp255_cases v) as [[H ->] | [[H [N ->]] | [N [M ->]]]].
  - now apply Qle_antisym.
  - now apply Qle_antisym.
  - reflexivity.
Qed.

Lemma clamp255_proper (u v : Q) : (u == v)%Q -> (clamp255 u == clamp255 v)%Q.
Proof.
  intros E.
  destruct (clamp255_cases u) as [[H ->] | [[H [N ->]] | [N [M ->]]]];
    destruct (clamp255_cases v) as [[H' ->] | [[H' [N' ->]] | [N' [M' ->]]]];
    rewrite ?E in *; try reflexivity; try contradiction; assumption.
Qed.

Lemma pixelEq_refl (p : Pixel) : pixelEq p p.
Proof. repeat split; reflexivity. Qed.

Lemma brightnessPixel_one (p : Pixel) : pixelOk p -> pixelEq (brightnessPixel 1 p) p.
Proof.
  intros (Hr & Hg & Hb & Ha). unfold pixelEq, brightnessPixel; cbn.
  repeat split; try reflexivity;
    (etransitivity; [apply clamp255_proper, Qmult_1_r | now apply clamp255_id]).
Qed.

End ChannelFacts.

(** ** Drawing an image without moving it *)

Section Placement.

Import Numeric Canvas.

Lemma inside_spec (w h x y : Z) :
  inside w h x y = true <-> (0 <= x < w /\ 0 <= y < h)%Z.
Proof. unfold inside. rewrite !andb_true_iff. lia. Qed.

(** What [drawImage] leaves at a position of the canvas. *)
Lemma drawImage_bitmap (cv : Canvas.t) (img : Image) (dx dy : R) (X Y : Z) :
  cv_bitmap (drawImage cv img dx dy) X Y
  = (let '(ux, uy) := unapply (cv_ctm cv) (IZR X + 1 / 2) (IZR Y + 1 / 2) in
     let sx := Int_part (ux - dx) in
     let sy := Int_part (uy - dy) in
     if inside (cv_width cv) (cv_height cv) X Y && inside (width img) (height img) sx sy
     then applyFilter (cv_filter cv) (pixel img sx sy)
     else cv_bitmap cv X Y).
Proof. reflexivity. Qed.

(** Under a matrix that is a pure translation by [(e, f)], an image drawn at
    [(-e, -f)] lands pixel on pixel. *)
Lemma drawImage_aligned (cv : Canvas.t) (img : Image) (e f : R) (X Y : Z) :
  cv_ctm cv = {| ma := 1; mb := 0; mc := 0; md := 1; me := e; mf := f |} ->
  inside (cv_width cv) (cv_height cv) X Y = true ->
  inside (width img) (height img) X Y = true ->
  cv_bitmap (drawImage cv img (- e) (- f)) X Y
  = applyFilter (cv_filter cv) (pixel img X Y).
Proof.
  intros Hm Hc Hi. rewrite drawImage_bitmap, Hm. unfold unapply; cbn [ma mb mc md me mf].
  replace ((1 * (IZR X + 1 / 2 - e) - 0 * (IZR Y + 1 / 2 - f)) / (1 * 1 - 0 * 0) - - e)%R
    with (IZR X + 1 / 2)%R by (field; lra).
  replace ((1 * (IZR Y + 1 / 2 - f) - 0 * (IZR X + 1 / 2 - e)) / (1 * 1 - 0 * 0) - - f)%R
    with (IZR Y + 1 / 2)%R by (field; lra).
  rewrite !Int_part_centre. cbv zeta. now rewrite Hc, Hi.
Qed.

End Placement.

(** ** [BillScanner.handleSaveChanges] *)

Section BillScannerRender.

Import Numeric Canvas.

Lemma rad_0 : BillScanner.rad 0 = 0%R.
Proof. unfold BillScanner.rad. lra. Qed.

(** Once the image is decoded and a context is at hand, the handler renders
    and stores a JPEG. *)
Lemma BillScanner_save_loaded (br : Browser) (st : BillScanner.State)
    (url : DataUrl) (img : Image) :
  BillScanner.originalImage st = Some url ->
  decode url = Some img ->
  getContext2d br = true ->
  BillScanner.handleSaveChanges br st
  = Normal (BillScanner.edit st
              (Some (toDataURL br
                       (BillScanner.renderCanvas img (BillScanner.tempRotation st)
                          (BillScanner.tempBrightness st)) "image/jpeg"))
              (BillScanner.tempRotation st) (BillScanner.tempBrightness st)
              (BillScanner.tempRotation st) (BillScanner.tempBrightness st) false).
Proof.
  intros Ho Hd Hc. unfold BillScanner.handleSaveChanges. now rewrite Ho, Hd, Hc.
Qed.

Lemma toDataURL_jpeg (br : Browser) (cv : Canvas.t) :
  toDataURL br cv "image/jpeg"
  = Encoded "image/jpeg"
      {| width := cv_width cv; height := cv_height cv;
         pixel := jpegPixels br (cv_bitmap cv) |}.
Proof. reflexivity. Qed.

Variable img : Image.
Hypothesis Hvalid : validImage img.

Lemma render0_size (bri : Q) :
  cv_width (BillScanner.renderCanvas img 0 bri) = width img
  /\ cv_height (BillScanner.renderCanvas img 0 bri) = height img.
Proof using Hvalid.
  destruct Hvalid as (Hw & Hh & _).
  exact (renderCanvas_size_quarters img Hw Hh 0 bri).
Qed.

(** Without rotation the image is drawn pixel on pixel, through the
    brightness filter. *)
Lemma render0_bitmap (bri : Q) (X Y : Z) :
  inside (width img) (height img) X Y = true ->
  cv_bitmap (BillScanner.renderCanvas img 0 bri) X Y
  = brightnessPixel bri (pixel img X Y).
Proof using Hvalid.
  intros Hin. destruct (render0_size bri) as [Hw Hh].
  rewrite renderCanvas_width in Hw. rewrite renderCanvas_height in Hh.
  unfold BillScanner.renderCanvas. cbv zeta.
  set (cv := rotate _ _).
  assert (cv_width cv = width img) as Hcw by exact Hw.
  assert (cv_height cv = height img) as Hch by exact Hh.
  assert (cv_filter cv = [brightness bri]) as Hf by reflexivity.
  assert (cv_ctm cv = {| ma := 1; mb := 0; mc := 0; md := 1;
                         me := IZR (width img) / 2; mf := IZR (height img) / 2 |}) as Hm.
  { subst cv. unfold rotate, translate, setCtm, setFilter, setHeight, setWidth.
    cbn [cv_ctm cv_width cv_height blank createCanvas].
    rewrite Hw, Hh, rad_0.
    unfold rotateMatrix, translateMatrix, identity. cbn [ma mb mc md me mf].
    rewrite cos_0, sin_0. f_equal; lra. }
  replace (- IZR (width img) / 2)%R with (- (IZR (width img) / 2))%R by lra.
  replace (- IZR (height img) / 2)%R with (- (IZR (height img) / 2))%R by lra.
  rewrite (drawImage_aligned cv img _ _ X Y Hm); [now rewrite Hf | | exact Hin].
  now rewrite Hcw, Hch.
Qed.

(** Brightness 1 on top of that changes nothing. *)
Lemma render0_identity : samePixels (raster (BillScanner.renderCanvas img 0 1)) img.
Proof using Hvalid.
  destruct (render0_size 1) as [Hw Hh].
  unfold samePixels, raster; cbn [width height pixel].
  split; [exact Hw | split; [exact Hh |]].
  intros x y Hin. rewrite Hw, Hh in Hin.
  rewrite render0_bitmap by exact Hin.
  apply brightnessPixel_one. destruct Hvalid as (_ & _ & Hpx). now apply Hpx.
Qed.

End BillScannerRender.

(** ** Claims about [BillScanner.handleSaveChanges] *)

Section BillScannerClaims.

Import Numeric Canvas Examples.

(** C2. For every w x h image and every rotation that is a multiple of 90
    degrees (negative ones included), the image that [handleSaveChanges]
    stores is ceil(|w cos t| + |h sin t|) wide and ceil(|h cos t| + |w sin t|)
    high, with t the rotation in radians; a rotation of 90 gives h x w and a
    rotation of 180 gives w x h. The size is also the one the canvas takes
    when the computed box exceeds the exact one by less than a pixel. *)
Theorem C2_rotated_dimensions (br : Browser) (st : BillScanner.State)
    (url : DataUrl) (img : Image) (k : Z) :
  BillScanner.originalImage st = Some url ->
  decode url = Some img ->
  getContext2d br = true ->
  (0 < width img < 2 ^ 31)%Z ->
  (0 < height img < 2 ^ 31)%Z ->
  BillScanner.tempRotation st = (90 * k)%Z ->
  let theta := (IZR (90 * k) * PI / 180)%R in
  exists st' out,
    BillScanner.handleSaveChanges br st = Normal st'
    /\ BillScanner.image st' = Some (Encoded "image/jpeg" out)
    /\ width out
       = Rceil (Rabs (IZR (width img) * cos theta) + Rabs (IZR (height img) * sin theta))
    /\ height out
       = Rceil (Rabs (IZR (height img) * cos theta) + Rabs (IZR (width img) * sin theta))
    /\ (k = 1%Z -> width out = height img /\ height out = width img)
    /\ (k = 2%Z -> width out = width img /\ height out = height img)
    /\ (forall excess, (0 <= excess < 1)%R ->
          dimension 300 (BillScanner.newWidth img (90 * k) + excess) = width out
          /\ dimension 150 (BillScanner.newHeight img (90 * k) + excess) = height out).
Proof.
  intros Ho Hd Hc Hw Hh Hk theta.
  eexists; eexists. split; [apply (BillScanner_save_loaded br st url img Ho Hd Hc)|].
  cbn [BillScanner.image BillScanner.edit]. rewrite toDataURL_jpeg.
  split; [reflexivity|]. cbn [width height]. rewrite Hk.
  destruct (renderCanvas_size_quarters img Hw Hh k (BillScanner.tempBrightness st)) as [Ew Eh].
  rewrite Ew, Eh.
  change (Rabs (IZR (width img) * cos theta) + Rabs (IZR (height img) * sin theta))%R
    with (BillScanner.newWidth img (90 * k)).
  change (Rabs (IZR (height img) * cos theta) + Rabs (IZR (width img) * sin theta))%R
    with (BillScanner.newHeight img (90 * k)).
  rewrite (newWidth_quarters img Hw Hh), (newHeight_quarters img Hw Hh), !Rceil_IZR.
  split; [reflexivity|]. split; [reflexivity|].
  split; [intros ->; split; reflexivity|].
  split; [intros ->; split; reflexivity|].
  intros excess He. split; apply dimension_excess; try exact He; destruct (Z.even k); lia.
Qed.

Lemma C2_rotated_dimensions_witness :
  exists st' out,
    BillScanner.handleSaveChanges idealBrowser
      (BillScanner.rotateRight (scannerWith (solid 100 200 white))) = Normal st'
    /\ BillScanner.image st' = Some (Encoded "image/jpeg" out)
    /\ width out = 200%Z /\ height out = 100%Z.
Proof.
  destruct (C2_rotated_dimensions idealBrowser
              (BillScanner.rotateRight (scannerWith (solid 100 200 white)))
              (upload (solid 100 200 white)) (solid 100 200 white) 1
              eq_refl eq_refl eq_refl ltac:(simpl; lia) ltac:(simpl; lia) eq_refl)
    as (st' & out & H1 & H2 & _ & _ & H90 & _ & _).
  exists st', out. destruct (H90 eq_refl) as [Hw Hh].
  repeat split; assumption.
Defined.

(** C1, as the code has it. With rotation 0 and brightness 1 every pixel of
    the input is drawn unchanged at its own position on a canvas of the
    input's size; what [handleSaveChanges] stores is that canvas encoded as
    JPEG, so the decoded output has the input's dimensions and is the JPEG
    rendition of the input's pixels: opaque, and equal to them only as far as
    the encoder keeps them. *)
Theorem C1_identity_before_encoding (br : Browser) (st : BillScanner.State)
    (url : DataUrl) (img : Image) :
  BillScanner.originalImage st = Some url ->
  decode url = Some img ->
  validImage img ->
  getContext2d br = true ->
  BillScanner.tempRotation st = 0%Z ->
  BillScanner.tempBrightness st = 1%Q ->
  exists st' out canvas,
    BillScanner.handleSaveChanges br st = Normal st'
    /\ BillScanner.image st' = Some (Encoded "image/jpeg" out)
    /\ samePixels canvas img
    /\ width out = width img /\ height out = height img
    /\ forall x y, pixel out x y = jpegPixels br (pixel canvas) x y.
Proof.
  intros Ho Hd Hv Hc Hr Hb.
  exists (BillScanner.edit st
            (Some (toDataURL br (BillScanner.renderCanvas img 0 1) "image/jpeg"))
            0%Z 1%Q 0%Z 1%Q false).
  eexists. exists (raster (BillScanner.renderCanvas img 0 1)).
  split.
  { rewrite (BillScanner_save_loaded br st url img Ho Hd Hc), Hr, Hb. reflexivity. }
  cbn [BillScanner.image BillScanner.edit]. rewrite toDataURL_jpeg.
  split; [reflexivity|]. cbn [width height pixel raster].
  destruct (render0_size img Hv 1) as [Ew Eh].
  split; [apply (render0_identity img Hv)|].
  split; [exact Ew|]. split; [exact Eh|]. reflexivity.
Qed.

Lemma C1_identity_before_encoding_witness :
  exists st' out canvas,
    BillScanner.handleSaveChanges idealBrowser (scannerWith (solid 100 200 white)) = Normal st'
    /\ BillScanner.image st' = Some (Encoded "image/jpeg" out)
    /\ samePixels canvas (solid 100 200 white)
    /\ width out = 100%Z /\ height out = 200%Z
    /\ forall x y, pixel out x y = jpegPixels idealBrowser (pixel canvas) x y.
Proof.
  apply (C1_identity_before_encoding idealBrowser (scannerWith (solid 100 200 white))
           (upload (solid 100 200 white)) (solid 100 200 white));
    try reflexivity.
  repeat split; try (simpl; lia); cbn; discriminate.
Defined.

(** C1, as stated, fails: a transparent pixel comes back opaque, whatever the
    encoder does to the colours. *)
Lemma C1_transparent_pixel_comes_back_opaque :
  (BillScanner.tempRotation (scannerWith (solid 1 1 transparent)) = 0%Z
   /\ BillScanner.tempBrightness (scannerWith (solid 1 1 transparent)) = 1%Q
   /\ exists st' out,
      BillScanner.handleSaveChanges idealBrowser (scannerWith (solid 1 1 transparent))
      = Normal st'
      /\ BillScanner.image st' = Some (Encoded "image/jpeg" out)
      /\ alpha (pixel (solid 1 1 transparent) 0 0) = 0%Q
      /\ alpha (pixel out 0 0) = 255%Q)
  /\ (forall br st' url' out,
        getContext2d br = true ->
        BillScanner.handleSaveChanges br (scannerWith (solid 1 1 transparent)) = Normal st' ->
        BillScanner.image st' = Some url' ->
        decode url' = Some out ->
        ~ samePixels out (solid 1 1 transparent)).
Proof.
  split.
  - split; [reflexivity|]. split; [reflexivity|].
    eexists; eexists. split; [reflexivity|]. split; [reflexivity|]. split; reflexivity.
  - intros br st' url' out Hc Hs Hi Hd (Hw & Hh & Hpx).
    rewrite (BillScanner_save_loaded br (scannerWith (solid 1 1 transparent))
               (upload (solid 1 1 transparent))
               (solid 1 1 transparent) eq_refl eq_refl Hc) in Hs.
    injection Hs as <-. cbn [BillScanner.image BillScanner.edit] in Hi.
    rewrite toDataURL_jpeg in Hi. injection Hi as <-.
    cbn [decode] in Hd. injection Hd as <-.
    cbn [width height solid] in Hw, Hh. cbn [width height pixel] in Hpx.
    rewrite Hw, Hh in Hpx.
    destruct (Hpx 0%Z 0%Z eq_refl) as (_ & _ & _ & Ha).
    cbn in Ha. discriminate Ha.
Qed.

End BillScannerClaims.

(** ** [ImageEditor.handleSaveChanges] *)

Section ImageEditorRender.

Import Numeric Canvas.


(** The filter list runs left to right. *)
Lemma applyFilter_contrast_saturate (c s : Q) (p : Pixel) :
  applyFilter (ImageEditor.filterOf c s) p = saturatePixel s (contrastPixel c p).
Proof. reflexivity. Qed.

(** A canvas sized after the image, untransformed, with the image drawn at
    the origin through the filter [fs]. *)
Lemma drawn_at_origin (img : Image) (fs : list FilterFn) (X Y : Z) :
  validImage img ->
  inside (width img) (height img) X Y = true ->
  cv_bitmap
    (drawImage
       (setFilter (setHeight (setWidth createCanvas (IZR (width img))) (IZR (height img))) fs)
       img 0 0) X Y
  = applyFilter fs (pixel img X Y).
Proof.
  intros (Hw & Hh & _) Hin.
  set (cv := setFilter _ fs).
  assert (cv_width cv = width img) as Hcw by (apply dimension_IZR; lia).
  assert (cv_height cv = height img) as Hch by (apply dimension_IZR; lia).
  replace 0%R with (- 0)%R at 1 2 by lra.
  rewrite (drawImage_aligned cv img 0 0 X Y eq_refl); [reflexivity | | exact Hin].
  now rewrite Hcw, Hch.
Qed.

Lemma drawn_at_origin_size (img : Image) (fs : list FilterFn) :
  validImage img ->
  let cv := drawImage
       (setFilter (setHeight (setWidth createCanvas (IZR (width img))) (IZR (height img))) fs)
       img 0 0 in
  cv_width cv = width img /\ cv_height cv = height img.
Proof.
  intros (Hw & Hh & _). split; apply dimension_IZR; lia.
Qed.

Lemma editor_bitmap (img : Image) (c s : Q) (X Y : Z) :
  validImage img ->
  inside (width img) (height img) X Y = true ->
  cv_bitmap (ImageEditor.renderCanvas img c s) X Y
  = saturatePixel s (contrastPixel c (pixel img X Y)).
Proof.
  intros Hv Hin. exact (drawn_at_origin img (ImageEditor.filterOf c s) X Y Hv Hin).
Qed.

Lemma swapped_bitmap (img : Image) (c s : Q) (X Y : Z) :
  validImage img ->
  inside (width img) (height img) X Y = true ->
  cv_bitmap (ImageEditor.swappedCanvas img c s) X Y
  = contrastPixel c (saturatePixel s (pixel img X Y)).
Proof.
  intros Hv Hin. exact (drawn_at_origin img [saturate s; contrast c] X Y Hv Hin).
Qed.

Lemma contrastPixel_ok (c : Q) (p : Pixel) :
  channelOk (alpha p) -> pixelOk (contrastPixel c p).
Proof.
  intros Ha. unfold pixelOk, contrastPixel, contrastChannel; cbn.
  repeat split; try apply clamp255_range; apply Ha.
Qed.

(** Full saturation of a pixel that is already within range: nothing
    changes. *)
Lemma saturatePixel_one (p : Pixel) : pixelOk p -> pixelEq (saturatePixel 1 p) p.
Proof.
  intros (Hr & Hg & Hb & Ha). unfold pixelEq, saturatePixel, saturateChannel; cbn.
  repeat split; try reflexivity;
    (etransitivity; [apply clamp255_proper | now apply clamp255_id]); ring.
Qed.

(** No saturation: the three channels are the clamped luminance. *)
Lemma saturatePixel_zero (p : Pixel) :
  (red (saturatePixel 0 p) == clamp255 (luminance p)
   /\ green (saturatePixel 0 p) == clamp255 (luminance p)
   /\ blue (saturatePixel 0 p) == clamp255 (luminance p))%Q.
Proof.
  unfold saturatePixel, saturateChannel; cbn.
  repeat split; apply clamp255_proper; ring.
Qed.

Lemma validImage_solid (w h : Z) (p : Pixel) :
  (0 < w < 2 ^ 31)%Z -> (0 < h < 2 ^ 31)%Z -> pixelOk p ->
  validImage (Examples.solid w h p).
Proof. intros Hw Hh Hp. repeat split; try apply Hw; try apply Hh; intros; apply Hp. Qed.

End ImageEditorRender.

(** ** Claims about the tone adjustment of the image editor *)

Section ToneClaims.

Import Numeric Canvas Examples.

(** C3. For every pixel and every contrast factor, the contrast step of the
    tone adjustment computes [(in - 128) * contrastFactor + 128] on each RGB
    channel, clamped to [0, 255], and the saturation step works on its
    result; hence a solid mid-gray (128, 128, 128) image stays mid-gray under
    contrast 1.5 and saturation 1.0, and a channel at 255 stays at 255 under
    contrast 2, without wrapping around. *)
Theorem C3_contrast_step (img : Image) (c s : Q) (x y : Z) :
  validImage img ->
  inside (width img) (height img) x y = true ->
  let p := pixel img x y in
  let q := contrastPixel c p in
  cv_bitmap (ImageEditor.renderCanvas img c s) x y = saturatePixel s q
  /\ red q = clamp255 ((red p - 128) * c + 128)
  /\ green q = clamp255 ((green p - 128) * c + 128)
  /\ blue q = clamp255 ((blue p - 128) * c + 128)
  /\ alpha q = alpha p
  /\ (channelOk (red q) /\ channelOk (green q) /\ channelOk (blue q))
  /\ (forall w h x' y',
        (0 < w < 2 ^ 31)%Z -> (0 < h < 2 ^ 31)%Z -> inside w h x' y' = true ->
        pixelEq (cv_bitmap (ImageEditor.renderCanvas (solid w h midGray) (3 # 2) 1) x' y')
          midGray)
  /\ (forall v, (v == 255)%Q ->
        (contrastChannel 2 v == 255)%Q /\ (contrastChannel 2 v <= 255)%Q).
Proof.
  intros Hv Hin p q.
  split; [apply (editor_bitmap img c s x y Hv Hin)|].
  do 4 (split; [reflexivity|]).
  split; [repeat split; apply clamp255_range|].
  split.
  - intros w h x' y' Hw Hh Hin'.
    assert (pixelOk midGray) as Hg by (repeat split; discriminate).
    rewrite (editor_bitmap (solid w h midGray) (3 # 2) 1 x' y'
               (validImage_solid w h midGray Hw Hh Hg) Hin').
    cbn [pixel solid]. repeat split; vm_compute; reflexivity.
  - intros v E.
    assert (contrastChannel 2 v == 255)%Q as H.
    { unfold contrastChannel. rewrite (clamp255_proper _ 382); [reflexivity|].
      rewrite E. reflexivity. }
    split; [exact H | rewrite H; apply Qle_refl].
Qed.

Lemma C3_contrast_step_witness :
  cv_bitmap (ImageEditor.renderCanvas (solid 4 3 pureRed) 2 1) 1 2
  = saturatePixel 1 (contrastPixel 2 pureRed)
  /\ red (contrastPixel 2 pureRed) = clamp255 ((255 - 128) * 2 + 128).
Proof.
  assert (validImage (solid 4 3 pureRed)) as Hv.
  { apply validImage_solid; [lia | lia |]. repeat split; discriminate. }
  destruct (C3_contrast_step (solid 4 3 pureRed) 2 1 1 2 Hv eq_refl)
    as (H1 & H2 & _).
  split; [exact H1 | exact H2].
Defined.

(** C4. For every pixel and every saturation factor, the saturation step
    computes [gray + (color - gray) * saturationFactor], clamped to [0, 255],
    with [gray] the luminance of the contrast-adjusted colour; factor 0 gives
    R = G = B at every pixel and factor 1 leaves the result of the contrast
    step as it is. *)
Theorem C4_saturation_step (img : Image) (c s : Q) (x y : Z) :
  validImage img ->
  inside (width img) (height img) x y = true ->
  let q := contrastPixel c (pixel img x y) in
  let gray := luminance q in
  let out := cv_bitmap (ImageEditor.renderCanvas img c s) x y in
  red out = clamp255 (gray + (red q - gray) * s)
  /\ green out = clamp255 (gray + (green q - gray) * s)
  /\ blue out = clamp255 (gray + (blue q - gray) * s)
  /\ alpha out = alpha q
  /\ ((s == 0)%Q -> (red out == green out)%Q /\ (green out == blue out)%Q)
  /\ ((s == 1)%Q -> pixelEq out q).
Proof.
  intros Hv Hin q gray out.
  assert (out = saturatePixel s q) as -> by apply (editor_bitmap img c s x y Hv Hin).
  do 4 (split; [reflexivity|]).
  assert (forall v, (s == 0)%Q -> (saturateChannel s gray v == clamp255 gray)%Q) as H0.
  { intros v E. apply clamp255_proper. rewrite E. ring. }
  assert (forall v, (s == 1)%Q -> channelOk v -> (saturateChannel s gray v == v)%Q) as H1.
  { intros v E Hc. unfold saturateChannel.
    rewrite (clamp255_proper _ v) by (rewrite E; ring). now apply clamp255_id. }
  split.
  - intros E. unfold saturatePixel; cbn [red green blue]. fold gray.
    rewrite !(H0 _ E). split; reflexivity.
  - intros E. unfold pixelEq, saturatePixel; cbn [red green blue alpha]. fold gray.
    repeat split; try reflexivity; apply (H1 _ E); apply clamp255_range.
Qed.

Lemma C4_saturation_step_witness :
  let out := cv_bitmap (ImageEditor.renderCanvas (solid 4 3 pureRed) 2 0) 1 2 in
  (red out == green out)%Q /\ (green out == blue out)%Q.
Proof.
  assert (validImage (solid 4 3 pureRed)) as Hv.
  { apply validImage_solid; [lia | lia |]. repeat split; discriminate. }
  destruct (C4_saturation_step (solid 4 3 pureRed) 2 0 1 2 Hv eq_refl)
    as (_ & _ & _ & _ & H0 & _).
  apply H0. reflexivity.
Defined.

(** C5. The tone adjustment applies contrast before saturation, and the two
    steps do not commute: on a pure red pixel with contrast 2 and saturation
    0, contrast then saturation and saturation then contrast give different
    pixels. *)
Theorem C5_contrast_before_saturation :
  (forall c s p,
      applyFilter (ImageEditor.filterOf c s) p = saturatePixel s (contrastPixel c p))
  /\ (forall img c s x y,
        validImage img -> inside (width img) (height img) x y = true ->
        cv_bitmap (ImageEditor.renderCanvas img c s) x y
        = saturatePixel s (contrastPixel c (pixel img x y)))
  /\ (exists img c s x y,
        validImage img /\ inside (width img) (height img) x y = true
        /\ ~ pixelEq (cv_bitmap (ImageEditor.renderCanvas img c s) x y)
               (cv_bitmap (ImageEditor.swappedCanvas img c s) x y)).
Proof.
  split; [reflexivity|]. split; [exact editor_bitmap|].
  exists (solid 1 1 pureRed), 2%Q, 0%Q, 0%Z, 0%Z.
  assert (validImage (solid 1 1 pureRed)) as Hv.
  { apply validImage_solid; [lia | lia |]. repeat split; discriminate. }
  split; [exact Hv|]. split; [reflexivity|].
  rewrite (editor_bitmap _ 2 0 0 0 Hv eq_refl), (swapped_bitmap _ 2 0 0 0 Hv eq_refl).
  intros (Hr & _). vm_compute in Hr. discriminate Hr.
Qed.

End ToneClaims.

(** ** The text overlay of the image generator *)

Section OverlayFacts.

Import Numeric Canvas.

Lemma trimStart_blank (s : JsString.t) :
  JsString.blank s = true -> JsString.trimStart s = [].
Proof.
  induction s as [|c s IH]; [reflexivity|].
  cbn. destruct (JsString.isWhiteSpace c); [exact IH | discriminate].
Qed.

Lemma trim_blank (s : JsString.t) : JsString.blank s = true -> JsString.trim s = [].
Proof. intros H. unfold JsString.trim. now rewrite trimStart_blank. Qed.

Lemma overlay_loaded (br : Browser) (st : ImageGenerator.State)
    (url : DataUrl) (img : Image) :
  ImageGenerator.generatedImage st = Some url ->
  decode url = Some img ->
  getContext2d br = true ->
  ImageGenerator.overlayEffect br st
  = Normal (ImageGenerator.setImageWithText st
              (Some (toDataURL br (ImageGenerator.overlayCanvas br img st) "image/png"))).
Proof.
  intros Hg Hd Hc. unfold ImageGenerator.overlayEffect. now rewrite Hg, Hd, Hc.
Qed.

Lemma toDataURL_png (br : Browser) (cv : Canvas.t) :
  toDataURL br cv "image/png" = Encoded "image/png" (raster cv).
Proof. reflexivity. Qed.

(** With a blank text the canvas holds the image and nothing else. *)
Lemma overlayCanvas_blank (br : Browser) (img : Image) (st : ImageGenerator.State) :
  JsString.trim (ImageGenerator.overlayText st) = [] ->
  ImageGenerator.overlayCanvas br img st
  = drawImage (setHeight (setWidth createCanvas (IZR (width img))) (IZR (height img)))
      img 0 0.
Proof. intros H. unfold ImageGenerator.overlayCanvas. now rewrite H. Qed.

Lemma image_only_canvas (img : Image) :
  validImage img ->
  samePixels
    (raster (drawImage (setHeight (setWidth createCanvas (IZR (width img)))
                          (IZR (height img))) img 0 0))
    img.
Proof.
  intros Hv. destruct (drawn_at_origin_size img [] Hv) as [Hw Hh].
  set (cv := drawImage _ img 0 0).
  change (cv_width cv = width img) in Hw. change (cv_height cv = height img) in Hh.
  unfold samePixels, raster; cbn [width height pixel].
  split; [exact Hw | split; [exact Hh |]].
  intros x y Hin. rewrite Hw, Hh in Hin.
  assert (cv_bitmap cv x y = pixel img x y) as -> by exact (drawn_at_origin img [] x y Hv Hin).
  apply pixelEq_refl.
Qed.

End OverlayFacts.

Section OverlayClaims.

Import Numeric Canvas Examples.

(** The two text calls of [drawOverlay], on any canvas. *)
Lemma drawOverlay_text (br : Browser) (cv : Canvas.t) (st : ImageGenerator.State) :
  let x := (inject_Z (cv_width cv) / 2)%Q in
  let op := fun kind style baseline y =>
    {| op_kind := kind; op_text := ImageGenerator.overlayText st;
       op_x := x; op_y := y;
       op_font := {| font_size := ImageGenerator.fontSize st;
                     font_family := ImageGenerator.fontFamily st |};
       op_style := style;
       op_lineWidth := (ImageGenerator.fontSize st / 20)%Q;
       op_align := align_center; op_baseline := baseline |} in
  let both := fun baseline y =>
    [op stroke (ImageGenerator.strokeColor st) baseline y;
     op fill (ImageGenerator.fontColor st) baseline y] in
  cv_text (ImageGenerator.drawOverlay br cv st)
  = cv_text cv ++
    match ImageGenerator.textPosition st with
    | ImageGenerator.top => both baseline_top (ImageGenerator.fontSize st)
    | ImageGenerator.bottom =>
        both baseline_bottom (inject_Z (cv_height cv) - ImageGenerator.fontSize st)%Q
    | ImageGenerator.middle => both baseline_middle (inject_Z (cv_height cv) / 2)%Q
    end.
Proof.
  cbv zeta. unfold ImageGenerator.drawOverlay.
  destruct (ImageGenerator.textPosition st); cbn; rewrite <- app_assoc; reflexivity.
Qed.

(** C6. For every image and every overlay whose text is empty or white space
    only, the overlay effect returns normally with an output that has the
    input's pixels, issues no text call, and stores exactly what the render
    with no overlay text stores. *)
Theorem C6_blank_overlay_is_identity (br : Browser) (st : ImageGenerator.State)
    (url : DataUrl) (img : Image) :
  ImageGenerator.generatedImage st = Some url ->
  decode url = Some img ->
  validImage img ->
  getContext2d br = true ->
  JsString.blank (ImageGenerator.overlayText st) = true ->
  exists st' out,
    ImageGenerator.overlayEffect br st = Normal st'
    /\ ImageGenerator.imageWithText st' = Some (Encoded "image/png" out)
    /\ samePixels out img
    /\ cv_text (ImageGenerator.overlayCanvas br img st) = []
    /\ exists st0,
         ImageGenerator.overlayEffect br (ImageGenerator.setOverlayText [] st) = Normal st0
         /\ ImageGenerator.imageWithText st0 = ImageGenerator.imageWithText st'.
Proof.
  intros Hg Hd Hv Hc Hb. apply trim_blank in Hb.
  eexists; eexists. split; [apply (overlay_loaded br st url img Hg Hd Hc)|].
  cbn [ImageGenerator.imageWithText ImageGenerator.setImageWithText].
  rewrite (overlayCanvas_blank br img st Hb), toDataURL_png.
  split; [reflexivity|]. split; [apply (image_only_canvas img Hv)|].
  split; [reflexivity|].
  eexists. split.
  - apply (overlay_loaded br (ImageGenerator.setOverlayText [] st) url img Hg Hd Hc).
  - reflexivity.
Qed.

Lemma C6_blank_overlay_is_identity_witness :
  exists st' out,
    ImageGenerator.overlayEffect idealBrowser
      (generatorWith (solid 500 500 white) (JsString.of_string "  ") 64 ImageGenerator.top)
    = Normal st'
    /\ ImageGenerator.imageWithText st' = Some (Encoded "image/png" out)
    /\ samePixels out (solid 500 500 white).
Proof.
  assert (validImage (solid 500 500 white)) as Hv.
  { apply validImage_solid; [lia | lia |]. repeat split; discriminate. }
  destruct (C6_blank_overlay_is_identity idealBrowser
              (generatorWith (solid 500 500 white) (JsString.of_string "  ") 64
                 ImageGenerator.top)
              (Encoded "image/jpeg" (solid 500 500 white)) (solid 500 500 white)
              eq_refl eq_refl Hv eq_refl eq_refl)
    as (st' & out & H1 & H2 & H3 & _).
  exists st', out. split; [exact H1 | split; [exact H2 | exact H3]].
Defined.

(** C7. For every overlay with a text to draw (the effect tests
    [overlayText.trim()], so a text is there when it is not empty once white
    space is trimmed; the case without one is C6), the effect issues a
    [strokeText] and then a [fillText] of the text at the same point:
    x = width / 2 with centre alignment, and y = fontSizePx with a top
    baseline, y = height - fontSizePx with a bottom baseline, or
    y = height / 2 with a middle baseline, according to the anchor; the line
    width is fontSizePx / 20. *)
Theorem C7_text_placement (br : Browser) (st : ImageGenerator.State)
    (url : DataUrl) (img : Image) :
  ImageGenerator.generatedImage st = Some url ->
  decode url = Some img ->
  validImage img ->
  getContext2d br = true ->
  JsString.trim (ImageGenerator.overlayText st) <> [] ->
  let x := (inject_Z (width img) / 2)%Q in
  let op := fun kind style baseline y =>
    {| op_kind := kind; op_text := ImageGenerator.overlayText st;
       op_x := x; op_y := y;
       op_font := {| font_size := ImageGenerator.fontSize st;
                     font_family := ImageGenerator.fontFamily st |};
       op_style := style;
       op_lineWidth := (ImageGenerator.fontSize st / 20)%Q;
       op_align := align_center; op_baseline := baseline |} in
  let both := fun baseline y =>
    [op stroke (ImageGenerator.strokeColor st) baseline y;
     op fill (ImageGenerator.fontColor st) baseline y] in
  let canvas := ImageGenerator.overlayCanvas br img st in
  (exists st', ImageGenerator.overlayEffect br st = Normal st'
               /\ ImageGenerator.imageWithText st' = Some (toDataURL br canvas "image/png"))
  /\ (ImageGenerator.textPosition st = ImageGenerator.top ->
      cv_text canvas = both baseline_top (ImageGenerator.fontSize st))
  /\ (ImageGenerator.textPosition st = ImageGenerator.bottom ->
      cv_text canvas
      = both baseline_bottom (inject_Z (height img) - ImageGenerator.fontSize st)%Q)
  /\ (ImageGenerator.textPosition st = ImageGenerator.middle ->
      cv_text canvas = both baseline_middle (inject_Z (height img) / 2)%Q).
Proof.
  intros Hg Hd Hv Hc Ht x op both canvas.
  split.
  { eexists. split; [apply (overlay_loaded br st url img Hg Hd Hc) | reflexivity]. }
  assert (cv_text canvas
          = match ImageGenerator.textPosition st with
            | ImageGenerator.top => both baseline_top (ImageGenerator.fontSize st)
            | ImageGenerator.bottom =>
                both baseline_bottom (inject_Z (height img) - ImageGenerator.fontSize st)%Q
            | ImageGenerator.middle => both baseline_middle (inject_Z (height img) / 2)%Q
            end) as E.
  { subst canvas. unfold ImageGenerator.overlayCanvas.
    destruct (JsString.trim (ImageGenerator.overlayText st)) as [|c rest]; [now destruct Ht|].
    cbn [JsString.truthy]. rewrite drawOverlay_text.
    destruct (drawn_at_origin_size img [] Hv) as [Hw Hh].
    set (cv := drawImage _ img 0 0).
    change (cv_width cv = width img) in Hw. change (cv_height cv = height img) in Hh.
    rewrite Hw, Hh. reflexivity. }
  rewrite E. repeat split; intros ->; reflexivity.
Qed.

Lemma C7_text_placement_witness :
  exists s f,
    cv_text (ImageGenerator.overlayCanvas idealBrowser (solid 500 500 white)
               (generatorWith (solid 500 500 white) (JsString.of_string "HI") 64
                  ImageGenerator.top))
    = [s; f]
    /\ op_kind s = stroke /\ op_kind f = fill
    /\ op_text s = JsString.of_string "HI" /\ op_text f = JsString.of_string "HI"
    /\ (op_x s == 250)%Q /\ (op_y s == 64)%Q
    /\ (op_x f == 250)%Q /\ (op_y f == 64)%Q
    /\ op_baseline s = baseline_top /\ op_align s = align_center
    /\ (op_lineWidth s == 64 / 20)%Q.
Proof.
  assert (validImage (solid 500 500 white)) as Hv.
  { apply validImage_solid; [lia | lia |]. repeat split; discriminate. }
  destruct (C7_text_placement idealBrowser
              (generatorWith (solid 500 500 white) (JsString.of_string "HI") 64
                 ImageGenerator.top)
              (Encoded "image/jpeg" (solid 500 500 white)) (solid 500 500 white)
              eq_refl eq_refl Hv eq_refl ltac:(discriminate))
    as (_ & Htop & _).
  eexists; eexists. split; [apply Htop; reflexivity|].
  repeat split.
Defined.

(** The text the effect tests is the trimmed one: a text of one space is
    no text to draw, and the image comes out as C6 has it. *)
Lemma space_counts_as_no_text :
  let st := generatorWith (solid 500 500 white) (JsString.of_string " ") 64
              ImageGenerator.top in
  ImageGenerator.overlayText st = [32%N]
  /\ ImageGenerator.overlayText st <> []
  /\ cv_text (ImageGenerator.overlayCanvas idealBrowser (solid 500 500 white) st) = []
  /\ exists st',
       ImageGenerator.overlayEffect idealBrowser st = Normal st'
       /\ ImageGenerator.imageWithText st'
          = Some (toDataURL idealBrowser
                    (drawImage (setHeight (setWidth createCanvas 500) 500)
                       (solid 500 500 white) 0 0) "image/png").
Proof.
  cbv zeta. split; [reflexivity|]. split; [discriminate|]. split; [reflexivity|].
  eexists. split; reflexivity.
Qed.

End OverlayClaims.

(** ** Missing sources *)

Section PreconditionClaims.

Import Canvas.

(** C8, as the code has it. When the source image is absent or does not
    decode, the two [handleSaveChanges] handlers return without drawing and
    leave the state as it was, and the overlay effect returns with
    [imageWithText] set to the source itself ([null] when absent); none of
    the three ever throws, on any state. *)
Theorem C8_missing_source_returns_silently (br : Browser)
    (bs : BillScanner.State) (es : ImageEditor.State) (gs : ImageGenerator.State) :
  unusable (BillScanner.originalImage bs) = true ->
  unusable (ImageEditor.originalImage es) = true ->
  unusable (ImageGenerator.generatedImage gs) = true ->
  BillScanner.handleSaveChanges br bs = Normal bs
  /\ ImageEditor.handleSaveChanges br es = Normal es
  /\ ImageGenerator.overlayEffect br gs
     = Normal (ImageGenerator.setImageWithText gs (ImageGenerator.generatedImage gs))
  /\ (forall st, exists st', BillScanner.handleSaveChanges br st = Normal st')
  /\ (forall st, exists st', ImageEditor.handleSaveChanges br st = Normal st')
  /\ (forall st, exists st', ImageGenerator.overlayEffect br st = Normal st').
Proof.
  intros Hb He Hg.
  split.
  { unfold BillScanner.handleSaveChanges. unfold unusable in Hb.
    destruct (BillScanner.originalImage bs) as [url|]; [|reflexivity].
    destruct (decode url); [discriminate | reflexivity]. }
  split.
  { unfold ImageEditor.handleSaveChanges. unfold unusable in He.
    destruct (ImageEditor.originalImage es) as [url|]; [|reflexivity].
    destruct (decode url); [discriminate | reflexivity]. }
  split.
  { unfold ImageGenerator.overlayEffect. unfold unusable in Hg.
    destruct (ImageGenerator.generatedImage gs) as [url|]; [|reflexivity].
    destruct (decode url); [discriminate | reflexivity]. }
  split; [|split]; intros st.
  - unfold BillScanner.handleSaveChanges.
    destruct (BillScanner.originalImage st) as [url|]; [|eexists; reflexivity].
    destruct (decode url); [|eexists; reflexivity].
    destruct (negb (getContext2d br)); eexists; reflexivity.
  - unfold ImageEditor.handleSaveChanges.
    destruct (ImageEditor.originalImage st) as [url|]; [|eexists; reflexivity].
    destruct (decode url); [|eexists; reflexivity].
    destruct (negb (getContext2d br)); eexists; reflexivity.
  - unfold ImageGenerator.overlayEffect.
    destruct (ImageGenerator.generatedImage st) as [url|]; [|eexists; reflexivity].
    destruct (decode url); [|eexists; reflexivity].
    destruct (negb (getContext2d br)); eexists; reflexivity.
Qed.

Lemma C8_missing_source_returns_silently_witness :
  BillScanner.handleSaveChanges idealBrowser (BillScanner.initialState ∅)
  = Normal (BillScanner.initialState ∅)
  /\ ImageEditor.handleSaveChanges idealBrowser ImageEditor.initialState
     = Normal ImageEditor.initialState
  /\ ImageGenerator.overlayEffect idealBrowser ImageGenerator.initialState
     = Normal (ImageGenerator.setImageWithText ImageGenerator.initialState None).
Proof.
  destruct (C8_missing_source_returns_silently idealBrowser
              (BillScanner.initialState ∅) ImageEditor.initialState
              ImageGenerator.initialState eq_refl eq_refl eq_refl)
    as (H1 & H2 & H3 & _).
  split; [exact H1 | split; [exact H2 | exact H3]].
Defined.

(** C8, as stated, fails: with no source image [handleSaveChanges] returns
    the state it was given and signals nothing. *)
Lemma C8_no_error_is_signalled :
  BillScanner.originalImage (BillScanner.initialState ∅) = None
  /\ BillScanner.handleSaveChanges idealBrowser (BillScanner.initialState ∅)
     = Normal (BillScanner.initialState ∅)
  /\ ~ (exists msg,
          BillScanner.handleSaveChanges idealBrowser (BillScanner.initialState ∅)
          = Throw (InvalidInputError msg)).
Proof.
  split; [reflexivity|]. split; [reflexivity|].
  intros [msg H]. discriminate H.
Qed.

End PreconditionClaims.

(** ** The scan history *)

Section HistoryClaims.

Import Canvas Types BillScanner.

Lemma take_10_length (l : list ScanHistoryItem) : (length (take 10 l) <= 10)%nat.
Proof. rewrite length_take. lia. Qed.

Lemma persisted_insert (st : State) (entries : list ScanHistoryItem)
    (storage : gmap string Stored) :
  localStorage st = <[historyKey := Json entries]> storage ->
  persisted st = Some entries.
Proof. intros E. unfold persisted. now rewrite E, lookup_insert_eq. Qed.

Lemma persisted_delete (st : State) (storage : gmap string Stored) :
  localStorage st = delete historyKey storage -> persisted st = None.
Proof. intros E. unfold persisted. now rewrite E, lookup_delete_eq. Qed.

(** What a bill scan that the service answers leaves behind. *)
Lemma handleScan_bill (env : ScanEnv) (st : State) (img : DataUrl) (file : File)
    (result : BillData) :
  image st = Some img ->
  imageFile st = Some file ->
  scanMode st = bill ->
  analyzeBill env img (file_type file) = Normal result ->
  let entry := {| id := isoNow env; imageDataUrl := img;
                  Types.billData := result; timestamp := dateNow env |} in
  let updated := take 10 (entry :: history st) in
  handleScan env st
  = Normal match setItemError env (localStorage st) historyKey (Json updated) with
           | None =>
               scanned st (Some result) None None updated
                 (<[historyKey := Json updated]> (localStorage st))
           | Some err =>
               scanned st (Some result) None (Some (scanErrorMessage err)) updated
                 (localStorage st)
           end.
Proof.
  intros Hi Hf Hm Ha. unfold handleScan, setItem. rewrite Hi, Hf, Hm, Ha. cbv zeta.
  now destruct (setItemError env _ _ _).
Qed.

(** [handleScan] never throws, and what it does to the history is one of
    three things: nothing; a new entry in front, written to the storage; a
    new entry in front that the storage refused. *)
Lemma handleScan_history (env : ScanEnv) (st : State) :
  exists st', handleScan env st = Normal st'
    /\ ((history st' = history st /\ localStorage st' = localStorage st)
        \/ (exists entry,
              history st' = take 10 (entry :: history st)
              /\ (localStorage st' = <[historyKey := Json (history st')]> (localStorage st)
                  \/ localStorage st' = localStorage st))).
Proof.
  unfold handleScan, setItem.
  destruct (image st) as [img|]; [|eexists; split; [reflexivity | left; split; reflexivity]].
  destruct (imageFile st) as [file|]; [|eexists; split; [reflexivity | left; split; reflexivity]].
  destruct (scanMode st).
  - destruct (analyzeBill env img (file_type file)) as [result|err].
    + cbv zeta. destruct (setItemError env _ _ _).
      * eexists; split; [reflexivity|]. right. eexists. split; [reflexivity | now right].
      * eexists; split; [reflexivity|]. right. eexists. split; [reflexivity | now left].
    + eexists; split; [reflexivity | left; split; reflexivity].
  - destruct (extractTextFromImage env img (file_type file));
      eexists; (split; [reflexivity | left; split; reflexivity]).
Qed.

Lemma handleSaveChanges_history (br : Browser) (st st' : State) :
  handleSaveChanges br st = Normal st' ->
  history st' = history st /\ localStorage st' = localStorage st.
Proof.
  unfold handleSaveChanges.
  destruct (originalImage st) as [url|]; [|intros [= <-]; auto].
  destruct (decode url); [|intros [= <-]; auto].
  destruct (negb (getContext2d br)); intros [= <-]; auto.
Qed.

Lemma capped_same (st st' : State) :
  history st' = history st -> localStorage st' = localStorage st ->
  capped st -> capped st'.
Proof.
  intros Hh Hs [H1 H2]. unfold capped, persisted in *. rewrite Hh, Hs. auto.
Qed.

Lemma step_capped (st st' : State) : step st st' -> capped st -> capped st'.
Proof.
  intros Hstep Hc. destruct Hstep;
    try (apply (capped_same st); [reflexivity | reflexivity | exact Hc]).
  - (* mount *)
    destruct Hc as [H1 H2]. unfold mountEffect.
    destruct (localStorage st !! historyKey) as [[entries | text]|] eqn:E.
    + split; cbn [history].
      * apply H2. unfold persisted. now rewrite E.
      * exact H2.
    + destruct (String.eqb text ""); [split; assumption|].
      split; [exact H1|]. intros entries.
      rewrite (persisted_delete _ (localStorage st)) by reflexivity. discriminate.
    + split; assumption.
  - (* scan *)
    destruct (handleScan_history env st)
      as (st0 & E & [[Hh Hs] | (entry & Hh & [Hs | Hs])]);
      rewrite E in H; injection H as <-.
    + now apply (capped_same st).
    + split.
      * rewrite Hh. apply take_10_length.
      * intros entries. rewrite (persisted_insert _ _ _ Hs). intros [= <-].
        rewrite Hh. apply take_10_length.
    + split.
      * rewrite Hh. apply take_10_length.
      * unfold persisted. rewrite Hs. apply Hc.
  - (* clear *)
    unfold handleClearHistory. destruct (history st) eqn:E; [exact Hc|].
    apply (capped_same st); [cbn; now rewrite E | reflexivity | exact Hc].
  - (* the timer of clear *)
    split; [cbn; lia|]. intros entries.
    rewrite (persisted_delete _ (localStorage st)) by reflexivity. discriminate.
  - (* editToggle *)
    unfold handleEditToggle. destruct (isEditing st);
      (apply (capped_same st); [reflexivity | reflexivity | exact Hc]).
  - (* save *)
    destruct (handleSaveChanges_history br st st' H) as [Hh Hs].
    now apply (capped_same st).
Qed.

Lemma reachable_capped (storage : gmap string Stored) (st : State) :
  (forall entries, storage !! historyKey = Some (Json entries) -> (length entries <= 10)%nat) ->
  reachable storage st -> capped st.
Proof.
  intros Hs Hr. induction Hr as [|st st' _ IH Hstep].
  - split; [cbn; lia|]. intros entries. unfold persisted; cbn [localStorage initialState].
    destruct (storage !! historyKey) as [[e | t]|] eqn:E; try discriminate.
    intros [= <-]. now apply Hs.
  - exact (step_capped st st' Hstep IH).
Qed.

(** The rotation is a multiple of 90 degrees in every state the component
    reaches. *)
Lemma js_rem_quarters (k : Z) : Numeric.js_rem (90 * k) 360 = (90 * Z.rem k 4)%Z.
Proof.
  unfold Numeric.js_rem. change 360%Z with (90 * 4)%Z.
  apply Z.mul_rem_distr_l; lia.
Qed.

Lemma reachable_rotation (storage : gmap string Stored) (st : State) :
  reachable storage st ->
  (exists k, rotation st = 90 * k)%Z /\ (exists k, tempRotation st = 90 * k)%Z.
Proof.
  intros Hr. induction Hr as [|st st' _ [[k Hk] [j Hj]] Hstep].
  - split; exists 0%Z; reflexivity.
  - destruct Hstep; cbn [rotation tempRotation edit setScanMode handleHistoryClick
                          handleImageChange setClearing clearHistoryTimeout
                          setTempBrightness rotateLeft rotateRight
                          setBillData setActiveField];
      try (split; [exists k; exact Hk | exists j; exact Hj]).
    + unfold mountEffect.
      destruct (localStorage st !! historyKey) as [[e | t]|];
        [| destruct (String.eqb t "") |]; (split; [exists k; exact Hk | exists j; exact Hj]).
    + split; exists 0%Z; reflexivity.
    + destruct (handleScan_history env st) as (st0 & E & _).
      unfold handleScan, setItem in H.
      destruct (image st) as [img|]; [destruct (imageFile st) as [file|] |];
        [destruct (scanMode st);
         [destruct (analyzeBill env img (file_type file));
          [cbv zeta in H; destruct (setItemError env _ _ _)|]
         | destruct (extractTextFromImage env img (file_type file))] | |];
        injection H as <-; (split; [exists k; exact Hk | exists j; exact Hj]).
    + unfold handleClearHistory. destruct (history st);
        (split; [exists k; exact Hk | exists j; exact Hj]).
    + unfold handleEditToggle. destruct (isEditing st); cbn [rotation tempRotation edit];
        [split; [exists k; exact Hk | exists j; exact Hj]
        | split; exists k; exact Hk].
    + split; [exists k; exact Hk|]. rewrite Hj.
      replace (90 * j - 90)%Z with (90 * (j - 1))%Z by lia.
      rewrite js_rem_quarters. eexists; reflexivity.
    + split; [exists k; exact Hk|]. rewrite Hj.
      replace (90 * j + 90)%Z with (90 * (j + 1))%Z by lia.
      rewrite js_rem_quarters. eexists; reflexivity.
    + unfold handleSaveChanges in H.
      destruct (originalImage st) as [url|];
        [destruct (decode url); [destruct (negb (getContext2d br))|]|];
        injection H as <-; cbn [rotation tempRotation edit];
        try (split; [exists k; exact Hk | exists j; exact Hj]).
      split; exists j; exact Hj.
Qed.

End HistoryClaims.

Section ScanClaims.

Import Canvas Types BillScanner Examples.

(** C9. After a bill scan that the service answers, the history is the new
    entry (source image, extracted data, timestamp) followed by the previous
    ones, cut to 10.  The write to the storage is one [setItem] of the whole
    list under the single key ['billScannerHistory']: when it goes through,
    the entry under that key is exactly the new list; when it throws, the
    storage is as it was and the error is shown; either way every other key
    is left alone and the bound of 10 on the history and on the persisted
    history is kept.  In every state the component reaches, the history and
    the persisted history have at most 10 entries. *)
Theorem C9_history_capped (env : ScanEnv) (st : State) (img : DataUrl)
    (file : File) (result : BillData) :
  image st = Some img ->
  imageFile st = Some file ->
  scanMode st = bill ->
  analyzeBill env img (file_type file) = Normal result ->
  let entry := {| id := isoNow env; imageDataUrl := img;
                  Types.billData := result; timestamp := dateNow env |} in
  (exists st',
      handleScan env st = Normal st'
      /\ history st' = take 10 (entry :: history st)
      /\ (length (history st') <= 10)%nat
      /\ match setItemError env (localStorage st) historyKey (Json (history st')) with
         | None =>
             localStorage st' = <[historyKey := Json (history st')]> (localStorage st)
             /\ persisted st' = Some (history st')
             /\ error st' = None
         | Some err =>
             localStorage st' = localStorage st
             /\ persisted st' = persisted st
             /\ error st' = Some (scanErrorMessage err)
         end
      /\ historyKey = "billScannerHistory"
      /\ (forall key, key <> historyKey -> localStorage st' !! key = localStorage st !! key)
      /\ (capped st -> capped st'))
  /\ (forall storage st0,
        (forall entries, storage !! historyKey = Some (Json entries) ->
                         (length entries <= 10)%nat) ->
        reachable storage st0 -> capped st0).
Proof.
  intros Hi Hf Hm Ha entry. split; [|exact reachable_capped].
  eexists. split; [apply (handleScan_bill env st img file result Hi Hf Hm Ha)|].
  fold entry.
  destruct (setItemError env (localStorage st) historyKey
              (Json (take 10 (entry :: history st)))) as [err|] eqn:E;
    cbn [history localStorage scanned error]; rewrite E.
  - split; [reflexivity|]. split; [apply take_10_length|].
    split; [repeat split|]. split; [reflexivity|]. split; [reflexivity|].
    intros [_ Hc]. unfold capped. cbn [history scanned].
    split; [apply take_10_length | exact Hc].
  - split; [reflexivity|]. split; [apply take_10_length|].
    split; [split; [reflexivity | split;
              [apply (persisted_insert _ _ (localStorage st)); reflexivity
              | reflexivity]]|].
    split; [reflexivity|].
    split; [intros key Hk; now rewrite lookup_insert_ne|].
    intros _. unfold capped. cbn [history scanned].
    split; [apply take_10_length|]. intros entries.
    rewrite (persisted_insert _ _ (localStorage st)) by reflexivity.
    intros E'. assert (entries = take 10 (entry :: history st)) as -> by congruence.
    apply take_10_length.
Qed.

Lemma C9_history_capped_witness :
  (exists st',
     handleScan answering (scans 11 (scannerWith (solid 2 2 white))) = Normal st'
     /\ length (history (scans 11 (scannerWith (solid 2 2 white)))) = 10%nat
     /\ length (history st') = 10%nat
     /\ persisted st' = Some (history st'))
  /\ (exists st',
       handleScan storageFull (scans 11 (scannerWith (solid 2 2 white))) = Normal st'
       /\ length (history st') = 10%nat
       /\ persisted st' = persisted (scans 11 (scannerWith (solid 2 2 white)))
       /\ error st' = Some "The quota has been exceeded.").
Proof.
  split.
  - destruct (C9_history_capped answering (scans 11 (scannerWith (solid 2 2 white)))
                (upload (solid 2 2 white)) pngFile sampleBill
                eq_refl eq_refl eq_refl eq_refl)
      as ((st' & H1 & H2 & _ & (_ & H5 & _) & _) & _).
    exists st'. split; [exact H1|]. split; [reflexivity|].
    split; [rewrite H2; reflexivity | exact H5].
  - destruct (C9_history_capped storageFull (scans 11 (scannerWith (solid 2 2 white)))
                (upload (solid 2 2 white)) pngFile sampleBill
                eq_refl eq_refl eq_refl eq_refl)
      as ((st' & H1 & H2 & _ & (_ & H5 & H6) & _) & _).
    exists st'. split; [exact H1|].
    split; [rewrite H2; reflexivity | split; [exact H5 | exact H6]].
Defined.

(** C10. A scan in OCR mode leaves the history and the persisted
    ['billScannerHistory'] entry as they were, whatever the service answers;
    only a bill scan adds an entry. *)
Theorem C10_ocr_scan_keeps_history (env : ScanEnv) (st : State) :
  scanMode st = ocr ->
  exists st',
    handleScan env st = Normal st'
    /\ history st' = history st
    /\ localStorage st' = localStorage st
    /\ persisted st' = persisted st.
Proof.
  intros Hm. unfold handleScan. rewrite Hm.
  destruct (image st) as [img|];
    [|eexists; split; [reflexivity | repeat split]].
  destruct (imageFile st) as [file|];
    [|eexists; split; [reflexivity | repeat split]].
  destruct (extractTextFromImage env img (file_type file));
    eexists; (split; [reflexivity | repeat split]).
Qed.

Lemma C10_ocr_scan_keeps_history_witness :
  exists st',
    handleScan answering (setScanMode ocr (scans 3 (scannerWith (solid 2 2 white))))
    = Normal st'
    /\ ocrText st' = Some "TOTAL 7.00"
    /\ length (history st') = 3%nat
    /\ history st' = history (scans 3 (scannerWith (solid 2 2 white)))
    /\ persisted st' = persisted (scans 3 (scannerWith (solid 2 2 white))).
Proof.
  destruct (C10_ocr_scan_keeps_history answering
              (setScanMode ocr (scans 3 (scannerWith (solid 2 2 white)))) eq_refl)
    as (st' & H1 & H2 & _ & H4).
  exists st'. split; [exact H1|].
  split; [|split; [rewrite H2; reflexivity | split; [exact H2 | exact H4]]].
  injection H1 as <-. reflexivity.
Defined.

End ScanClaims.

(** * Further facts *)

(** ** The scan history across reloads *)

Section HistoryPersistence.

Import Canvas Types BillScanner Examples.

(** A page load: the component starts afresh on the storage left behind and
    runs its mount effect. *)
Lemma reload_history (storage : gmap string Stored) :
  history (mountEffect (initialState storage))
  = match storage !! historyKey with
    | Some (Json entries) => entries
    | _ => []
    end.
Proof.
  unfold mountEffect; cbn [localStorage initialState].
  destruct (storage !! historyKey) as [[entries | text]|]; try reflexivity.
  destruct (String.eqb text ""); reflexivity.
Qed.

(** X1. After a bill scan that the service answers, the panel shows the new
    list, and what a reload of the page shows depends on the write: when
    [setItem] went through, exactly the history the scan left on screen;
    when it threw, what the storage held before the scan, the new entry
    being lost. *)
Theorem scan_survives_reload (env : ScanEnv) (st : State) (img : DataUrl)
    (file : File) (result : BillData) :
  image st = Some img ->
  imageFile st = Some file ->
  scanMode st = bill ->
  analyzeBill env img (file_type file) = Normal result ->
  exists st',
    handleScan env st = Normal st'
    /\ history st' <> []
    /\ history (mountEffect (initialState (localStorage st')))
       = match setItemError env (localStorage st) historyKey (Json (history st')) with
         | None => history st'
         | Some _ => history (mountEffect (initialState (localStorage st)))
         end.
Proof.
  intros Hi Hf Hm Ha.
  eexists. split; [apply (handleScan_bill env st img file result Hi Hf Hm Ha)|].
  destruct (setItemError env (localStorage st) historyKey _) as [err|] eqn:E;
    cbn [history localStorage scanned]; rewrite E.
  - split; [discriminate | reflexivity].
  - split; [discriminate|]. rewrite reload_history, lookup_insert_eq. reflexivity.
Qed.

Lemma scan_survives_reload_witness :
  (exists st',
     handleScan answering (scans 2 (scannerWith (solid 2 2 white))) = Normal st'
     /\ length (history st') = 3%nat
     /\ history (mountEffect (initialState (localStorage st'))) = history st')
  /\ (exists st',
       handleScan storageFull (scans 2 (scannerWith (solid 2 2 white))) = Normal st'
       /\ length (history st') = 3%nat
       /\ length (history (mountEffect (initialState (localStorage st')))) = 2%nat).
Proof.
  split.
  - destruct (scan_survives_reload answering (scans 2 (scannerWith (solid 2 2 white)))
                (upload (solid 2 2 white)) pngFile sampleBill
                eq_refl eq_refl eq_refl eq_refl)
      as (st' & H1 & _ & H3).
    exists st'. split; [exact H1|]. split; [|exact H3].
    injection H1 as <-. reflexivity.
  - destruct (scan_survives_reload storageFull (scans 2 (scannerWith (solid 2 2 white)))
                (upload (solid 2 2 white)) pngFile sampleBill
                eq_refl eq_refl eq_refl eq_refl)
      as (st' & H1 & _ & H3).
    exists st'. split; [exact H1|]. split; [|rewrite H3; reflexivity].
    injection H1 as <-. reflexivity.
Defined.

(** X2. One step from a state whose history panel agrees with the storage
    (it shows nothing, or exactly what is stored under the key) leads to
    such a state again, with one exception: a bill scan that the service
    answers and whose write the storage refuses.  Then the panel shows the
    new list, the storage is as it was, and the error of the write is
    shown. *)
Theorem history_in_sync (st st' : State) :
  step st st' ->
  history st = [] \/ persisted st = Some (history st) ->
  (history st' = [] \/ persisted st' = Some (history st'))
  \/ (exists env entry err,
        handleScan env st = Normal st'
        /\ history st' = take 10 (entry :: history st)
        /\ setItemError env (localStorage st) historyKey (Json (history st')) = Some err
        /\ localStorage st' = localStorage st
        /\ error st' = Some (scanErrorMessage err)).
Proof.
  intros Hstep IH.
  destruct Hstep; try (left; exact IH).
  - left. unfold mountEffect.
    destruct (localStorage st !! historyKey) as [[entries | text]|] eqn:E.
    + right. unfold persisted; cbn [history localStorage]. now rewrite E.
    + destruct (String.eqb text ""); [exact IH|].
      left. destruct IH as [IH | IH]; [exact IH|].
      unfold persisted in IH. rewrite E in IH. discriminate IH.
    + exact IH.
  - unfold handleScan, setItem in H.
    destruct (image st) as [img|] eqn:Ei;
      [|injection H as <-; left; exact IH].
    destruct (imageFile st) as [file|] eqn:Ef;
      [|injection H as <-; left; exact IH].
    destruct (scanMode st) eqn:Em.
    + destruct (analyzeBill env img (file_type file)) as [result|e] eqn:Ea;
        [|injection H as <-; left; exact IH].
      cbv zeta in H.
      destruct (setItemError env _ _ _) as [err|] eqn:Es; injection H as <-.
      * right. exists env. eexists. exists err.
        split; [unfold handleScan, setItem; rewrite Ei, Ef, Em, Ea; cbv zeta;
                rewrite Es; reflexivity|].
        cbn [history localStorage error scanned].
        split; [reflexivity|]. split; [exact Es|]. split; reflexivity.
      * left. right. apply (persisted_insert _ _ (localStorage st)). reflexivity.
    + destruct (extractTextFromImage env img (file_type file));
        injection H as <-; left; exact IH.
  - left. unfold handleClearHistory. destruct (history st) eqn:E; [now rewrite E | exact IH].
  - left. left. reflexivity.
  - left. unfold handleEditToggle. destruct (isEditing st); exact IH.
  - left. destruct (handleSaveChanges_history br st st' H) as [Hh Hs].
    unfold persisted in *. now rewrite Hh, Hs.
Qed.

Lemma history_in_sync_witness :
  (history (setScanMode ocr (scannerWith (solid 2 2 white))) = []
   \/ persisted (setScanMode ocr (scannerWith (solid 2 2 white)))
      = Some (history (setScanMode ocr (scannerWith (solid 2 2 white)))))
  /\ (exists st',
       handleScan storageFull (scannerWith (solid 2 2 white)) = Normal st'
       /\ length (history st') = 1%nat
       /\ persisted st' = None
       /\ ((history st' = [] \/ persisted st' = Some (history st'))
           \/ (exists env entry err,
                 handleScan env (scannerWith (solid 2 2 white)) = Normal st'
                 /\ history st' = take 10 (entry :: history (scannerWith (solid 2 2 white)))
                 /\ setItemError env (localStorage (scannerWith (solid 2 2 white)))
                      historyKey (Json (history st')) = Some err
                 /\ localStorage st' = localStorage (scannerWith (solid 2 2 white))
                 /\ error st' = Some (scanErrorMessage err)))).
Proof.
  split.
  - destruct (history_in_sync (scannerWith (solid 2 2 white))
                (setScanMode ocr (scannerWith (solid 2 2 white)))
                (step_scanMode ocr _) (or_introl eq_refl)) as [H | H].
    + exact H.
    + left. reflexivity.
  - eexists. split; [reflexivity|]. split; [reflexivity|]. split; [reflexivity|].
    apply (history_in_sync (scannerWith (solid 2 2 white))).
    + apply (step_scan storageFull). reflexivity.
    + left. reflexivity.
Defined.

(** X3. Clearing the history empties the panel and removes the stored entry,
    so that nothing comes back after a reload; on an empty history the
    button does nothing at all. *)
Theorem clear_history_is_final (st : State) :
  history (clearHistoryTimeout (handleClearHistory st)) = []
  /\ localStorage (clearHistoryTimeout (handleClearHistory st)) !! historyKey = None
  /\ history (mountEffect
                (initialState (localStorage (clearHistoryTimeout (handleClearHistory st)))))
     = []
  /\ (forall key, key <> historyKey ->
        localStorage (clearHistoryTimeout (handleClearHistory st)) !! key
        = localStorage st !! key)
  /\ (history st = [] -> handleClearHistory st = st).
Proof.
  assert (localStorage (clearHistoryTimeout (handleClearHistory st))
          = delete historyKey (localStorage st)) as E.
  { unfold handleClearHistory. destruct (history st); reflexivity. }
  split; [reflexivity|]. split; [rewrite E; apply lookup_delete_eq|].
  split; [rewrite reload_history, E, lookup_delete_eq; reflexivity|].
  split.
  - intros key Hk. rewrite E. now apply lookup_delete_ne.
  - intros H. unfold handleClearHistory. now rewrite H.
Qed.

(** X4. A history item that is being viewed cannot be scanned again: the
    handler stops with the upload message before it reaches the service,
    whatever the mode, and the item's data stay on screen. *)
Theorem history_view_is_not_rescanned (env : ScanEnv) (item : ScanHistoryItem) (st : State) :
  handleScan env (handleHistoryClick item st)
  = Normal (setError (handleHistoryClick item st) "Please upload an image first.")
  /\ billData (setError (handleHistoryClick item st) "Please upload an image first.")
     = Some (Types.billData item)
  /\ image (handleHistoryClick item st) = Some (imageDataUrl item)
  /\ history (setError (handleHistoryClick item st) "Please upload an image first.")
     = history st.
Proof. repeat split. Qed.

End HistoryPersistence.

(** ** Applying an edit twice *)

Section ApplyTwice.

Import Canvas.

(** X5. [handleSaveChanges] of the bill scanner always renders from the
    original image: applying the same settings a second time stores the same
    image again, so rotation and brightness never pile up. *)
Theorem BillScanner_apply_is_idempotent (br : Browser) (st : BillScanner.State) :
  exists st',
    BillScanner.handleSaveChanges br st = Normal st'
    /\ BillScanner.handleSaveChanges br st' = Normal st'
    /\ BillScanner.originalImage st' = BillScanner.originalImage st.
Proof.
  unfold BillScanner.handleSaveChanges.
  destruct (BillScanner.originalImage st) as [url|] eqn:Ho;
    [|exists st; rewrite Ho; repeat split].
  destruct (decode url) as [img|] eqn:Hd;
    [|exists st; rewrite Ho, Hd; repeat split].
  destruct (getContext2d br) eqn:Hc; cbn [negb];
    [|exists st; rewrite Ho, Hd; repeat split].
  eexists. split; [reflexivity|].
  cbn [BillScanner.originalImage BillScanner.edit BillScanner.tempRotation
       BillScanner.tempBrightness].
  rewrite Ho, Hd. repeat split.
Qed.

(** X6. The same for the image editor: contrast and saturation are applied
    to the original upload each time, not to the result of the previous
    application. *)
Theorem ImageEditor_apply_is_idempotent (br : Browser) (st : ImageEditor.State) :
  exists st',
    ImageEditor.handleSaveChanges br st = Normal st'
    /\ ImageEditor.handleSaveChanges br st' = Normal st'
    /\ ImageEditor.originalImage st' = ImageEditor.originalImage st.
Proof.
  unfold ImageEditor.handleSaveChanges.
  destruct (ImageEditor.originalImage st) as [url|] eqn:Ho;
    [|exists st; rewrite Ho; repeat split].
  destruct (decode url) as [img|] eqn:Hd;
    [|exists st; rewrite Ho, Hd; repeat split].
  destruct (getContext2d br) eqn:Hc; cbn [negb];
    [|exists st; rewrite Ho, Hd; repeat split].
  eexists. split; [reflexivity|].
  cbn [ImageEditor.originalImage ImageEditor.edit ImageEditor.tempContrast
       ImageEditor.tempSaturation ImageEditor.imageFile].
  rewrite Ho, Hd. repeat split.
Qed.

End ApplyTwice.

(** ** The rotation buttons *)

Section RotationButtons.

Import Numeric Canvas Types BillScanner.

Lemma js_rem_360_bound (a : Z) : (-360 < js_rem a 360 < 360)%Z.
Proof.
  unfold js_rem. pose proof (Z.rem_bound_abs a 360 ltac:(lia)). lia.
Qed.

Lemma reachable_rotation_bound (storage : gmap string Stored) (st : State) :
  reachable storage st ->
  (-360 < rotation st < 360)%Z /\ (-360 < tempRotation st < 360)%Z.
Proof.
  intros Hr. induction Hr as [|st st' _ [Hk Hj] Hstep]; [cbn; lia|].
  destruct Hstep; cbn [rotation tempRotation edit setScanMode handleHistoryClick
                        handleImageChange setClearing clearHistoryTimeout
                        setTempBrightness rotateLeft rotateRight
                        setBillData setActiveField];
    try (split; assumption); try (split; [assumption | apply js_rem_360_bound]).
  - unfold mountEffect.
    destruct (localStorage st !! historyKey) as [[e | t]|];
      [| destruct (String.eqb t "") |]; split; assumption.
  - lia.
  - unfold handleScan, setItem in H.
    destruct (image st) as [img|]; [destruct (imageFile st) as [file|] |];
      [destruct (scanMode st);
       [destruct (analyzeBill env img (file_type file));
        [cbv zeta in H; destruct (setItemError env _ _ _)|]
       | destruct (extractTextFromImage env img (file_type file))] | |];
      injection H as <-; split; assumption.
  - unfold handleClearHistory. destruct (history st); split; assumption.
  - unfold handleEditToggle. destruct (isEditing st); cbn [rotation tempRotation edit];
      split; assumption.
  - unfold handleSaveChanges in H.
    destruct (originalImage st) as [url|];
      [destruct (decode url); [destruct (negb (getContext2d br))|]|];
      injection H as <-; cbn [rotation tempRotation edit]; split; assumption.
Qed.

(** X7. Whatever the user clicks, the pending and the applied rotation are
    one of -270, -180, -90, 0, 90, 180 and 270 degrees. *)
Theorem rotation_values (storage : gmap string Stored) (st : State) :
  reachable storage st ->
  In (tempRotation st) [-270; -180; -90; 0; 90; 180; 270]%Z
  /\ In (rotation st) [-270; -180; -90; 0; 90; 180; 270]%Z.
Proof.
  intros Hr.
  destruct (reachable_rotation storage st Hr) as [[k Hk] [j Hj]].
  destruct (reachable_rotation_bound storage st Hr) as [Bk Bj].
  rewrite Hk in *. rewrite Hj in *.
  assert (j = -3 \/ j = -2 \/ j = -1 \/ j = 0 \/ j = 1 \/ j = 2 \/ j = 3)%Z as Cj by lia.
  assert (k = -3 \/ k = -2 \/ k = -1 \/ k = 0 \/ k = 1 \/ k = 2 \/ k = 3)%Z as Ck by lia.
  split.
  - destruct Cj as [-> | [-> | [-> | [-> | [-> | [-> | ->]]]]]]; cbn; tauto.
  - destruct Ck as [-> | [-> | [-> | [-> | [-> | [-> | ->]]]]]]; cbn; tauto.
Qed.

Lemma rotation_values_witness :
  In (tempRotation (rotateLeft (Examples.scannerWith (Examples.solid 2 2 Examples.white))))
    [-270; -180; -90; 0; 90; 180; 270]%Z.
Proof.
  apply (rotation_values ∅).
  apply (reach_step ∅ (Examples.scannerWith (Examples.solid 2 2 Examples.white)));
    [|apply step_rotateLeft].
  apply (reach_step ∅ (initialState ∅)); [apply reach_init|].
  apply step_imageChange.
Defined.

(** Cosine and sine do not see whole turns. *)
Lemma cos_whole_turns (x : R) (j : Z) : cos (x + 2 * IZR j * PI) = cos x.
Proof.
  destruct (Z_le_gt_dec 0 j) as [Hj | Hj].
  - rewrite <- (Z2Nat.id j) by lia. rewrite <- INR_IZR_INZ. apply cos_period.
  - rewrite <- (cos_period (x + 2 * IZR j * PI) (Z.to_nat (- j))).
    f_equal. rewrite INR_IZR_INZ, Z2Nat.id, opp_IZR by lia. ring.
Qed.

Lemma sin_whole_turns (x : R) (j : Z) : sin (x + 2 * IZR j * PI) = sin x.
Proof.
  destruct (Z_le_gt_dec 0 j) as [Hj | Hj].
  - rewrite <- (Z2Nat.id j) by lia. rewrite <- INR_IZR_INZ. apply sin_period.
  - rewrite <- (sin_period (x + 2 * IZR j * PI) (Z.to_nat (- j))).
    f_equal. rewrite INR_IZR_INZ, Z2Nat.id, opp_IZR by lia. ring.
Qed.

Lemma rad_whole_turns (d j : Z) : rad (d + 360 * j) = (rad d + 2 * IZR j * PI)%R.
Proof. unfold rad. rewrite plus_IZR, mult_IZR. field. Qed.

(** Rotations that differ by whole turns build the same canvas. *)
Lemma renderCanvas_whole_turns (img : Image) (d j : Z) (bri : Q) :
  renderCanvas img (d + 360 * j) bri = renderCanvas img d bri.
Proof.
  unfold renderCanvas, newWidth, newHeight, rotate, rotateMatrix.
  rewrite rad_whole_turns, cos_whole_turns, sin_whole_turns. reflexivity.
Qed.

Lemma js_rem_360_turns (a : Z) : exists j, (js_rem a 360 = a + 360 * j)%Z.
Proof.
  exists (- (a ÷ 360))%Z. unfold js_rem.
  pose proof (Z.quot_rem' a 360). lia.
Qed.

(** X8. The rotation buttons undo each other as far as the picture goes:
    left after right, right after left, and four clicks on the same button
    each lead to a rotation that renders the very canvas the rotation before
    the clicks renders (the number itself may differ by 360). *)
Theorem rotation_buttons_cancel (img : Image) (bri : Q) (st : State) :
  renderCanvas img (tempRotation (rotateLeft (rotateRight st))) bri
  = renderCanvas img (tempRotation st) bri
  /\ renderCanvas img (tempRotation (rotateRight (rotateLeft st))) bri
     = renderCanvas img (tempRotation st) bri
  /\ renderCanvas img
       (tempRotation (rotateRight (rotateRight (rotateRight (rotateRight st))))) bri
     = renderCanvas img (tempRotation st) bri
  /\ tempRotation (rotateLeft (rotateRight
       (edit st (image st) (rotation st) (brightness st) 270 (tempBrightness st)
          (isEditing st))))
     = (-90)%Z.
Proof.
  cbn [tempRotation rotateLeft rotateRight edit].
  split; [|split; [|split; [|reflexivity]]].
  - destruct (js_rem_360_turns (tempRotation st + 90)) as [j1 E1].
    destruct (js_rem_360_turns (js_rem (tempRotation st + 90) 360 - 90)) as [j2 E2].
    rewrite E2, E1.
    replace (tempRotation st + 90 + 360 * j1 - 90 + 360 * j2)%Z
      with (tempRotation st + 360 * (j1 + j2))%Z by lia.
    apply renderCanvas_whole_turns.
  - destruct (js_rem_360_turns (tempRotation st - 90)) as [j1 E1].
    destruct (js_rem_360_turns (js_rem (tempRotation st - 90) 360 + 90)) as [j2 E2].
    rewrite E2, E1.
    replace (tempRotation st - 90 + 360 * j1 + 90 + 360 * j2)%Z
      with (tempRotation st + 360 * (j1 + j2))%Z by lia.
    apply renderCanvas_whole_turns.
  - destruct (js_rem_360_turns (tempRotation st + 90)) as [j1 E1].
    destruct (js_rem_360_turns (js_rem (tempRotation st + 90) 360 + 90)) as [j2 E2].
    destruct (js_rem_360_turns
                (js_rem (js_rem (tempRotation st + 90) 360 + 90) 360 + 90)) as [j3 E3].
    destruct (js_rem_360_turns
                (js_rem (js_rem (js_rem (tempRotation st + 90) 360 + 90) 360 + 90) 360
                 + 90)) as [j4 E4].
    rewrite E4, E3, E2, E1.
    replace (tempRotation st + 90 + 360 * j1 + 90 + 360 * j2 + 90 + 360 * j3 + 90
             + 360 * j4)%Z
      with (tempRotation st + 360 * (1 + j1 + j2 + j3 + j4))%Z by lia.
    apply renderCanvas_whole_turns.
Qed.

End RotationButtons.

(** ** Where a rotation puts the pixels *)

Section RotatedPixels.

Import Numeric Canvas.

Variable img : Image.
Hypothesis Hvalid : validImage img.

Lemma rad_90 : BillScanner.rad 90 = (PI / 2)%R.
Proof. unfold BillScanner.rad. field. Qed.

Lemma rad_180 : BillScanner.rad 180 = PI.
Proof. unfold BillScanner.rad. field. Qed.

(** X9. A rotation by 90 degrees is a clockwise quarter turn that loses
    nothing: the canvas is h wide and w high, and the pixel at (x, y) of the
    image lands, through the brightness filter, at (h - 1 - y, x). *)
Theorem quarter_turn_pixels (bri : Q) (x y : Z) :
  inside (width img) (height img) x y = true ->
  cv_width (BillScanner.renderCanvas img 90 bri) = height img
  /\ cv_height (BillScanner.renderCanvas img 90 bri) = width img
  /\ cv_bitmap (BillScanner.renderCanvas img 90 bri) (height img - 1 - y) x
     = brightnessPixel bri (pixel img x y).
Proof using Hvalid.
  intros Hin. destruct Hvalid as (Hw & Hh & _).
  destruct (renderCanvas_size_quarters img Hw Hh 1 bri) as [Ew Eh].
  change (90 * 1)%Z with 90%Z in Ew, Eh. cbn [Z.even] in Ew, Eh.
  split; [exact Ew|]. split; [exact Eh|].
  rewrite renderCanvas_width in Ew. rewrite renderCanvas_height in Eh.
  apply inside_spec in Hin.
  unfold BillScanner.renderCanvas. cbv zeta.
  set (cv := rotate _ _).
  assert (cv_width cv = height img) as Hcw by exact Ew.
  assert (cv_height cv = width img) as Hch by exact Eh.
  assert (cv_filter cv = [brightness bri]) as Hf by reflexivity.
  assert (cv_ctm cv = {| ma := 0; mb := 1; mc := -1; md := 0;
                         me := IZR (height img) / 2; mf := IZR (width img) / 2 |}) as Hm.
  { subst cv. unfold rotate, translate, setCtm, setFilter, setHeight, setWidth.
    cbn [cv_ctm cv_width cv_height blank createCanvas].
    rewrite Ew, Eh, rad_90.
    unfold rotateMatrix, translateMatrix, identity. cbn [ma mb mc md me mf].
    rewrite cos_PI2, sin_PI2. f_equal; lra. }
  rewrite drawImage_bitmap, Hm, Hcw, Hch, Hf.
  unfold unapply; cbn [ma mb mc md me mf]. rewrite !minus_IZR.
  replace ((0 * (IZR (height img) - 1 - IZR y + 1 / 2 - IZR (height img) / 2)
            - -1 * (IZR x + 1 / 2 - IZR (width img) / 2)) / (0 * 0 - 1 * -1)
           - - IZR (width img) / 2)%R
    with (IZR x + 1 / 2)%R by (field; lra).
  replace ((0 * (IZR x + 1 / 2 - IZR (width img) / 2)
            - 1 * (IZR (height img) - 1 - IZR y + 1 / 2 - IZR (height img) / 2))
           / (0 * 0 - 1 * -1) - - IZR (height img) / 2)%R
    with (IZR y + 1 / 2)%R by (field; lra).
  rewrite !Int_part_centre. cbv zeta.
  assert (inside (height img) (width img) (height img - 1 - y) x = true) as ->
    by (apply inside_spec; lia).
  assert (inside (width img) (height img) x y = true) as ->
    by (apply inside_spec; lia).
  reflexivity.
Qed.

(** X10. A rotation by 180 degrees keeps the size and sends the pixel at
    (x, y) to (w - 1 - x, h - 1 - y). *)
Theorem half_turn_pixels (bri : Q) (x y : Z) :
  inside (width img) (height img) x y = true ->
  cv_width (BillScanner.renderCanvas img 180 bri) = width img
  /\ cv_height (BillScanner.renderCanvas img 180 bri) = height img
  /\ cv_bitmap (BillScanner.renderCanvas img 180 bri)
       (width img - 1 - x) (height img - 1 - y)
     = brightnessPixel bri (pixel img x y).
Proof using Hvalid.
  intros Hin. destruct Hvalid as (Hw & Hh & _).
  destruct (renderCanvas_size_quarters img Hw Hh 2 bri) as [Ew Eh].
  change (90 * 2)%Z with 180%Z in Ew, Eh. cbn [Z.even] in Ew, Eh.
  split; [exact Ew|]. split; [exact Eh|].
  rewrite renderCanvas_width in Ew. rewrite renderCanvas_height in Eh.
  apply inside_spec in Hin.
  unfold BillScanner.renderCanvas. cbv zeta.
  set (cv := rotate _ _).
  assert (cv_width cv = width img) as Hcw by exact Ew.
  assert (cv_height cv = height img) as Hch by exact Eh.
  assert (cv_filter cv = [brightness bri]) as Hf by reflexivity.
  assert (cv_ctm cv = {| ma := -1; mb := 0; mc := 0; md := -1;
                         me := IZR (width img) / 2; mf := IZR (height img) / 2 |}) as Hm.
  { subst cv. unfold rotate, translate, setCtm, setFilter, setHeight, setWidth.
    cbn [cv_ctm cv_width cv_height blank createCanvas].
    rewrite Ew, Eh, rad_180.
    unfold rotateMatrix, translateMatrix, identity. cbn [ma mb mc md me mf].
    rewrite cos_PI, sin_PI. f_equal; lra. }
  rewrite drawImage_bitmap, Hm, Hcw, Hch, Hf.
  unfold unapply; cbn [ma mb mc md me mf]. rewrite !minus_IZR.
  replace ((-1 * (IZR (width img) - 1 - IZR x + 1 / 2 - IZR (width img) / 2)
            - 0 * (IZR (height img) - 1 - IZR y + 1 / 2 - IZR (height img) / 2))
           / (-1 * -1 - 0 * 0) - - IZR (width img) / 2)%R
    with (IZR x + 1 / 2)%R by (field; lra).
  replace ((-1 * (IZR (height img) - 1 - IZR y + 1 / 2 - IZR (height img) / 2)
            - 0 * (IZR (width img) - 1 - IZR x + 1 / 2 - IZR (width img) / 2))
           / (-1 * -1 - 0 * 0) - - IZR (height img) / 2)%R
    with (IZR y + 1 / 2)%R by (field; lra).
  rewrite !Int_part_centre. cbv zeta.
  assert (inside (width img) (height img) (width img - 1 - x) (height img - 1 - y) = true)
    as -> by (apply inside_spec; lia).
  assert (inside (width img) (height img) x y = true) as ->
    by (apply inside_spec; lia).
  reflexivity.
Qed.

End RotatedPixels.

Lemma quarter_turn_pixels_witness :
  Canvas.cv_width (BillScanner.renderCanvas (Examples.solid 100 200 Examples.white) 90 1)
  = 200%Z
  /\ Canvas.cv_height (BillScanner.renderCanvas (Examples.solid 100 200 Examples.white) 90 1)
     = 100%Z
  /\ Canvas.pixelEq
       (Canvas.cv_bitmap
          (BillScanner.renderCanvas (Examples.solid 100 200 Examples.white) 90 1) 192 3)
       Examples.white.
Proof.
  assert (Canvas.pixelOk Examples.white) as Hp by (repeat split; discriminate).
  destruct (quarter_turn_pixels (Examples.solid 100 200 Examples.white)
              (validImage_solid 100 200 Examples.white ltac:(lia) ltac:(lia) Hp)
              1 3 7 eq_refl) as (Hw & Hh & Hpx).
  split; [exact Hw|]. split; [exact Hh|].
  assert (Canvas.cv_bitmap
            (BillScanner.renderCanvas (Examples.solid 100 200 Examples.white) 90 1) 192 3
          = Canvas.brightnessPixel 1 Examples.white) as -> by exact Hpx.
  apply brightnessPixel_one. exact Hp.
Defined.

Lemma half_turn_pixels_witness :
  Canvas.cv_bitmap
    (BillScanner.renderCanvas (Examples.solid 100 200 Examples.pureRed) 180 1) 96 192
  = Canvas.brightnessPixel 1 Examples.pureRed.
Proof.
  assert (Canvas.pixelOk Examples.pureRed) as Hp by (repeat split; discriminate).
  destruct (half_turn_pixels (Examples.solid 100 200 Examples.pureRed)
              (validImage_solid 100 200 Examples.pureRed ltac:(lia) ltac:(lia) Hp)
              1 3 7 eq_refl) as (_ & _ & Hpx).
  exact Hpx.
Defined.

(** ** The chat *)

Section ChatFacts.

Import GeminiService JsText Chatbot.

(** [slice(0, -1)] drops the last element, and nothing from an empty
    array. *)
Lemma slice_drop_last {A : Type} (l : list A) (x : A) : slice (l ++ [x]) 0 (-1) = l.
Proof.
  unfold slice. rewrite length_app; cbn [length]. cbv zeta beta.
  change (0 <? 0)%Z with false. change (-1 <? 0)%Z with true. cbv iota.
  replace (Z.min 0 (Z.of_nat (length l + 1))) with 0%Z by lia.
  replace (Z.max (Z.of_nat (length l + 1) + -1) 0) with (Z.of_nat (length l)) by lia.
  rewrite Z.sub_0_r, Nat2Z.id. cbn [Z.to_nat drop]. apply take_app_length.
Qed.

Lemma slice_nil {A : Type} (a b : Z) : slice (@nil A) a b = [].
Proof. unfold slice. now rewrite drop_nil, take_nil. Qed.

Lemma exchanges_snoc (l : list ChatMessage) (q a : ChatMessage) :
  role q = user -> role a = model ->
  exchanges l = true -> exchanges (l ++ [q; a]) = true.
Proof.
  intros Hq Ha. revert l.
  assert (forall n (l : list ChatMessage), (length l <= n)%nat ->
            exchanges l = true -> exchanges (l ++ [q; a]) = true) as H.
  { induction n as [|n IH]; intros l Hn Hl.
    - destruct l; [|cbn in Hn; lia]. cbn. now rewrite Hq, Ha.
    - destruct l as [|x [|y rest]]; [cbn; now rewrite Hq, Ha | discriminate Hl |].
      cbn in Hl |- *. destruct (role x); [|discriminate Hl].
      destruct (role y); [discriminate Hl|].
      apply IH; [cbn in Hn; lia | exact Hl]. }
  intros l. apply (H (length l)). lia.
Qed.

Lemma exchanges_even (l : list ChatMessage) :
  exchanges l = true -> Nat.even (length l) = true.
Proof.
  assert (forall n (l : list ChatMessage), (length l <= n)%nat ->
            exchanges l = true -> Nat.even (length l) = true) as H.
  { induction n as [|n IH]; intros k Hn Hl.
    - destruct k; [reflexivity | cbn in Hn; lia].
    - destruct k as [|x [|y rest]]; [reflexivity | discriminate Hl |].
      cbn in Hl. destruct (role x); [|discriminate Hl].
      destruct (role y); [discriminate Hl|].
      cbn [length Nat.even]. apply IH; [cbn in Hn; lia | exact Hl]. }
  apply (H (length l)). lia.
Qed.

Lemma continueChat_snoc (sdk : Sdk) (prior : list ChatMessage)
    (lastMessage : ChatMessage) (m : ChatMode) :
  continueChat sdk (prior ++ [lastMessage]) m
  = match sendMessage sdk (requestFor prior (text lastMessage) m) with
    | Normal answer => Normal answer
    | Throw _ => Throw (mkError callFailed)
    end.
Proof.
  unfold continueChat. rewrite last_snoc, slice_drop_last.
  destruct m; reflexivity.
Qed.

(** X11. [continueChat] hands the SDK the whole conversation exactly once:
    everything but the last message as the history, the text of the last
    message as the message, with the model and thinking budget of the mode.
    An empty conversation fails with the generic message without reaching
    the SDK, and the generic message is the only error it ever raises. *)
Theorem continueChat_request (sdk : Sdk) (prior : list ChatMessage)
    (lastMessage : ChatMessage) (m : ChatMode) :
  continueChat sdk (prior ++ [lastMessage]) m
  = match sendMessage sdk (requestFor prior (text lastMessage) m) with
    | Normal answer => Normal answer
    | Throw _ => Throw (mkError callFailed)
    end
  /\ chat_history (requestFor prior (text lastMessage) m) ++ [lastMessage]
     = prior ++ [lastMessage]
  /\ continueChat sdk [] m = Throw (mkError callFailed)
  /\ (forall history e, continueChat sdk history m = Throw e -> e = mkError callFailed).
Proof.
  split; [apply continueChat_snoc|].
  split; [reflexivity|]. split; [reflexivity|].
  intros history e. unfold continueChat.
  destruct (last history); [destruct (sendMessage sdk _)|]; intros [= <-]; reflexivity.
Qed.

(** What [handleSend] does with an input that is not blank. *)
Lemma handleSend_sends (sdk : Sdk) (st : State) :
  JsString.trim (input st) <> [] ->
  handleSend sdk st
  = match sendMessage sdk (requestFor (messages st) (input st) (mode st)) with
    | Normal answer =>
        Normal {| messages := messages st ++ [{| role := user; text := input st |};
                                              {| role := model; text := answer |}];
                  input := []; isLoading := false; error := None; mode := mode st |}
    | Throw _ =>
        Normal {| messages := messages st; input := []; isLoading := false;
                  error := Some "Failed to get response. Please try again.";
                  mode := mode st |}
    end.
Proof.
  intros Hi. unfold handleSend.
  destruct (JsString.trim (input st)) as [|c rest]; [now destruct Hi|].
  cbn [JsString.truthy negb].
  rewrite (continueChat_snoc sdk (messages st) {| role := user; text := input st |}
             (mode st)).
  cbn [text]. destruct (sendMessage sdk _) as [answer | e].
  - rewrite <- app_assoc. reflexivity.
  - now rewrite slice_drop_last.
Qed.

(** X12. A send that the service answers appends the question and the answer
    to the transcript, in this order, and clears the input and the error;
    the service saw the transcript as it was and the input as typed. *)
Theorem send_appends_exchange (sdk : Sdk) (st : State) (answer : JsString.t) :
  JsString.trim (input st) <> [] ->
  sendMessage sdk (requestFor (messages st) (input st) (mode st)) = Normal answer ->
  exists st',
    handleSend sdk st = Normal st'
    /\ messages st' = messages st ++ [{| role := user; text := input st |};
                                      {| role := model; text := answer |}]
    /\ input st' = [] /\ error st' = None /\ isLoading st' = false.
Proof.
  intros Hi Hs. rewrite (handleSend_sends sdk st Hi), Hs.
  eexists. split; [reflexivity|]. repeat split.
Qed.

(** X13. A send that fails leaves the transcript exactly as it was before
    the send (the question that was shown meanwhile is taken back), reports
    the failure, and still clears the input: the typed text is lost. *)
Theorem failed_send_rolls_back (sdk : Sdk) (st : State) (e : JsError) :
  JsString.trim (input st) <> [] ->
  sendMessage sdk (requestFor (messages st) (input st) (mode st)) = Throw e ->
  exists st',
    handleSend sdk st = Normal st'
    /\ messages st' = messages st
    /\ input st' = []
    /\ error st' = Some "Failed to get response. Please try again."
    /\ isLoading st' = false.
Proof.
  intros Hi Hs. rewrite (handleSend_sends sdk st Hi), Hs.
  eexists. split; [reflexivity|]. repeat split.
Qed.

(** The two halves of a send, run back to back with the mode left alone,
    are [handleSend]. *)
Lemma handleSend_halves (sdk : Sdk) (st : State) :
  JsString.truthy (JsString.trim (input st)) = true ->
  handleSend sdk st
  = Normal (sendEnd (continueChat sdk (messages (sendStart st)) (mode st)) (sendStart st)).
Proof.
  intros Hi. unfold handleSend. rewrite Hi. cbn [negb]. cbv zeta.
  cbn [sendStart messages]. destruct (continueChat sdk _ _); reflexivity.
Qed.

(** X14. In every state the chat reaches, renders during a pending request
    included: while no request is pending the transcript consists of whole
    exchanges (it has even length and alternates user and model, starting
    with the user); while one is pending it is whole exchanges followed by
    the one question that is awaiting its answer, so its length is odd, and
    the input is empty. *)
Theorem transcript_alternates (st : State) :
  reachable st ->
  if isLoading st
  then exists l q, messages st = l ++ [q] /\ role q = user /\ exchanges l = true
                   /\ Nat.odd (length (messages st)) = true /\ input st = []
  else exchanges (messages st) = true /\ Nat.even (length (messages st)) = true.
Proof.
  intros Hr.
  assert (if isLoading st
          then exists l q, messages st = l ++ [q] /\ role q = user
                           /\ exchanges l = true /\ input st = []
          else exchanges (messages st) = true) as H.
  { induction Hr as [|st st' _ IH Hstep]; [reflexivity|].
    destruct Hstep as [v st Hl | m st | st Hl Hi | sdk m st Hl].
    - cbn [setInput isLoading messages]. rewrite Hl in IH |- *. exact IH.
    - exact IH.
    - rewrite Hl in IH. cbn [sendStart isLoading messages input].
      exists (messages st), {| role := user; text := input st |}. now repeat split.
    - rewrite Hl in IH. destruct IH as (l & q & Hm & Hq & He & _).
      destruct (continueChat sdk (messages st) m) as [answer | e];
        cbn [sendEnd isLoading messages]; rewrite Hm.
      + rewrite <- app_assoc. now apply exchanges_snoc.
      + now rewrite slice_drop_last. }
  destruct (isLoading st).
  - destruct H as (l & q & Hm & Hq & He & Hi).
    exists l, q. repeat split; try assumption.
    rewrite Hm, length_app, Nat.add_comm. cbn [length Nat.add].
    rewrite Nat.odd_succ. now apply exchanges_even.
  - split; [exact H | now apply exchanges_even].
Qed.

(** X15. An input that is empty or white space only sends nothing: the state
    is returned as it is, whatever the service would do. *)
Theorem blank_input_sends_nothing (sdk : Sdk) (st : State) :
  JsString.blank (input st) = true -> handleSend sdk st = Normal st.
Proof.
  intros Hb. unfold handleSend. now rewrite (trim_blank _ Hb).
Qed.

Lemma send_appends_exchange_witness :
  exists st',
    handleSend ServiceExamples.up ServiceExamples.chatting = Normal st'
    /\ length (messages st') = 4%nat /\ input st' = [].
Proof.
  destruct (send_appends_exchange ServiceExamples.up ServiceExamples.chatting
              ServiceExamples.hi ltac:(discriminate) eq_refl)
    as (st' & H1 & H2 & H3 & _).
  exists st'. split; [exact H1|]. split; [rewrite H2; reflexivity | exact H3].
Defined.

Lemma failed_send_rolls_back_witness :
  exists st',
    handleSend ServiceExamples.blocked ServiceExamples.chatting = Normal st'
    /\ messages st' = messages ServiceExamples.chatting
    /\ input st' = [].
Proof.
  destruct (failed_send_rolls_back ServiceExamples.blocked ServiceExamples.chatting
              (mkError "Request blocked: SAFETY") ltac:(discriminate) eq_refl)
    as (st' & H1 & H2 & H3 & _).
  exists st'. split; [exact H1|]. split; [exact H2 | exact H3].
Defined.

Lemma transcript_alternates_witness :
  (exists l q,
     messages (sendStart (setInput ServiceExamples.hello initialState)) = l ++ [q]
     /\ role q = user /\ exchanges l = true)
  /\ exchanges (messages (sendEnd (Normal ServiceExamples.hi)
                            (sendStart (setInput ServiceExamples.hello initialState))))
     = true
  /\ handleSend ServiceExamples.up (setInput ServiceExamples.hello initialState)
     = Normal (sendEnd (Normal ServiceExamples.hi)
                 (sendStart (setInput ServiceExamples.hello initialState))).
Proof.
  assert (reachable (sendStart (setInput ServiceExamples.hello initialState))) as Hp.
  { apply (reach_step (setInput ServiceExamples.hello initialState));
      [|apply step_send; reflexivity].
    apply (reach_step initialState); [apply reach_init | now apply step_input]. }
  split; [|split; [|reflexivity]].
  - destruct (transcript_alternates _ Hp) as (l & q & H1 & H2 & H3 & _).
    exists l, q. now repeat split.
  - apply (transcript_alternates
             (sendEnd (Normal ServiceExamples.hi)
                (sendStart (setInput ServiceExamples.hello initialState)))).
    apply (reach_step _ _ Hp).
    exact (step_answer ServiceExamples.up fast
             (sendStart (setInput ServiceExamples.hello initialState)) eq_refl).
Defined.

Lemma blank_input_sends_nothing_witness :
  handleSend ServiceExamples.blocked (setInput (JsString.of_string "  ") initialState)
  = Normal (setInput (JsString.of_string "  ") initialState).
Proof.
  apply (blank_input_sends_nothing ServiceExamples.blocked
           (setInput (JsString.of_string "  ") initialState)).
  reflexivity.
Defined.

End ChatFacts.

(** ** The service module *)

Section ServiceFacts.

Import Canvas Types GeminiService JsText.

(** X16. Whatever goes wrong in [generateImage] or [editImage], the caller
    sees the one message "Gemini API call failed.": this includes an answer
    without any image, whose own message never leaves the function. When
    there is an image, [generateImage] returns the first one and [editImage]
    the first inline part of the first candidate. *)
Theorem image_calls_fail_generically (sdk : Sdk) :
  (forall prompt ratio e,
      generateImage sdk prompt ratio = Throw e -> e = mkError callFailed)
  /\ (forall data mime prompt e,
        editImage sdk data mime prompt = Throw e -> e = mkError callFailed)
  /\ (forall prompt ratio response,
        generateImages sdk
          {| img_model := "imagen-4.0-generate-001"; img_prompt := prompt;
             img_numberOfImages := 1; img_outputMimeType := "image/jpeg";
             img_aspectRatio := ratio |} = Normal response ->
        match generatedImages response with
        | Some (Some bytes :: _) => generateImage sdk prompt ratio = Normal bytes
        | _ => generateImage sdk prompt ratio = Throw (mkError callFailed)
        end)
  /\ (forall data mime prompt response,
        generateContent sdk
          {| req_model := "gemini-2.5-flash-image"; req_data := data;
             req_mimeType := mime; req_text := prompt;
             req_json := false; req_image := true |} = Normal response ->
        match resp_candidates response with
        | parts :: _ =>
            match firstInline parts with
            | Some bytes => editImage sdk data mime prompt = Normal bytes
            | None => editImage sdk data mime prompt = Throw (mkError callFailed)
            end
        | [] => editImage sdk data mime prompt = Throw (mkError callFailed)
        end).
Proof.
  split; [|split; [|split]].
  - intros prompt ratio e. unfold generateImage.
    destruct (generateImages sdk _) as [response | e'];
      [destruct (generatedImages response) as [[|[bytes|] rest]|]|];
      intros [= <-]; reflexivity.
  - intros data mime prompt e. unfold editImage.
    destruct (generateContent sdk _) as [response | e'];
      [destruct (resp_candidates response) as [|parts rest];
       [|destruct (firstInline parts)]|];
      intros [= <-]; reflexivity.
  - intros prompt ratio response H. unfold generateImage. rewrite H.
    destruct (generatedImages response) as [[|[bytes|] rest]|]; reflexivity.
  - intros data mime prompt response H. unfold editImage. rewrite H.
    destruct (resp_candidates response) as [|parts rest]; [reflexivity|].
    destruct (firstInline parts); reflexivity.
Qed.

(** The request of [analyzeBill]. *)
Lemma analyzeBill_cases (sdk : Sdk) (data : DataUrl) (mime : string) :
  analyzeBill sdk data mime
  = match generateContent sdk
            {| req_model := "gemini-2.5-flash"; req_data := data;
               req_mimeType := mime; req_text := billPrompt;
               req_json := true; req_image := false |} with
    | Normal response =>
        match parseBill sdk (jsonPayload (resp_text response)) with
        | Some bill => Normal bill
        | None => Throw (mkError unreadable)
        end
    | Throw e =>
        if isSyntaxError e then Throw (mkError unreadable)
        else if includes "SAFETY" (err_message e) then Throw (mkError blockedBill)
        else Throw (mkError failedBill)
    end.
Proof.
  unfold analyzeBill. destruct (generateContent sdk _) as [response | e]; [|reflexivity].
  destruct (parseBill sdk _); reflexivity.
Qed.

(** X17. [analyzeBill] fails in three ways only. An answer that does not
    parse is reported as unreadable; an error of the service is reported as
    a safety block when its message contains SAFETY (unless it is itself a
    syntax error, which wins), and as a service failure otherwise. *)
Theorem analyzeBill_failures (sdk : Sdk) (data : DataUrl) (mime : string) :
  let request := {| req_model := "gemini-2.5-flash"; req_data := data;
                    req_mimeType := mime; req_text := billPrompt;
                    req_json := true; req_image := false |} in
  (forall e, analyzeBill sdk data mime = Throw e ->
             e = mkError unreadable \/ e = mkError blockedBill \/ e = mkError failedBill)
  /\ (forall response,
        generateContent sdk request = Normal response ->
        parseBill sdk (jsonPayload (resp_text response)) = None ->
        analyzeBill sdk data mime = Throw (mkError unreadable))
  /\ (forall e,
        generateContent sdk request = Throw e ->
        analyzeBill sdk data mime
        = Throw (mkError (if isSyntaxError e then unreadable
                          else if includes "SAFETY" (err_message e) then blockedBill
                          else failedBill)))
  /\ (forall response bill,
        generateContent sdk request = Normal response ->
        parseBill sdk (jsonPayload (resp_text response)) = Some bill ->
        analyzeBill sdk data mime = Normal bill).
Proof.
  cbv zeta. rewrite analyzeBill_cases.
  split; [|split; [|split]].
  - intros e. destruct (generateContent sdk _) as [response | e'].
    + destruct (parseBill sdk _); intros [= <-]. auto.
    + destruct (isSyntaxError e'); [intros [= <-]; auto|].
      destruct (includes "SAFETY" (err_message e')); intros [= <-]; auto.
  - intros response -> ->. reflexivity.
  - intros e ->. destruct (isSyntaxError e); [reflexivity|].
    destruct (includes "SAFETY" (err_message e)); reflexivity.
  - intros response bill -> ->. reflexivity.
Qed.

Lemma fence_units : fence = [96; 96; 96; 106; 115; 111; 110]%N.
Proof. reflexivity. Qed.

Lemma trimStart_keeps (c : N) (s : JsString.t) :
  JsString.isWhiteSpace c = false -> JsString.trimStart (c :: s) = c :: s.
Proof. intros H. cbn [JsString.trimStart]. now rewrite H. Qed.

(** X18. An answer wrapped in a Markdown fence is parsed as its body: the
    seven characters of the opening fence and the last three characters,
    whatever they are, are cut off and the rest is trimmed. *)
Theorem fenced_answer_payload (body : JsString.t) (c1 c2 c3 : N) :
  JsString.isWhiteSpace c3 = false ->
  jsonPayload (fence ++ body ++ [c1; c2; c3]) = JsString.trim body.
Proof.
  intros Hc. unfold jsonPayload. cbv zeta.
  assert (JsString.trim (fence ++ body ++ [c1; c2; c3]) = fence ++ body ++ [c1; c2; c3]) as ->.
  { unfold JsString.trim. rewrite fence_units.
    cbn [app]. rewrite trimStart_keeps by reflexivity.
    unfold JsString.trimEnd.
    change (96 :: 96 :: 96 :: 106 :: 115 :: 111 :: 110 :: body ++ [c1; c2; c3])%N
      with (([96; 96; 96; 106; 115; 111; 110]%N ++ body) ++ [c1; c2] ++ [c3]).
    rewrite app_assoc, rev_unit, trimStart_keeps by exact Hc.
    rewrite <- rev_unit, rev_involutive. reflexivity. }
  assert (startsWith fence (fence ++ body ++ [c1; c2; c3]) = true) as ->
    by (rewrite fence_units; reflexivity).
  f_equal. unfold substring. cbv zeta.
  rewrite !length_app. rewrite fence_units. cbn [length].
  set (n := length body).
  replace (Z.min (Z.max 7 0) (Z.of_nat (7 + (n + 3)))) with 7%Z by lia.
  replace (Z.min (Z.max (Z.of_nat (7 + (n + 3)) - 3) 0) (Z.of_nat (7 + (n + 3))))
    with (7 + Z.of_nat n)%Z by lia.
  replace (Z.max 7 (7 + Z.of_nat n) - Z.min 7 (7 + Z.of_nat n))%Z with (Z.of_nat n) by lia.
  replace (Z.min 7 (7 + Z.of_nat n)) with 7%Z by lia.
  rewrite Nat2Z.id. change (Z.to_nat 7) with 7%nat. cbn [app drop].
  subst n. apply take_app_length.
Qed.

Lemma fenced_answer_payload_witness :
  jsonPayload (JsString.of_string "```json {} ```") = JsString.of_string "{}".
Proof.
  exact (fenced_answer_payload (JsString.of_string " {} ") 96 96 96 eq_refl).
Defined.

End ServiceFacts.

(** ** The components on top of the service *)

Section ComponentsAndService.

Import Canvas Types GeminiService.



(** X20. The bill scanner labels what it sends with the type of the uploaded
    file, not with the type of the data: once an edit has been applied, the
    JPEG produced by the editor is sent to the service under the type of the
    upload, image/png for a PNG upload.  The scan then goes on as any other:
    the answer is shown and put in front of the history, which is written
    to the storage (or the error of the write is shown); a failure of the
    service is shown. *)
Theorem edited_scan_keeps_upload_type (br : Browser) (env : BillScanner.ScanEnv)
    (st : BillScanner.State) (url : DataUrl) (img : Image) (file : File) :
  getContext2d br = true ->
  BillScanner.originalImage st = Some url ->
  decode url = Some img ->
  BillScanner.imageFile st = Some file ->
  BillScanner.scanMode st = BillScanner.bill ->
  exists st1 out,
    BillScanner.handleSaveChanges br st = Normal st1
    /\ BillScanner.image st1 = Some (Encoded "image/jpeg" out)
    /\ BillScanner.handleScan env st1
       = match BillScanner.analyzeBill env (Encoded "image/jpeg" out) (file_type file) with
         | Normal result =>
             let entry := {| id := BillScanner.isoNow env;
                             imageDataUrl := Encoded "image/jpeg" out;
                             Types.billData := result;
                             timestamp := BillScanner.dateNow env |} in
             let updated := take 10 (entry :: BillScanner.history st) in
             match BillScanner.setItemError env (BillScanner.localStorage st)
                     BillScanner.historyKey (BillScanner.Json updated) with
             | None =>
                 Normal (BillScanner.scanned st1 (Some result) None None updated
                           (<[BillScanner.historyKey := BillScanner.Json updated]>
                              (BillScanner.localStorage st)))
             | Some err =>
                 Normal (BillScanner.scanned st1 (Some result) None
                           (Some (BillScanner.scanErrorMessage err)) updated
                           (BillScanner.localStorage st))
             end
         | Throw err =>
             Normal (BillScanner.scanned st1 None None
                       (Some (BillScanner.scanErrorMessage err))
                       (BillScanner.history st) (BillScanner.localStorage st))
         end.
Proof.
  intros Hc Ho Hd Hf Hm.
  eexists; eexists.
  split; [apply (BillScanner_save_loaded br st url img Ho Hd Hc)|].
  cbn [BillScanner.image BillScanner.edit]. rewrite toDataURL_jpeg.
  split; [reflexivity|].
  unfold BillScanner.handleScan, BillScanner.setItem.
  cbn [BillScanner.image BillScanner.imageFile BillScanner.scanMode BillScanner.edit
       BillScanner.history BillScanner.localStorage].
  rewrite Hf, Hm.
  destruct (BillScanner.analyzeBill env _ _); [|reflexivity].
  cbv zeta. destruct (BillScanner.setItemError env _ _ _); reflexivity.
Qed.

Lemma edited_scan_keeps_upload_type_witness :
  exists st1 st2 out,
    BillScanner.handleSaveChanges idealBrowser
      (Examples.scannerWith (Examples.solid 2 2 Examples.white)) = Normal st1
    /\ BillScanner.image st1 = Some (Encoded "image/jpeg" out)
    /\ BillScanner.handleScan
         {| BillScanner.analyzeBill := fun data mime =>
              match data with
              | Encoded "image/jpeg" _ =>
                  if String.eqb mime "image/png" then Normal Examples.sampleBill
                  else Throw (mkError failedBill)
              | _ => Throw (mkError failedBill)
              end;
            BillScanner.extractTextFromImage := fun _ _ => Normal "";
            BillScanner.isoNow := ""; BillScanner.dateNow := 0;
                 BillScanner.setItemError := fun _ _ _ => None |} st1 = Normal st2
    /\ BillScanner.billData st2 = Some Examples.sampleBill.
Proof.
  destruct (edited_scan_keeps_upload_type idealBrowser
              {| BillScanner.analyzeBill := fun data mime =>
                   match data with
                   | Encoded "image/jpeg" _ =>
                       if String.eqb mime "image/png" then Normal Examples.sampleBill
                       else Throw (mkError failedBill)
                   | _ => Throw (mkError failedBill)
                   end;
                 BillScanner.extractTextFromImage := fun _ _ => Normal "";
                 BillScanner.isoNow := ""; BillScanner.dateNow := 0;
                 BillScanner.setItemError := fun _ _ _ => None |}
              (Examples.scannerWith (Examples.solid 2 2 Examples.white))
              (Examples.upload (Examples.solid 2 2 Examples.white))
              (Examples.solid 2 2 Examples.white) Examples.pngFile
              eq_refl eq_refl eq_refl eq_refl eq_refl)
    as (st1 & out & H1 & H2 & H3).
  exists st1. eexists. exists out.
  split; [exact H1|]. split; [exact H2|]. split; [exact H3 | reflexivity].
Defined.



(** X22. A successful generation resets the overlay text before the image
    arrives: whatever text was left from the previous image, the first
    render of the new one carries no text and has the pixels the service
    returned. *)
Theorem new_image_starts_without_text (br : Browser) (sdk : Sdk)
    (st : ImageGenerator.State) (img : Image) :
  getContext2d br = true ->
  validImage img ->
  ImageGenerator.prompt st <> "" ->
  generateImage sdk (ImageGenerator.prompt st)
    (ImageGeneratorService.ratioText (ImageGenerator.aspectRatio st))
  = Normal (bytes_of img) ->
  exists st1 st2 out,
    ImageGeneratorService.handleGenerate sdk st = Normal st1
    /\ ImageGenerator.overlayText st1 = []
    /\ ImageGenerator.error st1 = None
    /\ ImageGenerator.overlayEffect br st1 = Normal st2
    /\ ImageGenerator.imageWithText st2 = Some (Encoded "image/png" out)
    /\ samePixels out img
    /\ cv_text (ImageGenerator.overlayCanvas br img st1) = [].
Proof.
  intros Hc Hv Hp Hg.
  unfold ImageGeneratorService.handleGenerate.
  destruct (String.eqb (ImageGenerator.prompt st) "") eqn:E;
    [apply String.eqb_eq in E; contradiction|].
  rewrite Hg.
  set (st1 := ImageGeneratorService.generated st
                (Some (dataUrlOf "image/jpeg" (bytes_of img))) None []).
  exists st1. eexists; eexists.
  split; [reflexivity|]. split; [reflexivity|]. split; [reflexivity|].
  split.
  { apply (overlay_loaded br st1 (Encoded "image/jpeg" img) img eq_refl eq_refl Hc). }
  cbn [ImageGenerator.imageWithText ImageGenerator.setImageWithText].
  rewrite (overlayCanvas_blank br img st1 eq_refl), toDataURL_png.
  split; [reflexivity|]. split; [apply (image_only_canvas img Hv) | reflexivity].
Qed.

Lemma new_image_starts_without_text_witness :
  exists st1,
    ImageGeneratorService.handleGenerate ServiceExamples.up
      (Examples.generatorWith (Examples.solid 2 2 Examples.white)
         (JsString.of_string "OLD") 64 ImageGenerator.top) = Normal st1
    /\ ImageGenerator.overlayText st1 = []
    /\ ImageGenerator.generatedImage st1
       = Some (Encoded "image/jpeg" (Examples.solid 4 4 Examples.white)).
Proof.
  assert (validImage (Examples.solid 4 4 Examples.white)) as Hv.
  { apply validImage_solid; [lia | lia |]. repeat split; discriminate. }
  destruct (new_image_starts_without_text idealBrowser ServiceExamples.up
              (Examples.generatorWith (Examples.solid 2 2 Examples.white)
                 (JsString.of_string "OLD") 64 ImageGenerator.top)
              (Examples.solid 4 4 Examples.white)
              eq_refl Hv ltac:(discriminate) eq_refl)
    as (st1 & st2 & out & H1 & H2 & _).
  exists st1. split; [exact H1|]. split; [exact H2|].
  injection H1 as <-. reflexivity.
Defined.

(** X23. A generation that fails leaves nothing behind: the previous image
    and its overlay text are gone, the effect clears the picture shown, and
    the user is told to try again, whatever the service error was. *)
Theorem failed_generation_clears_image (br : Browser) (sdk : Sdk)
    (st : ImageGenerator.State) (e : JsError) :
  ImageGenerator.prompt st <> "" ->
  generateImage sdk (ImageGenerator.prompt st)
    (ImageGeneratorService.ratioText (ImageGenerator.aspectRatio st))
  = Throw e ->
  exists st1 st2,
    ImageGeneratorService.handleGenerate sdk st = Normal st1
    /\ ImageGenerator.generatedImage st1 = None
    /\ ImageGenerator.overlayText st1 = []
    /\ ImageGenerator.error st1 = Some "Failed to generate image. Please try again."
    /\ ImageGenerator.overlayEffect br st1 = Normal st2
    /\ ImageGenerator.imageWithText st2 = None.
Proof.
  intros Hp Hg. unfold ImageGeneratorService.handleGenerate.
  destruct (String.eqb (ImageGenerator.prompt st) "") eqn:E;
    [apply String.eqb_eq in E; contradiction|].
  rewrite Hg. eexists; eexists. repeat split.
Qed.

Lemma failed_generation_clears_image_witness :
  exists st1 st2,
    ImageGeneratorService.handleGenerate ServiceExamples.blocked
      (Examples.generatorWith (Examples.solid 2 2 Examples.white)
         (JsString.of_string "OLD") 64 ImageGenerator.top) = Normal st1
    /\ ImageGenerator.overlayEffect idealBrowser st1 = Normal st2
    /\ ImageGenerator.imageWithText st2 = None.
Proof.
  destruct (failed_generation_clears_image idealBrowser ServiceExamples.blocked
              (Examples.generatorWith (Examples.solid 2 2 Examples.white)
                 (JsString.of_string "OLD") 64 ImageGenerator.top)
              (mkError callFailed) ltac:(discriminate) eq_refl)
    as (st1 & st2 & H1 & _ & _ & _ & H5 & H6).
  exists st1, st2. split; [exact H1 | split; [exact H5 | exact H6]].
Defined.

End ComponentsAndService.

(** ** Building and splitting data URLs *)

Section DataUrlFacts.

Import Stdlib.Strings.Ascii JsText DataUrlText.

Lemma split_without (sep : ascii) (s : string) :
  occurs sep s = false -> split sep s = [s].
Proof.
  induction s as [|c s IH]; [reflexivity|].
  simpl. intros H. apply orb_false_iff in H as [Hc Hs].
  rewrite Hc, (IH Hs). reflexivity.
Qed.

Lemma split_at_first (sep : ascii) (a b : string) :
  occurs sep a = false ->
  split sep (String.append a (String sep b)) = a :: split sep b.
Proof.
  induction a as [|c a IH]; intros H.
  - simpl. now rewrite Ascii.eqb_refl.
  - simpl in H. apply orb_false_iff in H as [Hc Ha].
    simpl. rewrite Hc, (IH Ha). reflexivity.
Qed.

Lemma occurs_append (c : ascii) (a b : string) :
  occurs c (String.append a b) = occurs c a || occurs c b.
Proof.
  induction a as [|d a IH]; [reflexivity|].
  simpl. rewrite IH. apply orb_assoc.
Qed.

Lemma append_assoc (a b c : string) :
  String.append a (String.append b c) = String.append (String.append a b) c.
Proof.
  induction a as [|d a IH]; [reflexivity|].
  change (String d (String.append a (String.append b c))
          = String d (String.append (String.append a b) c)).
  now rewrite IH.
Qed.

(** X24. Taking a data URL apart gives back what it was built from: for a
    type without comma, semicolon or colon, [mimeType] returns the type, and
    [base64Data] returns the payload up to its first comma, the whole payload
    when it has none (as in base64). A string without a comma has no payload
    ([undefined]). *)
Theorem data_url_round_trip (mime payload rest : string) :
  occurs "," mime = false ->
  occurs ";" mime = false ->
  occurs ":" mime = false ->
  occurs "," payload = false ->
  mimeType (build mime payload) = Some mime
  /\ base64Data (build mime payload) = Some payload
  /\ base64Data (build mime (String.append payload (String "," rest))) = Some payload
  /\ mimeType (build mime (String.append payload (String "," rest))) = Some mime
  /\ base64Data mime = None.
Proof.
  intros Hc Hs Hk Hp.
  assert (forall tail, build mime tail
                       = String.append (String.append "data:" (String.append mime ";base64"))
                           (String "," tail)) as Hb.
  { intros tail. unfold build. rewrite <- !append_assoc. reflexivity. }
  assert (occurs "," (String.append "data:" (String.append mime ";base64")) = false) as Hh.
  { rewrite !occurs_append, Hc. reflexivity. }
  assert (split ";" (String.append "data:" (String.append mime ";base64")) !! 0%nat
          = Some (String.append "data:" mime)) as Hsemi.
  { replace (String.append "data:" (String.append mime ";base64"))
      with (String.append (String.append "data:" mime) (String ";" "base64"))
      by (rewrite <- !append_assoc; reflexivity).
    rewrite split_at_first; [reflexivity|].
    rewrite occurs_append, Hs. reflexivity. }
  assert (split ":" (String.append "data:" mime) !! 1%nat = Some mime) as Hcolon.
  { change (String.append "data:" mime) with (String.append "data" (String ":" mime)).
    rewrite split_at_first by reflexivity. rewrite (split_without ":" mime Hk). reflexivity. }
  assert (forall tail, mimeType (build mime tail) = Some mime) as Hm.
  { intros tail. unfold mimeType. rewrite Hb, (split_at_first "," _ _ Hh).
    cbn [lookup list_lookup]. rewrite Hsemi. exact Hcolon. }
  split; [apply Hm|]. split.
  { unfold base64Data. rewrite Hb, (split_at_first "," _ _ Hh), (split_without "," _ Hp).
    reflexivity. }
  split.
  { unfold base64Data. rewrite Hb, (split_at_first "," _ _ Hh), (split_at_first "," _ _ Hp).
    reflexivity. }
  split; [apply Hm|].
  unfold base64Data. rewrite (split_without "," mime Hc). reflexivity.
Qed.

Lemma data_url_round_trip_witness :
  mimeType "data:image/jpeg;base64,/9j/4AAQ" = Some "image/jpeg"
  /\ base64Data "data:image/jpeg;base64,/9j/4AAQ" = Some "/9j/4AAQ".
Proof.
  destruct (data_url_round_trip "image/jpeg" "/9j/4AAQ" ""
              eq_refl eq_refl eq_refl eq_refl) as (H1 & H2 & _).
  split; [exact H1 | exact H2].
Defined.

End DataUrlFacts.

(** ** Cancelling an edit, and mounting twice *)

Section EditorAndMount.

Import Canvas Types BillScanner EditorPanel GeminiService.

Lemma tweaks_frame (ts : list Tweak) (st : State) :
  image (tweaks ts st) = image st
  /\ originalImage (tweaks ts st) = originalImage st
  /\ rotation (tweaks ts st) = rotation st
  /\ brightness (tweaks ts st) = brightness st
  /\ isEditing (tweaks ts st) = isEditing st
  /\ history (tweaks ts st) = history st
  /\ localStorage (tweaks ts st) = localStorage st.
Proof.
  revert st. induction ts as [|t ts IH]; intros st; [repeat split|].
  change (tweaks (t :: ts) st) with (tweaks ts (tweak t st)).
  destruct (IH (tweak t st)) as (H1 & H2 & H3 & H4 & H5 & H6 & H7).
  rewrite H1, H2, H3, H4, H5, H6, H7. destruct t; repeat split.
Qed.

(** X25. Cancel really cancels: whatever is done to the rotation buttons and
    the brightness slider after the panel was opened, closing it without
    Apply leaves the picture, the applied rotation and the applied
    brightness as they were, and the next opening starts from the applied
    values again. *)
Theorem cancel_discards_tweaks (ts : list Tweak) (st : State) :
  isEditing st = false ->
  let cancelled := handleEditToggle (tweaks ts (handleEditToggle st)) in
  image cancelled = image st
  /\ rotation cancelled = rotation st
  /\ brightness cancelled = brightness st
  /\ isEditing cancelled = false
  /\ tempRotation (handleEditToggle cancelled) = rotation st
  /\ tempBrightness (handleEditToggle cancelled) = brightness st.
Proof.
  intros He cancelled.
  assert (image (handleEditToggle st) = image st
          /\ rotation (handleEditToggle st) = rotation st
          /\ brightness (handleEditToggle st) = brightness st
          /\ isEditing (handleEditToggle st) = true) as (G1 & G3 & G4 & G5)
    by (unfold handleEditToggle; rewrite He; repeat split).
  destruct (tweaks_frame ts (handleEditToggle st)) as (H1 & _ & H3 & H4 & H5 & _).
  rewrite G1 in H1. rewrite G3 in H3. rewrite G4 in H4. rewrite G5 in H5.
  subst cancelled. generalize dependent (tweaks ts (handleEditToggle st)).
  intros mid H1 H3 H4 H5.
  unfold handleEditToggle. rewrite H5.
  cbn [image rotation brightness isEditing tempRotation tempBrightness edit].
  rewrite H1, H3, H4. repeat split.
Qed.

Lemma cancel_discards_tweaks_witness :
  rotation (handleEditToggle
              (tweaks [turnRight; turnRight; slideTo (3 # 2)]
                 (handleEditToggle (Examples.scannerWith (Examples.solid 2 2 Examples.white)))))
  = 0%Z
  /\ tempRotation
       (tweaks [turnRight; turnRight; slideTo (3 # 2)]
          (handleEditToggle (Examples.scannerWith (Examples.solid 2 2 Examples.white))))
     = 180%Z.
Proof.
  destruct (cancel_discards_tweaks [turnRight; turnRight; slideTo (3 # 2)]
              (Examples.scannerWith (Examples.solid 2 2 Examples.white)) eq_refl)
    as (_ & H & _).
  split; [exact H | reflexivity].
Defined.

(** X26. The mount effect heals a corrupt entry and is safe to run again: an
    entry that does not parse is removed (every other key stays), an entry
    that parses becomes the history, and a second run changes nothing. *)
Theorem mount_heals_and_settles (st : State) :
  mountEffect (mountEffect st) = mountEffect st
  /\ (forall text, text <> "" ->
        localStorage st !! historyKey = Some (Garbage text) ->
        localStorage (mountEffect st) !! historyKey = None
        /\ history (mountEffect st) = history st)
  /\ (forall entries,
        localStorage st !! historyKey = Some (Json entries) ->
        history (mountEffect st) = entries
        /\ localStorage (mountEffect st) = localStorage st)
  /\ (forall key, key <> historyKey ->
        localStorage (mountEffect st) !! key = localStorage st !! key).
Proof.
  split; [|split; [|split]].
  - unfold mountEffect at 2.
    destruct (localStorage st !! historyKey) as [[entries | text]|] eqn:E.
    + unfold mountEffect; cbn [localStorage]. rewrite E. reflexivity.
    + destruct (String.eqb text "") eqn:Et.
      * unfold mountEffect. now rewrite E, Et.
      * unfold mountEffect; cbn [localStorage]. now rewrite lookup_delete_eq, E, Et.
    + unfold mountEffect. now rewrite E.
  - intros text Ht E. unfold mountEffect. rewrite E.
    destruct (String.eqb text "") eqn:Et; [apply String.eqb_eq in Et; contradiction|].
    cbn [localStorage history]. split; [apply lookup_delete_eq | reflexivity].
  - intros entries E. unfold mountEffect. rewrite E. split; reflexivity.
  - intros key Hk. unfold mountEffect.
    destruct (localStorage st !! historyKey) as [[entries | text]|]; try reflexivity.
    destruct (String.eqb text ""); [reflexivity|].
    cbn [localStorage]. now apply lookup_delete_ne.
Qed.

(** [extractTextFromImage] passes the text of the answer through as it is,
    and fails in two ways only: as a safety block when the message of
    the service error contains SAFETY, as a plain failure otherwise. *)
Theorem extractText_outcomes (sdk : Sdk) (data : DataUrl) (mime : string) :
  let request := {| req_model := "gemini-2.5-flash"; req_data := data;
                    req_mimeType := mime; req_text := ocrPrompt;
                    req_json := false; req_image := false |} in
  (forall response,
      generateContent sdk request = Normal response ->
      extractTextFromImage sdk data mime = Normal (resp_text response))
  /\ (forall e,
        generateContent sdk request = Throw e ->
        extractTextFromImage sdk data mime
        = Throw (mkError (if JsText.includes "SAFETY" (err_message e)
                          then blockedOcr else failedOcr)))
  /\ (forall e, extractTextFromImage sdk data mime = Throw e ->
                e = mkError blockedOcr \/ e = mkError failedOcr).
Proof.
  cbv zeta. unfold extractTextFromImage.
  split; [|split].
  - intros response ->. reflexivity.
  - intros e ->. destruct (JsText.includes "SAFETY" (err_message e)); reflexivity.
  - intros e. destruct (generateContent sdk _) as [response | e']; [discriminate|].
    destruct (JsText.includes "SAFETY" (err_message e')); intros [= <-]; auto.
Qed.

End EditorAndMount.
